(** * TrendDrop payment webhooks: a shallow embedding of the edge functions

    The development follows the three webhook handlers
    ([supabase/functions/stripe-webhook], [gumroad-webhook],
    [payhip-webhook]) and the client helper [lib/premiumStatus.ts].

    - JavaScript strings are [string]s whose characters stand for code units
      in the Latin-1 range.
    - JavaScript values that travel through [JSON.parse] are the type
      [jsval]; [VUndef] is the value of a missing property.
    - Platform primitives the handlers call but do not define (the Web Crypto
      HMAC, [JSON.parse], [URLSearchParams], [Number]) are section variables.
    - The database, the mail provider and the chat platform are a [world]
      that the handlers thread explicitly; the result of every remote call is
      read from an [oracle], so that each failure branch of the source can be
      taken. *)

From Stdlib Require Import ZArith NArith Ascii String List Bool Lia.
From stdpp Require Import base strings list gmap pretty.

Local Open Scope string_scope.

(** ** JavaScript strings *)

Module JsString.

Definition charCodeAt (c : ascii) : N := N_of_ascii c.

(** [WhiteSpace] and [LineTerminator] code units below 256. *)
Definition isWhiteSpace (c : ascii) : bool :=
  let n := charCodeAt c in
  ((9 <=? n) && (n <=? 13) || (n =? 32) || (n =? 160))%N.

Fixpoint trimStart (s : string) : string :=
  match s with
  | String c s' => if isWhiteSpace c then trimStart s' else s
  | EmptyString => EmptyString
  end.

Fixpoint trimEnd (s : string) : string :=
  match s with
  | String c s' =>
      let r := trimEnd s' in
      if isWhiteSpace c && String.eqb r "" then "" else String c r
  | EmptyString => EmptyString
  end.

Definition trim (s : string) : string := trimEnd (trimStart s).

Definition lowerChar (c : ascii) : ascii :=
  let n := charCodeAt c in
  if ((65 <=? n) && (n <=? 90)
      || (192 <=? n) && (n <=? 222) && negb (n =? 215))%N
  then ascii_of_N (n + 32) else c.

Fixpoint toLowerCase (s : string) : string :=
  match s with
  | String c s' => String (lowerChar c) (toLowerCase s')
  | EmptyString => EmptyString
  end.

(** [s.split(sep)] for a one-character separator: never the empty list. *)
Fixpoint split (sep : ascii) (s : string) : list string :=
  match s with
  | EmptyString => [EmptyString]
  | String c s' =>
      let r := split sep s' in
      if Ascii.eqb c sep then EmptyString :: r
      else match r with
           | h :: t => String c h :: t
           | [] => [String c EmptyString]
           end
  end.

(** [hay.includes(needle)] *)
Fixpoint includes (needle hay : string) : bool :=
  String.prefix needle hay
  || match hay with
     | String _ hay' => includes needle hay'
     | EmptyString => false
     end.

(** [s.replace(/^@+/, "")] *)
Fixpoint stripLeadingAt (s : string) : string :=
  match s with
  | String c s' => if Ascii.eqb c "@"%char then stripLeadingAt s' else s
  | EmptyString => EmptyString
  end.

(** A string is falsy exactly when it is empty. *)
Definition truthy (s : string) : bool := negb (String.eqb s "").

(** [null] or a string, as [read] of [_shared/config.ts] returns it. *)
Definition truthy_opt (o : option string) : bool :=
  match o with Some s => truthy s | None => false end.

End JsString.

(** ** Outcomes of code that may throw *)

Inductive outcome (A : Type) : Type :=
| Ret (a : A)
| Throw (msg : string).
Arguments Ret {A} a.
Arguments Throw {A} msg.

Definition obind {A B} (x : outcome A) (f : A -> outcome B) : outcome B :=
  match x with Ret a => f a | Throw m => Throw m end.

(** ** The card processor's signature scheme
    [supabase/functions/stripe-webhook/index.ts], lines 38-86 *)

Module StripeSig.
Import JsString.

(** The loop body [r |= a.charCodeAt(i) ^ b.charCodeAt(i)], run over the
    common positions of [a] and [b]. *)
Fixpoint xor_accumulate (a b : string) (r : N) : N :=
  match a, b with
  | String x a', String y b' =>
      xor_accumulate a' b' (N.lor r (N.lxor (charCodeAt x) (charCodeAt y)))
  | _, _ => r
  end.

(** timing-safe equality *)
Definition tsec (a b : string) : bool :=
  if negb (Nat.eqb (String.length a) (String.length b)) then false
  else N.eqb (xor_accumulate a b 0) 0.

(** [const [k, v] = p.split("=")]: [v] is [undefined] ([None]) when the
    segment holds no [=]. *)
Definition key_value (p : string) : string * option string :=
  match split "="%char p with
  | k :: v :: _ => (k, Some v)
  | k :: [] => (k, None)
  | [] => (EmptyString, None)
  end.

Record sig_state := { sig_t : option string; sig_v1 : list (option string) }.

Definition scan_part (st : sig_state) (p : string) : sig_state :=
  let '(k, v) := key_value p in
  let st1 := if String.eqb k "t" then {| sig_t := v; sig_v1 := sig_v1 st |} else st in
  if String.eqb k "v1" then {| sig_t := sig_t st1; sig_v1 := sig_v1 st1 ++ [v] |} else st1.

Definition scan_parts (parts : list string) : sig_state :=
  fold_left scan_part parts {| sig_t := None; sig_v1 := [] |}.

(** Stripe [Stripe-Signature] header parser; the argument is [None] for a
    [null] header. *)
Definition parseStripeSigHeader (header : option string)
  : option (string * list (option string)) :=
  match header with
  | None => None
  | Some h =>
      if negb (truthy h) then None
      else
        let parts := map trim (split ","%char h) in
        let st := scan_parts parts in
        match sig_t st with
        | None => None
        | Some t =>
            if negb (truthy t) || Nat.eqb (length (sig_v1 st)) 0 then None
            else Some (t, sig_v1 st)
        end
  end.

(** [parsed.v1.some((given) => tsec(given, expected))]: candidates are tried
    in order; [tsec] reads [given.length], which throws on [undefined]. *)
Fixpoint some_tsec (v1 : list (option string)) (expected : string) : outcome bool :=
  match v1 with
  | [] => Ret false
  | None :: _ =>
      Throw "Cannot read properties of undefined (reading 'length')"
  | Some given :: rest =>
      if tsec given expected then Ret true else some_tsec rest expected
  end.

Section Verify.
Variable hmacSHA256Hex : string -> string -> string.

(** Verify Stripe signature WITHOUT the Stripe SDK *)
Definition verifyStripeSignature (rawBody sigHeader secret : string) : outcome bool :=
  match parseStripeSigHeader (Some sigHeader) with
  | None => Ret false
  | Some (t, v1) =>
      let signedPayload := t +:+ "." +:+ rawBody in
      let expected := hmacSHA256Hex secret signedPayload in
      some_tsec v1 expected
  end.

End Verify.
End StripeSig.

(** ** JavaScript values as they come out of [JSON.parse] *)

Module JsValue.
Import JsString.

(** Numbers are the integer-valued ones, held by their value: the handlers
    only test them for truthiness and print them. Beyond [2^53] a value
    stands for a double only when it is one. *)
#[local] Set Warnings "-register-all".
Inductive jsval : Type :=
| VUndef
| VNull
| VBool (b : bool)
| VNum (n : Z)
| VStr (s : string)
| VArr (xs : list jsval)
| VObj (fields : list (string * jsval)).

Fixpoint assoc (k : string) (fs : list (string * jsval)) : option jsval :=
  match fs with
  | [] => None
  | (k', v) :: fs' => if String.eqb k k' then Some v else assoc k fs'
  end.

(** [out[k] = v] on a plain object: overwrite in place or append. *)
Fixpoint assoc_set (k : string) (v : jsval) (fs : list (string * jsval))
  : list (string * jsval) :=
  match fs with
  | [] => [(k, v)]
  | (k', v') :: fs' =>
      if String.eqb k k' then (k, v) :: fs' else (k', v') :: assoc_set k v fs'
  end.

Definition nullish (v : jsval) : bool :=
  match v with VUndef | VNull => true | _ => false end.

(** The names every object inherits from [Object.prototype]. *)
Definition inherited (p : string) : bool :=
  existsb (String.eqb p)
    ["constructor"; "toString"; "toLocaleString"; "valueOf"; "hasOwnProperty";
     "isPrototypeOf"; "propertyIsEnumerable"; "__proto__"; "__defineGetter__";
     "__defineSetter__"; "__lookupGetter__"; "__lookupSetter__"].

(** Reading a named property off a value that is not [null]/[undefined]:
    the own property. The names the handlers read ([id], [email], ...) are
    none of the [inherited] ones and none of a string's or an array's, so a
    missing own property reads as [undefined]. *)
Definition prop (v : jsval) (p : string) : jsval :=
  match v with
  | VObj fs => match assoc p fs with Some x => x | None => VUndef end
  | _ => VUndef
  end.

(** [v.p] and [v[p]]: a TypeError on [null] and [undefined]. *)
Definition get (v : jsval) (p : string) : outcome jsval :=
  if nullish v then
    Throw ("Cannot read properties of "
           +:+ (match v with VNull => "null" | _ => "undefined" end)
           +:+ " (reading '" +:+ p +:+ "')")
  else Ret (prop v p).

(** [v?.p] *)
Definition oget (v : jsval) (p : string) : jsval :=
  if nullish v then VUndef else prop v p.

(** [v?.[0]] *)
Definition oget0 (v : jsval) : jsval :=
  match v with
  | VArr (x :: _) => x
  | VStr (String c _) => VStr (String c EmptyString)
  | VObj fs => match assoc "0" fs with Some x => x | None => VUndef end
  | _ => VUndef
  end.

(** [a ?? b] *)
Definition coalesce (a b : jsval) : jsval := if nullish a then b else a.

Definition truthy_val (v : jsval) : bool :=
  match v with
  | VUndef | VNull => false
  | VBool b => b
  | VNum n => negb (Z.eqb n 0)
  | VStr s => truthy s
  | VArr _ | VObj _ => true
  end.

(** [a || b] *)
Definition or_else (a b : jsval) : jsval := if truthy_val a then a else b.

(** [v === "literal"] *)
Definition is_str (v : jsval) (s : string) : bool :=
  match v with VStr s' => String.eqb s' s | _ => false end.

Definition join (sep : string) (parts : list string) : string :=
  match parts with
  | [] => EmptyString
  | p :: ps => fold_left (fun acc q => acc +:+ sep +:+ q) ps p
  end.

(** Trailing zeros dropped. *)
Fixpoint strip_zeros (s : string) : string :=
  match s with
  | EmptyString => EmptyString
  | String c r =>
      let r' := strip_zeros r in
      if Ascii.eqb c "0"%char && String.eqb r' "" then "" else String c r'
  end.

(** Whether the decimal [c] reads back as the double [n], for [n] from
    [2^53] on: [c] lies within half a step of [n], the ends included when
    the mantissa of [n] is even. Bounds are doubled to stay in the integers;
    below a power of two the doubles are twice as dense. *)
Definition reads_back (n c : Z) : bool :=
  let e := Z.log2 n in
  let step := (2 ^ (e - 52))%Z in
  let below := if (n =? 2 ^ e)%Z then (step / 2)%Z else step in
  if Z.even (n / step)
  then (2 * n - below <=? 2 * c)%Z && (2 * c <=? 2 * n + step)%Z
  else (2 * n - below <? 2 * c)%Z && (2 * c <? 2 * n + step)%Z.

(** The decimal with all digits below [10^p] zero that reads back as [n],
    the nearer of the two when both neighbours do, the even one on a tie. *)
Definition shortest_at (n p : Z) : option Z :=
  let s := (n / 10 ^ p)%Z in
  let c0 := (s * 10 ^ p)%Z in
  let c1 := ((s + 1) * 10 ^ p)%Z in
  match reads_back n c0, reads_back n c1 with
  | true, true =>
      Some (if (n - c0 <? c1 - n)%Z then c0
            else if (c1 - n <? n - c0)%Z then c1
            else if Z.even s then c0 else c1)
  | true, false => Some c0
  | false, true => Some c1
  | false, false => None
  end.

Fixpoint shortest_from (n : Z) (p : nat) : Z :=
  match shortest_at n (Z.of_nat p) with
  | Some c => c
  | None => match p with O => n | S p' => shortest_from n p' end
  end.

(** The decimal JavaScript prints for a non-negative integer-valued number:
    the one with the fewest significant digits that reads back as the same
    double. Up to [2^53] that is the integer itself. *)
Definition shortest (n : Z) : Z :=
  if (n <? 2 ^ 53)%Z then n else shortest_from n (String.length (pretty n)).

(** [Number.prototype.toString] on an integer: the digits of [shortest]
    below [1e21], and from there on the exponent form, [1e+21],
    [1.5e+21]. *)
Definition Number_toString (n : Z) : string :=
  let c := shortest (Z.abs n) in
  let sign := if (n <? 0)%Z then "-" else EmptyString in
  if (c <? 10 ^ 21)%Z then sign +:+ pretty c
  else
    match pretty c with
    | String d rest =>
        sign
        +:+ String d (match strip_zeros rest with
                      | EmptyString => EmptyString
                      | m => "." +:+ m
                      end)
        +:+ "e+" +:+ pretty (String.length rest)
    | EmptyString => EmptyString
    end.

(** What [String(v)] gives when it returns. *)
Fixpoint to_text (v : jsval) : string :=
  match v with
  | VUndef => "undefined"
  | VNull => "null"
  | VBool true => "true"
  | VBool false => "false"
  | VNum n => Number_toString n
  | VStr s => s
  | VArr xs =>
      join ","
        ((fix elems (l : list jsval) : list string :=
            match l with
            | [] => []
            | x :: l' => (if nullish x then EmptyString else to_text x) :: elems l'
            end) xs)
  | VObj _ => "[object Object]"
  end.

(** Whether [String(v)] returns. An object is converted through its
    [toString]: the inherited one, unless the object has an own property of
    that name, which in a parsed payload is never a function, and then the
    conversion throws. An array converts its elements. *)
Fixpoint convertible (v : jsval) : bool :=
  match v with
  | VObj fs =>
      match assoc "toString" fs with Some _ => false | None => true end
  | VArr xs => forallb convertible xs
  | _ => true
  end.

(** [String(v)], and [v] inside a template literal *)
Definition js_String (v : jsval) : outcome string :=
  if convertible v then Ret (to_text v)
  else Throw "Cannot convert object to primitive value".

(** Structural comparison, used where the database compares a stored column
    with a submitted one. *)
Fixpoint jsval_eqb (a b : jsval) : bool :=
  match a, b with
  | VUndef, VUndef => true
  | VNull, VNull => true
  | VBool x, VBool y => Bool.eqb x y
  | VNum x, VNum y => Z.eqb x y
  | VStr x, VStr y => String.eqb x y
  | VArr xs, VArr ys =>
      (fix all2 (l1 l2 : list jsval) : bool :=
         match l1, l2 with
         | [], [] => true
         | x :: l1', y :: l2' => jsval_eqb x y && all2 l1' l2'
         | _, _ => false
         end) xs ys
  | VObj fs, VObj gs =>
      (fix all2 (l1 l2 : list (string * jsval)) : bool :=
         match l1, l2 with
         | [], [] => true
         | (k, x) :: l1', (k', y) :: l2' =>
             String.eqb k k' && jsval_eqb x y && all2 l1' l2'
         | _, _ => false
         end) fs gs
  | _, _ => false
  end.

End JsValue.

Declare Scope js_scope.
Delimit Scope js_scope with js.
Notation "a ?? b" := (JsValue.coalesce a b)
  (at level 68, right associativity) : js_scope.
Notation "a |? b" := (JsValue.or_else a b)
  (at level 69, right associativity) : js_scope.
Notation "v ?. p" := (JsValue.oget v p)
  (at level 19, left associativity, format "v ?. p") : js_scope.
Notation "'let?' x := e 'in' k" := (obind e (fun x => k))
  (at level 10, x name, e at level 100, k at level 200).

(** ** Configuration, requests and responses *)

Module Http.
Import JsString JsValue.

(** The exports of [supabase/_shared/config.ts] the handlers import. [read]
    yields [null] or a trimmed non-empty string; the two Supabase settings
    default to the empty string. *)
Record config := {
  stripeWebhookSecret : option string;
  brevoApiKey : option string;
  emailFrom : option string;
  telegramInviteUrl : option string;
  supabaseUrl : string;
  supabaseServiceRoleKey : string;
  telegramBotToken : option string;
  telegramCommunityChatId : option string;
  reportsBucket : string;
  requireGumroadAuth : bool;
  gumroadWebhookSecret : option string;
  gumroadSellerId : option string;
  payhipApiKey : option string
}.

(** [db] is a client exactly when both Supabase settings are non-empty. *)
Definition has_db (cfg : config) : bool :=
  truthy (supabaseUrl cfg) && truthy (supabaseServiceRoleKey cfg).

(** Header names are stored in lower case; [headers.get] ignores case. *)
Record request := {
  method : string;
  headers : gmap string string;
  body : string
}.

Definition header (req : request) (name : string) : option string :=
  headers req !! toLowerCase name.

Inductive payload :=
| Json (v : jsval)
| Text (s : string).

Record response := { status : Z; content : payload }.

Definition json_response (st : Z) (v : jsval) : response :=
  {| status := st; content := Json v |}.

End Http.

(** ** The world outside the handlers *)

Module World.
Import JsValue.

Record ledger_row := { event_id : jsval; event_type : jsval }.

Record customer_row := {
  cust_id : nat;
  stripe_customer_id : jsval;
  cust_email : jsval
}.

Record subscription_row := {
  customer_id : option nat;
  stripe_subscription_id : jsval;
  stripe_checkout_session_id : jsval;
  sub_status : string;
  plan_id : jsval;
  last_event_at : string
}.

Record onboarding_row := {
  to_email : jsval;
  product_name : string;
  ob_event_id : string;
  ob_checkout_session_id : jsval;
  ob_customer_id : jsval;
  ob_status : string;
  error_message : option string
}.

(** The marketplace adapters share the table [subscribers]; [VNull] is a
    column that was never written. *)
Record subscriber_row := {
  sale_id : jsval;
  email : jsval;
  product_id : jsval;
  seller_id : jsval;
  full_name : jsval;
  source : jsval;
  revoked_at : option string;
  pdf_url : option string;
  csv_url : option string
}.

Record database := {
  stripe_event_ledger : list ledger_row;
  customers : list customer_row;
  premium_subscriptions : list subscription_row;
  onboarding_emails : list onboarding_row;
  subscribers : list subscriber_row
}.

Definition empty_database : database :=
  {| stripe_event_ledger := []; customers := []; premium_subscriptions := [];
     onboarding_emails := []; subscribers := [] |}.

Definition with_ledger (l : list ledger_row) (db : database) : database :=
  {| stripe_event_ledger := l; customers := customers db;
     premium_subscriptions := premium_subscriptions db;
     onboarding_emails := onboarding_emails db; subscribers := subscribers db |}.

Definition with_customers (l : list customer_row) (db : database) : database :=
  {| stripe_event_ledger := stripe_event_ledger db; customers := l;
     premium_subscriptions := premium_subscriptions db;
     onboarding_emails := onboarding_emails db; subscribers := subscribers db |}.

Definition with_subscriptions (l : list subscription_row) (db : database) : database :=
  {| stripe_event_ledger := stripe_event_ledger db; customers := customers db;
     premium_subscriptions := l;
     onboarding_emails := onboarding_emails db; subscribers := subscribers db |}.

Definition with_onboarding (l : list onboarding_row) (db : database) : database :=
  {| stripe_event_ledger := stripe_event_ledger db; customers := customers db;
     premium_subscriptions := premium_subscriptions db;
     onboarding_emails := l; subscribers := subscribers db |}.

Definition with_subscribers (l : list subscriber_row) (db : database) : database :=
  {| stripe_event_ledger := stripe_event_ledger db; customers := customers db;
     premium_subscriptions := premium_subscriptions db;
     onboarding_emails := onboarding_emails db; subscribers := l |}.

(** Requests a handler issues to its collaborators, in the order issued. *)
Inductive call :=
| DbUpsert (table onConflict : string)
| DbInsert (table : string)
| DbUpdate (table column : string)
| SignedUrl (bucket key : string)
| BrevoSend (to : jsval) (subject productName : string)
| TelegramSend (text : string)
| AddTelegramMember (rawTg : string).

Definition is_upsert_on (table : string) (c : call) : bool :=
  match c with DbUpsert t _ => String.eqb t table | _ => false end.

Definition is_insert_on (table : string) (c : call) : bool :=
  match c with DbInsert t => String.eqb t table | _ => false end.

Definition is_email (c : call) : bool :=
  match c with BrevoSend _ _ _ => true | _ => false end.

Definition count (f : call -> bool) (cs : list call) : nat := length (List.filter f cs).

(** Call sites whose result the oracle supplies. *)
Inductive site :=
| LedgerUpsert | CustomersUpsert | SubscriptionsUpsert | OnboardingInsert
| GumroadSaleUpsert | GumroadLinksUpdate | GumroadRevoke
| PayhipUpsert | PayhipRevoke.

(** What a database request comes back with: applied, refused with an
    [error] in the reply, or a rejected promise. *)
Inductive db_result := DbOk | DbError (message : string) | DbThrow (message : string).

(** What [fetch] comes back with: a response, or a rejected promise. *)
Inductive http_result := HttpResponse (code : Z) | HttpThrow (message : string).

(** [res.ok] *)
Definition res_ok (code : Z) : bool := ((200 <=? code) && (code <=? 299))%Z.

Record oracle := {
  now : string;
  db_result_of : site -> db_result;
  brevo : http_result;
  (** what [res.text()] yields on the mail provider's response *)
  brevo_text : outcome string;
  telegram : http_result;
  add_member : http_result;
  signed_pdf : outcome (option string);
  signed_csv : outcome (option string)
}.

(** *** Handlers as state-passing computations that may throw and that
    report the calls they issued *)

Definition M (A : Type) : Type := database -> outcome A * database * list call.

Definition ret {A} (a : A) : M A := fun db => (Ret a, db, []).
Definition throw {A} (msg : string) : M A := fun db => (Throw msg, db, []).
Definition lift {A} (x : outcome A) : M A := fun db => (x, db, []).
Definition issue (c : call) : M unit := fun db => (Ret tt, db, [c]).

Definition bind {A B} (m : M A) (k : A -> M B) : M B :=
  fun db =>
    match m db with
    | (Ret a, db1, cs1) =>
        match k a db1 with (r, db2, cs2) => (r, db2, (cs1 ++ cs2)%list) end
    | (Throw msg, db1, cs1) => (Throw msg, db1, cs1)
    end.

(** [try { m } catch (e) { h e }] *)
Definition try_catch {A} (m : M A) (h : string -> M A) : M A :=
  fun db =>
    match m db with
    | (Ret a, db1, cs1) => (Ret a, db1, cs1)
    | (Throw msg, db1, cs1) =>
        match h msg db1 with (r, db2, cs2) => (r, db2, (cs1 ++ cs2)%list) end
    end.

(** What a run leaves behind. *)
Definition result_of {A} (r : outcome A * database * list call) : outcome A := fst (fst r).
Definition db_of {A} (r : outcome A * database * list call) : database := snd (fst r).
Definition calls_of {A} (r : outcome A * database * list call) : list call := snd r.

(** From every database, [m] leaves a database related to it by [R] and
    issues only calls that satisfy [P]. *)
Definition keeps {A} (R : database -> database -> Prop) (P : call -> Prop)
    (m : M A) : Prop :=
  forall db, R db (db_of (m db)) /\ Forall P (calls_of (m db)).

(** The calls [m] issues are among those of [L], in order. *)
Definition within {A} (L : list call) (m : M A) : Prop :=
  forall db, sublist (calls_of (m db)) L.

Inductive db_reply (A : Type) :=
| Data (a : A)
| Error (message : string).
Arguments Data {A} a.
Arguments Error {A} message.

(** One database request: the call is issued, and the oracle decides whether
    the change [apply] lands. *)
Definition db_request {A} (o : oracle) (s : site) (c : call)
    (apply : database -> database * A) : M (db_reply A) :=
  fun db =>
    match db_result_of o s with
    | DbOk => let '(db', a) := apply db in (Ret (Data a), db', [c])
    | DbError m => (Ret (Error m), db, [c])
    | DbThrow m => (Throw m, db, [c])
    end.

(** A unique column never conflicts on [NULL]. *)
Definition conflicts (stored submitted : jsval) : bool :=
  negb (nullish submitted) && jsval_eqb stored submitted.

(** [upsert(row, { onConflict })]: the rows that conflict are merged with the
    submitted columns, and the row is appended when none does. *)
Definition upsert_rows {R} (same : R -> bool) (merge : R -> R) (fresh : R)
    (rows : list R) : list R :=
  if existsb same rows then map (fun r => if same r then merge r else r) rows
  else (rows ++ [fresh])%list.

(** [update(patch).eq(column, value)] *)
Definition update_rows {R} (matches : R -> bool) (patch : R -> R)
    (rows : list R) : list R :=
  map (fun r => if matches r then patch r else r) rows.

(** [update({ revoked_at: t })] on one row of [subscribers] *)
Definition set_revoked (t : string) (r : subscriber_row) : subscriber_row :=
  {| sale_id := sale_id r; email := email r;
     product_id := product_id r; seller_id := seller_id r;
     full_name := full_name r; source := source r;
     revoked_at := Some t;
     pdf_url := pdf_url r; csv_url := csv_url r |}.

(** The text a column holds, as [.eq(column, text)] compares it. *)
Definition column_is (stored : jsval) (text : string) : bool :=
  negb (nullish stored) && String.eqb (to_text stored) text.

End World.

Notation "x <- m ;; k" := (World.bind m (fun x => k))
  (at level 100, m at next level, right associativity).

(** ** The card-processor adapter
    [supabase/functions/stripe-webhook/index.ts] *)

Module Stripe.
Import JsString JsValue Http World StripeSig.
Local Open Scope js_scope.

Record NormalizedStripeInfo := {
  eventId : string;
  customerId : jsval;
  checkoutSessionId : jsval;
  email : jsval;
  productName : string;
  planId : jsval
}.

Inductive BrevoResult := BrevoOk | BrevoFailed (error : string).

Definition brevo_ok (b : BrevoResult) : bool :=
  match b with BrevoOk => true | BrevoFailed _ => false end.

Definition bad (msg : string) (st : Z) : response :=
  json_response st (VObj [("ok", VBool false); ("error", VStr msg)]).

Definition ok (data : jsval) : response := json_response 200 data.

(** extract product name (best-effort) *)
Definition extractProductName (evt : jsval) : outcome string :=
  let obj := evt?."data"?."object" ?? VObj [] in
  let metaName := obj?."metadata"?."product_name" in
  if truthy_val metaName then js_String metaName
  else
    let line := oget0 (obj?."display_items") in
    let planName := line?."plan"?."nickname" ?? line?."price"?."nickname" ?? VStr "" in
    if truthy_val planName then js_String planName else Ret "Premium Access".

(** try to find buyer email across shapes *)
Definition extractBuyerEmail (evt : jsval) : jsval :=
  let obj := evt?."data"?."object" in
  let type := evt?."type" in
  if is_str type "checkout.session.completed" then
    obj?."customer_details"?."email" ?? obj?."customer_email"
      ?? obj?."customer"?."email" ?? VNull
  else if is_str type "payment_intent.succeeded" then
    obj?."receipt_email" ?? obj?."customer"?."email"
      ?? obj?."latest_charge"?."billing_details"?."email" ?? VNull
  else if is_str type "invoice.paid" then
    obj?."customer_email" ?? obj?."customer"?."email"
      ?? obj?."account_customer_email" ?? VNull
  else VNull.

Definition normalizeStripeEvent (evt : jsval) : outcome NormalizedStripeInfo :=
  let obj := evt?."data"?."object" ?? VObj [] in
  let type := evt?."type" ?? VStr "" in
  let? base_eventId := js_String (evt?."id" ?? VStr "") in
  let? base_productName := extractProductName evt in
  Ret
  (if is_str type "checkout.session.completed" then
    {| eventId := base_eventId;
       customerId := obj?."customer" ?? VNull;
       checkoutSessionId := obj?."id" ?? VNull;
       email := obj?."customer_details"?."email" ?? obj?."customer_email"
                  ?? obj?."customer"?."email" ?? VNull;
       productName := base_productName;
       planId := obj?."metadata"?."plan_id" ?? obj?."metadata"?."product_name" ?? VNull |}
  else if is_str type "payment_intent.succeeded" then
    let charges0 := oget0 (obj?."charges"?."data") in
    {| eventId := base_eventId;
       customerId := obj?."customer" ?? VNull;
       checkoutSessionId := obj?."metadata"?."checkout_session_id"
                              ?? obj?."latest_charge" ?? VNull;
       email := charges0?."billing_details"?."email" ?? obj?."receipt_email"
                  ?? obj?."customer"?."email" ?? VNull;
       productName := base_productName;
       planId := obj?."metadata"?."plan_id" ?? obj?."metadata"?."product_name" ?? VNull |}
  else
    {| eventId := base_eventId; customerId := VNull; checkoutSessionId := VNull;
       email := VNull; productName := base_productName; planId := VNull |}).

(** Only these events send the email *)
Definition shouldSend (type : jsval) : bool :=
  is_str type "checkout.session.completed"
  || is_str type "payment_intent.succeeded"
  || is_str type "invoice.paid".

(** DB writes for successful checkout events *)
Definition shouldProcessDb (type : jsval) : bool :=
  is_str type "checkout.session.completed"
  || is_str type "payment_intent.succeeded".

(** [normalized.email ?? extractBuyerEmail(evt)] *)
Definition buyerEmailOf (normalized : NormalizedStripeInfo) (evt : jsval) : jsval :=
  email normalized ?? extractBuyerEmail evt.

Section Handler.
Variable hmacSHA256Hex : string -> string -> string.
Variable JSON_parse : string -> option jsval.
Variable cfg : config.
Variable o : oracle.

(** [emailFrom || ""] *)
Definition EMAIL_FROM : string :=
  match emailFrom cfg with Some s => s | None => EmptyString end.

Definition subject : string := "Your TrendDrop Premium access is ready".

(** The ledger row is written unless a row with the same [event_id] exists;
    the reply lists the rows written. *)
Definition ledger_upsert (id type : jsval) : M (db_reply (list jsval)) :=
  db_request o LedgerUpsert (DbUpsert "stripe_event_ledger" "event_id")
    (fun db =>
       if existsb (fun r => conflicts (event_id r) id) (stripe_event_ledger db)
       then (db, [])
       else (with_ledger
               (stripe_event_ledger db ++ [{| event_id := id; event_type := type |}])%list
               db,
             [id])).

(** Idempotency via Postgres: [true] when the delivery is a duplicate. The
    duplicate is logged with the event id inside a template literal, which
    converts it. *)
Definition dedupe (evt : jsval) : M bool :=
  if has_db cfg then
    id <- lift (get evt "id");;
    type <- lift (get evt "type");;
    r <- ledger_upsert id type;;
    match r with
    | Error _ => ret false
    | Data rows =>
        if Nat.eqb (length rows) 0 then
          _ <- lift (js_String id);;
          ret true
        else ret false
    end
  else ret false.

Definition customers_upsert (n : NormalizedStripeInfo) (buyerEmail : jsval)
  : M (db_reply (option customer_row)) :=
  db_request o CustomersUpsert (DbUpsert "customers" "stripe_customer_id")
    (fun db =>
       let rows := customers db in
       let same r := conflicts (stripe_customer_id r) (customerId n) in
       let fresh := {| cust_id := length rows;
                       stripe_customer_id := customerId n;
                       cust_email := buyerEmail ?? VStr "" |} in
       let merge r := {| cust_id := cust_id r;
                         stripe_customer_id := customerId n;
                         cust_email := buyerEmail ?? VStr "" |} in
       let rows' := upsert_rows same merge fresh rows in
       (with_customers rows' db,
        if existsb same rows then List.find same rows' else Some fresh)).

Definition subscriptions_upsert (n : NormalizedStripeInfo)
    (customerRow : option customer_row) : M (db_reply unit) :=
  db_request o SubscriptionsUpsert
    (DbUpsert "premium_subscriptions" "stripe_checkout_session_id")
    (fun db =>
       let row := {| customer_id := option_map cust_id customerRow;
                     stripe_subscription_id := VNull;
                     stripe_checkout_session_id := checkoutSessionId n;
                     sub_status := "active";
                     plan_id := planId n ?? VStr (productName n);
                     last_event_at := now o |} in
       let same r := conflicts (stripe_checkout_session_id r) (checkoutSessionId n) in
       (with_subscriptions
          (upsert_rows same (fun _ => row) row (premium_subscriptions db)) db,
        tt)).

(** The two upserts share one [try]: a rejected customers upsert skips the
    subscription upsert, an [error] reply does not. *)
Definition upserts (n : NormalizedStripeInfo) (buyerEmail : jsval) : M unit :=
  try_catch
    (c <- customers_upsert n buyerEmail;;
     let customerRow := match c with Data row => row | Error _ => None end in
     _ <- subscriptions_upsert n customerRow;;
     ret tt)
    (fun _ => ret tt).

Definition sendWithBrevo (to : jsval) (product : string) : M unit :=
  _ <- issue (BrevoSend to subject product);;
  match brevo o with
  | HttpResponse code =>
      if res_ok code then ret tt
      else
        _ <- lift (brevo_text o);;
        throw ("Brevo error " +:+ pretty code)
  | HttpThrow m => throw m
  end.

Definition sendOnboardingEmail (to : jsval) (product : string) : M BrevoResult :=
  try_catch (_ <- sendWithBrevo to product;; ret BrevoOk)
            (fun message => ret (BrevoFailed message)).

Definition onboarding_insert (n : NormalizedStripeInfo) (buyerEmail : jsval)
    (b : BrevoResult) : M (db_reply unit) :=
  db_request o OnboardingInsert (DbInsert "onboarding_emails")
    (fun db =>
       let row := {| to_email := buyerEmail;
                     product_name := productName n;
                     ob_event_id := eventId n;
                     ob_checkout_session_id := checkoutSessionId n;
                     ob_customer_id := customerId n;
                     ob_status := if brevo_ok b then "sent" else "error";
                     error_message :=
                       match b with BrevoOk => None | BrevoFailed e => Some e end |} in
       (with_onboarding (onboarding_emails db ++ [row])%list db, tt)).

(** The handler once the event is normalised. *)
Definition fulfil (type : jsval) (normalized : NormalizedStripeInfo) (evt : jsval)
  : M response :=
  let buyerEmail := buyerEmailOf normalized evt in
  if negb (truthy_val buyerEmail) then
    ret (ok (VObj [("skipped", VBool true); ("reason", VStr "no_email")]))
  else
    _ <- (if has_db cfg && shouldProcessDb type
          then upserts normalized buyerEmail else ret tt);;
    b <- sendOnboardingEmail buyerEmail (productName normalized);;
    _ <- (if has_db cfg
          then (_ <- onboarding_insert normalized buyerEmail b;; ret tt)
          else ret tt);;
    ret (ok (VObj [("received", VBool true); ("sent", VBool (brevo_ok b))])).

(** The handler from "Only these events send the email" on. *)
Definition process (evt : jsval) : M response :=
  type <- lift (get evt "type");;
  if negb (shouldSend type) then ret (ok (VObj [("ignored", VBool true)]))
  else
    normalized <- lift (normalizeStripeEvent evt);;
    fulfil type normalized evt.

Definition missing_signature : response := bad "missing signature" 400.
Definition bad_signature : response := bad "bad signature" 400.
Definition duplicate_ack : response :=
  ok (VObj [("received", VBool true); ("duplicate", VBool true)]).

(** The body of the handler's [try]. *)
Definition handle (req : request) : M response :=
  if String.eqb (method req) "GET" then ret (ok (VObj [("status", VStr "ok")]))
  else
    match stripeWebhookSecret cfg with
    | None => ret (bad "server not configured (secret)" 500)
    | Some secret =>
        if negb (truthy secret) then ret (bad "server not configured (secret)" 500)
        else if negb (truthy_opt (brevoApiKey cfg)) || negb (truthy EMAIL_FROM)
        then ret (bad "server not configured (email)" 500)
        else
          let raw := body req in
          match header req "stripe-signature" with
          | None => ret missing_signature
          | Some sigHeader =>
              if negb (truthy sigHeader) then ret missing_signature
              else
                valid <- lift (verifyStripeSignature hmacSHA256Hex raw sigHeader secret);;
                if negb valid then ret bad_signature
                else
                  evt <- lift (match JSON_parse raw with
                               | Some v => Ret v
                               | None => Throw "SyntaxError"
                               end);;
                  dup <- dedupe evt;;
                  if dup then ret duplicate_ack else process evt
          end
    end.

Definition serve (req : request) : M response :=
  try_catch (handle req) (fun _ => ret (bad "internal error" 500)).

End Handler.
End Stripe.

(** ** The first marketplace adapter
    [supabase/functions/gumroad-webhook/index.ts]

    Gumroad posts its deliveries; the handler never reads the method. *)

Module Gumroad.
Import JsString JsValue Http World.
Local Open Scope js_scope.

(** What [handleSale] returns, before [JSON.stringify]. *)
Definition sale_failed (error : string) : jsval :=
  VObj [("ok", VBool false); ("error", VStr error)].

Definition url_value (u : option string) : jsval :=
  match u with Some s => VStr s | None => VNull end.

Definition sale_done (pdf csv : option string) : jsval :=
  VObj [("ok", VBool true); ("pdf_url", url_value pdf); ("csv_url", url_value csv)].

Definition respond (v : jsval) : response := json_response 200 v.

Definition ping_ack : response :=
  respond (VObj [("ok", VBool true); ("type", VStr "ping")]).

Definition unauthorized : response :=
  respond (VObj [("ok", VBool false); ("error", VStr "unauthorized")]).

(** [x || null] for a string [x] *)
Definition or_null (x : string) : jsval := if truthy x then VStr x else VNull.

Definition actionOf (p : jsval) : outcome string :=
  let? a := get p "action" in
  let? s := js_String (a ?? prop p "resource_name" ?? VStr "") in
  Ret (toLowerCase s).

Section Handler.
Variable hmacSHA256Hex : string -> string -> string.
Variable JSON_parse : string -> option jsval.
Variable URLSearchParams_entries : string -> list (string * string).
(** [Number.isFinite(Number(s))] *)
Variable Number_isFinite : string -> bool.
Variable cfg : config.
Variable o : oracle.

Definition supa : M unit :=
  if has_db cfg then ret tt else throw "supabase not configured".

(** [out[k] = v] on a plain object creates or overwrites an own property,
    except for [__proto__]: there the assignment runs the inherited setter,
    which ignores a string. *)
Definition parseForm (body : string) : jsval :=
  VObj (fold_left
          (fun out kv =>
             if String.eqb (fst kv) "__proto__" then out
             else assoc_set (fst kv) (VStr (snd kv)) out)
          (URLSearchParams_entries body) []).

Definition parseBody (req : request) : outcome jsval :=
  let ct := toLowerCase (match header req "content-type" with
                         | Some c => c
                         | None => EmptyString
                         end) in
  if includes "application/json" ct then
    match JSON_parse (body req) with
    | Some v => Ret v
    | None => Throw "SyntaxError"
    end
  else
    let raw := body req in
    if includes "application/x-www-form-urlencoded" ct then Ret (parseForm raw)
    else match JSON_parse raw with
         | Some v => Ret v
         | None => Ret (VObj [("raw", VStr raw)])
         end.

(** HMAC check: X-Gumroad-Signature = hex( HMAC_SHA256(secret, rawBody) ) *)
Definition verifyHmac (req : request) (rawBody : string) : bool :=
  match gumroadWebhookSecret cfg with
  | None => false
  | Some secret =>
      if negb (truthy secret) then false
      else
        let hdr := match header req "X-Gumroad-Signature" with
                   | Some h => h
                   | None => match header req "x-gumroad-signature" with
                             | Some h => h
                             | None => EmptyString
                             end
                   end in
        if negb (truthy hdr) then false
        else String.eqb (toLowerCase (hmacSHA256Hex secret rawBody))
                        (toLowerCase (trim hdr))
  end.

(** Fallback to body secret/seller_id *)
Definition body_auth (p : jsval) : bool :=
  let gotSecret := p?."secret" ?? p?."custom_fields"?."secret" in
  let gotSeller := p?."seller_id" ?? p?."seller"?."id" in
  (match gumroadWebhookSecret cfg with
   | Some needSecret => if truthy needSecret then is_str gotSecret needSecret else true
   | None => true
   end)
  && (match gumroadSellerId cfg with
      | Some needSeller => if truthy needSeller then is_str gotSeller needSeller else true
      | None => true
      end).

(** Prefer header HMAC if present, else the body fallback. *)
Definition authed (req : request) (rawBody : string) (p : jsval) : bool :=
  if verifyHmac req rawBody then true else body_auth p.

Definition sale_upsert (sale email productId sellerId fullName : string)
  : M (db_reply unit) :=
  db_request o GumroadSaleUpsert (DbUpsert "subscribers" "sale_id")
    (fun db =>
       let same r := conflicts (World.sale_id r) (VStr sale) in
       let fresh := {| World.sale_id := VStr sale; World.email := VStr email;
                       product_id := or_null productId;
                       seller_id := or_null sellerId;
                       full_name := or_null fullName;
                       source := VNull; revoked_at := None;
                       pdf_url := None; csv_url := None |} in
       let merge r := {| World.sale_id := VStr sale; World.email := VStr email;
                         product_id := or_null productId;
                         seller_id := or_null sellerId;
                         full_name := or_null fullName;
                         source := source r; revoked_at := revoked_at r;
                         pdf_url := pdf_url r; csv_url := csv_url r |} in
       (with_subscribers (upsert_rows same merge fresh (subscribers db)) db, tt)).

(** Optional Telegram notify *)
Definition telegram_notify (email productId : string) : M unit :=
  try_catch
    (match telegramBotToken cfg, telegramCommunityChatId cfg with
     | Some bot, Some chat =>
         if truthy bot && truthy chat then
           (* the message's leading check-mark emoji lies outside Latin-1 *)
           _ <- issue (TelegramSend
                         ("New TrendDrop+ subscriber: " +:+ email +:+ " (product "
                          +:+ (if truthy productId then productId else "n/a") +:+ ")"));;
           match telegram o with
           | HttpResponse _ => ret tt
           | HttpThrow m => throw m
           end
         else ret tt
     | _, _ => ret tt
     end)
    (fun _ => ret tt).

(** Optional auto-invite (single block, deduped) *)
Definition auto_invite (p : jsval) : M unit :=
  try_catch
    (tg <- lift (js_String
                   (p?."telegram_user_id" ?? p?."custom_fields"?."telegram_user_id"
                    ?? p?."telegram_id" ?? p?."custom_fields"?."telegram_id"
                    ?? p?."telegram" ?? VStr ""));;
     let rawTg := stripLeadingAt tg in
     if truthy rawTg && Number_isFinite rawTg
        && truthy (supabaseUrl cfg) && truthy (supabaseServiceRoleKey cfg)
     then
       _ <- issue (AddTelegramMember rawTg);;
       match add_member o with
       | HttpResponse _ => ret tt
       | HttpThrow m => throw m
       end
     else ret tt)
    (fun _ => ret tt).

(** [createSignedUrl] inside its own [try]: [null] on any failure. *)
Definition signed_url (key : string) (r : outcome (option string)) : M (option string) :=
  _ <- issue (SignedUrl (reportsBucket cfg) key);;
  ret (match r with Ret u => u | Throw _ => None end).

Definition links_update (sale : string) (pdf csv : option string) : M unit :=
  try_catch
    (_ <- db_request o GumroadLinksUpdate (DbUpdate "subscribers" "sale_id")
            (fun db =>
               (with_subscribers
                  (update_rows (fun r => column_is (World.sale_id r) sale)
                     (fun r => {| World.sale_id := World.sale_id r;
                                  World.email := World.email r;
                                  product_id := product_id r; seller_id := seller_id r;
                                  full_name := full_name r; source := source r;
                                  revoked_at := revoked_at r;
                                  pdf_url := pdf; csv_url := csv |})
                     (subscribers db)) db, tt));;
     ret tt)
    (fun _ => ret tt).

Definition handleSale (p : jsval) : M jsval :=
  _ <- supa;;
  sale_v <- lift (get p "sale_id");;
  sale <- lift (js_String (sale_v ?? prop p "id" ?? VStr ""));;
  email <- lift (js_String (prop p "email" ?? prop p "purchaser_email" ?? VStr ""));;
  productId <- lift (js_String (prop p "product_id" ?? (prop p "product")?."id"
                                ?? VStr ""));;
  sellerId <- lift (js_String (prop p "seller_id" ?? (prop p "seller")?."id"
                               ?? VStr ""));;
  fullName <- lift (js_String (prop p "full_name" ?? prop p "purchaser_name"
                               ?? VStr ""));;
  if negb (truthy sale) || negb (truthy email) then
    ret (sale_failed "missing_sale_or_email")
  else
    (* Idempotent write *)
    r <- sale_upsert sale email productId sellerId fullName;;
    match r with
    | Error message => ret (sale_failed message)
    | Data _ =>
        _ <- telegram_notify email productId;;
        _ <- auto_invite p;;
        pdf <- signed_url "weekly/latest.pdf" (signed_pdf o);;
        csv <- signed_url "weekly/latest.csv" (signed_csv o);;
        _ <- links_update sale pdf csv;;
        ret (sale_done pdf csv)
    end.

(** Refund / chargeback / cancellation -> mark revoked_at *)
Definition revoke (p : jsval) : M unit :=
  try_catch
    (_ <- supa;;
     sale <- lift (js_String (p?."sale_id" ?? p?."id" ?? VStr ""));;
     if truthy sale then
       _ <- db_request o GumroadRevoke (DbUpdate "subscribers" "sale_id")
              (fun db =>
                 (with_subscribers
                    (update_rows (fun r => column_is (World.sale_id r) sale)
                       (set_revoked (now o)) (subscribers db)) db, tt));;
       ret tt
     else ret tt)
    (fun _ => ret tt).

Definition is_revocation (action : string) : bool :=
  String.eqb action "refund" || String.eqb action "chargeback"
  || String.eqb action "subscription_cancelled".

(** The handler after the ping test and the optional auth. *)
Definition dispatch (action : string) (p : jsval) : M response :=
  if String.eqb action "sale" then
    result <- handleSale p;;
    ret (respond result)
  else if is_revocation action then
    _ <- revoke p;;
    ret (respond (VObj [("ok", VBool true)]))
  else
    ret (respond (VObj [("ok", VBool true);
                        ("received", VStr (if truthy action then action else "unknown"))])).

(** [new Request(req, { body: rawBody })]: a GET or HEAD request cannot be
    given a body, not even an empty one. *)
Definition bodiless (req : request) : bool :=
  String.eqb (method req) "GET" || String.eqb (method req) "HEAD".

(** A rejected handler is [Throw]: the server then answers for it. *)
Definition serve (req : request) : M response :=
  let rawBody := body req in
  if bodiless req then throw "Request with GET/HEAD method cannot have body"
  else
    p <- lift (parseBody req);;
    action <- lift (actionOf p);;
    (* Pings always OK (so Gumroad "Test" passes) *)
    if String.eqb action "ping" then ret ping_ack
    else if requireGumroadAuth cfg && negb (authed req rawBody p) then ret unauthorized
    else dispatch action p.

End Handler.
End Gumroad.

(** ** The second marketplace adapter
    [supabase/functions/payhip-webhook/index.ts] *)

Module Payhip.
Import JsString JsValue Http World.
Local Open Scope js_scope.

Definition method_not_allowed : response :=
  {| status := 405; content := Text "Method Not Allowed" |}.

Definition unauthorized : response :=
  json_response 401 (VObj [("ok", VBool false); ("error", VStr "unauthorized")]).

Definition acknowledged : response := json_response 200 (VObj [("ok", VBool true)]).

Section Handler.
Variable hmacSHA256Hex : string -> string -> string.
Variable JSON_parse : string -> option jsval.
Variable cfg : config.
Variable o : oracle.

Definition supa : M unit :=
  if has_db cfg then ret tt else throw "supabase not configured".

Definition verifyHmac (req : request) (raw : string) : bool :=
  match payhipApiKey cfg with
  | None => false
  | Some secret =>
      if negb (truthy secret) then false
      else
        let hdr := match header req "X-Payhip-Signature" with
                   | Some h => if truthy h then h
                               else match header req "x-payhip-signature" with
                                    | Some h' => if truthy h' then h' else EmptyString
                                    | None => EmptyString
                                    end
                   | None => match header req "x-payhip-signature" with
                             | Some h' => if truthy h' then h' else EmptyString
                             | None => EmptyString
                             end
                   end in
        if negb (truthy hdr) then false
        else String.eqb (toLowerCase (hmacSHA256Hex secret raw))
                        (toLowerCase (trim hdr))
  end.

(** [upsert(email, attrs)]: the row carries [sale_id] and [product_id] only
    when the attribute is truthy. *)
Definition upsert (email : option string) (attr_sale_id attr_product_id : jsval) : M unit :=
  match email with
  | None => ret tt
  | Some e =>
      _ <- supa;;
      _ <- db_request o PayhipUpsert (DbUpsert "subscribers" "email")
             (fun db =>
                let pick (submitted old : jsval) :=
                  if truthy_val submitted then submitted else old in
                let same r := conflicts (World.email r) (VStr e) in
                let fresh := {| sale_id := pick attr_sale_id VNull;
                                World.email := VStr e;
                                product_id := pick attr_product_id VNull;
                                seller_id := VNull; full_name := VNull;
                                source := VStr "payhip"; revoked_at := None;
                                pdf_url := None; csv_url := None |} in
                let merge r := {| sale_id := pick attr_sale_id (sale_id r);
                                  World.email := VStr e;
                                  product_id := pick attr_product_id (product_id r);
                                  seller_id := seller_id r; full_name := full_name r;
                                  source := VStr "payhip"; revoked_at := revoked_at r;
                                  pdf_url := pdf_url r; csv_url := csv_url r |} in
                (with_subscribers (upsert_rows same merge fresh (subscribers db)) db, tt));;
      ret tt
  end.

Definition is_sale (event : string) : bool :=
  includes "sale" event || includes "purchase" event || includes "completed" event.

Definition is_refund (event : string) : bool :=
  includes "refund" event || includes "chargeback" event.

Definition on_sale (p : jsval) : M unit :=
  e <- lift (js_String (p?."customer"?."email" |? p?."email" |? VStr ""));;
  let email := if truthy e then Some e else None in
  upsert email (p?."id" |? p?."order_id") (p?."product_id").

Definition on_refund (p : jsval) : M unit :=
  _ <- supa;;
  sale <- lift (js_String (p?."id" |? p?."order_id" |? VStr ""));;
  if truthy sale then
    _ <- db_request o PayhipRevoke (DbUpdate "subscribers" "sale_id")
           (fun db =>
              (with_subscribers
                 (update_rows (fun r => column_is (sale_id r) sale)
                    (set_revoked (now o)) (subscribers db)) db, tt));;
    ret tt
  else ret tt.

(** The two tests run one after the other inside one [try]. *)
Definition on_event (event : string) (p : jsval) : M unit :=
  try_catch
    (_ <- (if is_sale event then on_sale p else ret tt);;
     if is_refund event then on_refund p else ret tt)
    (fun _ => ret tt).

Definition serve (req : request) : M response :=
  if negb (String.eqb (method req) "POST") then ret method_not_allowed
  else
    let raw := body req in
    if negb (verifyHmac req raw) then ret unauthorized
    else
      let p := match JSON_parse raw with Some v => v | None => VObj [] end in
      (* outside the [try]: a conversion that throws rejects the handler *)
      event <- lift (js_String (p?."event" |? p?."type" |? VStr ""));;
      _ <- (if truthy event then on_event event p else ret tt);;
      ret acknowledged.

End Handler.
End Payhip.

(** ** The client helper [lib/premiumStatus.ts] *)

Module PremiumStatus.
Import JsString JsValue World.
Local Open Scope js_scope.

Record PremiumStatusResponse := {
  isPremium : bool;
  member : jsval;
  error : jsval
}.

(** What [fetch(PREMIUM_STATUS_URL, ...)] comes back with: a rejected promise,
    or a response with its status and what [res.text()] and [res.json()]
    would yield. *)
Inductive fetch_result :=
| FetchRejected (message : string)
| FetchResponse (code : Z) (text : outcome string) (json : outcome jsval).

Definition failed (message : string) : PremiumStatusResponse :=
  {| isPremium := false; member := VNull; error := VStr message |}.

(** [try { body } catch (err) { handler err.message }] on plain outcomes *)
Definition ocatch {A} (x : outcome A) (h : string -> outcome A) : outcome A :=
  match x with Ret a => Ret a | Throw m => h m end.

Section Client.
(** The argument is the object handed to [JSON.stringify] for the body. *)
Variable fetch : jsval -> fetch_result.

Definition getPremiumStatus (email : string) : outcome PremiumStatusResponse :=
  if negb (truthy (trim email)) then Ret (failed "empty_email")
  else
    ocatch
      (match fetch (VObj [("email", VStr (toLowerCase (trim email)))]) with
       | FetchRejected m => Throw m
       | FetchResponse code text json =>
           if negb (res_ok code) then
             let t := match text with Ret t => t | Throw _ => EmptyString end in
             Ret (failed ("http_" +:+ pretty code +:+ ": " +:+ t))
           else
             let? data := json in
             let? p := get data "isPremium" in
             (* Normalize in case function ever omits fields *)
             Ret {| isPremium := truthy_val p;
                    member := prop data "member" ?? VNull;
                    error := prop data "error" |}
       end)
      (fun msg => Ret (failed msg)).



End Client.
End PremiumStatus.

(** ** The three endpoints side by side *)

Module Pipeline.
Import JsString JsValue Http World.

(** The primitives of the runtime the handlers are written against. *)
Record platform := {
  hmacSHA256Hex : string -> string -> string;
  JSON_parse : string -> option jsval;
  URLSearchParams_entries : string -> list (string * string);
  Number_isFinite : string -> bool
}.

Inductive provider := stripe | gumroad | payhip.

Definition deliver (pf : platform) (p : provider) (cfg : config) (o : oracle)
    (req : request) : M response :=
  match p with
  | stripe => Stripe.serve (hmacSHA256Hex pf) (JSON_parse pf) cfg o req
  | gumroad =>
      Gumroad.serve (hmacSHA256Hex pf) (JSON_parse pf) (URLSearchParams_entries pf)
        (Number_isFinite pf) cfg o req
  | payhip => Payhip.serve (hmacSHA256Hex pf) (JSON_parse pf) cfg o req
  end.

Definition signature_header (p : provider) : string :=
  match p with
  | stripe => "stripe-signature"
  | gumroad => "x-gumroad-signature"
  | payhip => "x-payhip-signature"
  end.

Definition secret_of (p : provider) (cfg : config) : option string :=
  match p with
  | stripe => stripeWebhookSecret cfg
  | gumroad => gumroadWebhookSecret cfg
  | payhip => payhipApiKey cfg
  end.

(** The table that holds a provider's entitlements, and the column its
    upsert names in [onConflict]. *)
Definition entitlement_table (p : provider) : string :=
  match p with stripe => "premium_subscriptions" | _ => "subscribers" end.

Definition entitlement_key (p : provider) : string :=
  match p with
  | stripe => "stripe_checkout_session_id"
  | gumroad => "sale_id"
  | payhip => "email"
  end.

(** The handler reaches its authentication step: the card-processor handler
    is past its health check and configuration tests, the payhip handler is
    past its method test, the gumroad handler has rebuilt the request and
    parsed a payload that is not a ping, and requires authentication. *)
Definition reaches_auth (pf : platform) (p : provider) (cfg : config) (req : request) : Prop :=
  match p with
  | stripe =>
      method req <> "GET"
      /\ truthy_opt (stripeWebhookSecret cfg) = true
      /\ truthy_opt (brevoApiKey cfg) = true
      /\ truthy_opt (emailFrom cfg) = true
  | payhip => method req = "POST"
  | gumroad =>
      Gumroad.bodiless req = false
      /\ requireGumroadAuth cfg = true
      /\ exists pl action,
           Gumroad.parseBody (JSON_parse pf) (URLSearchParams_entries pf) req = Ret pl
           /\ Gumroad.actionOf pl = Ret action
           /\ action <> "ping"
  end.

(** The provider's signature check does not return [true], and (for gumroad)
    neither does the body fallback. *)
Definition auth_fails (pf : platform) (p : provider) (cfg : config) (req : request) : Prop :=
  match p with
  | stripe =>
      match header req "stripe-signature", stripeWebhookSecret cfg with
      | Some h, Some secret =>
          truthy h = false
          \/ StripeSig.verifyStripeSignature (hmacSHA256Hex pf) (body req) h secret = Ret false
      | _, _ => True
      end
  | payhip => Payhip.verifyHmac (hmacSHA256Hex pf) cfg req (body req) = false
  | gumroad =>
      forall pl,
        Gumroad.parseBody (JSON_parse pf) (URLSearchParams_entries pf) req = Ret pl ->
        Gumroad.authed (hmacSHA256Hex pf) cfg req (body req) pl = false
  end.

(** The status each adapter answers a refused delivery with. *)
Definition refusal_status (p : provider) : Z :=
  match p with stripe => 400 | payhip => 401 | gumroad => 200 end.

Definition refusal (p : provider) (missing : bool) : response :=
  match p with
  | stripe => if missing then Stripe.missing_signature else Stripe.bad_signature
  | payhip => Payhip.unauthorized
  | gumroad => Gumroad.unauthorized
  end.

(** An entitlement upsert names the provider's conflict column. *)
Definition conflict_key_ok (p : provider) (c : call) : bool :=
  match c with
  | DbUpsert table key =>
      if String.eqb table (entitlement_table p)
      then String.eqb key (entitlement_key p) else true
  | _ => true
  end.

(** Row by row, what was revoked in [subscribers] stays revoked. *)
Definition revoked_kept (db db' : database) : Prop :=
  forall (i : nat) (r : subscriber_row),
    subscribers db !! i = Some r ->
    exists r', subscribers db' !! i = Some r'
               /\ (revoked_at r <> None -> revoked_at r' <> None).

(** A row of [premium_subscriptions] in [db'] is a row of [db] or is
    active: nothing but [active] was written. *)
Definition only_activates (db db' : database) : Prop :=
  Forall (fun r' => sub_status r' = "active" \/ In r' (premium_subscriptions db))
    (premium_subscriptions db').

(** What a payhip delivery runs before its refund branch: the sale branch,
    when the event name also contains one of the sale words. The gumroad
    handler runs nothing there. *)
Definition payhip_payload (pf : platform) (req : request) : jsval :=
  match JSON_parse pf (body req) with Some v => v | None => VObj [] end.

Definition also_sells (pf : platform) (p : provider) (req : request) : bool :=
  match p with
  | payhip =>
      Payhip.is_sale
        (to_text (or_else (oget (payhip_payload pf req) "event")
                    (or_else (oget (payhip_payload pf req) "type") (VStr EmptyString))))
  | _ => false
  end.

Definition before_revocation (pf : platform) (p : provider) (cfg : config) (o : oracle)
    (req : request) : M unit :=
  if also_sells pf p req then Payhip.on_sale cfg o (payhip_payload pf req) else ret tt.

(** The delivery is an authenticated revocation for the sale id [sale]:
    a gumroad refund, chargeback or subscription_cancelled that is not a GET
    or HEAD request and passes the optional authentication, or a signed
    payhip POST whose event name contains refund or chargeback and whose
    sale branch, if the name triggers it too, does not throw. The
    card-processor adapter has no such delivery. *)
Definition revokes (pf : platform) (p : provider) (cfg : config) (o : oracle)
    (req : request) (sale : string) : Prop :=
  match p with
  | stripe => False
  | gumroad =>
      Gumroad.bodiless req = false
      /\ exists pl action,
        Gumroad.parseBody (JSON_parse pf) (URLSearchParams_entries pf) req = Ret pl
        /\ Gumroad.actionOf pl = Ret action
        /\ Gumroad.is_revocation action = true
        /\ (requireGumroadAuth cfg = false
            \/ Gumroad.authed (hmacSHA256Hex pf) cfg req (body req) pl = true)
        /\ js_String (coalesce (oget pl "sale_id")
                        (coalesce (oget pl "id") (VStr EmptyString))) = Ret sale
  | payhip =>
      let pl := payhip_payload pf req in
      exists event,
        method req = "POST"
        /\ Payhip.verifyHmac (hmacSHA256Hex pf) cfg req (body req) = true
        /\ js_String (or_else (oget pl "event")
                        (or_else (oget pl "type") (VStr EmptyString))) = Ret event
        /\ Payhip.is_refund event = true
        /\ (forall db, result_of (before_revocation pf payhip cfg o req db) = Ret tt)
        /\ js_String (or_else (oget pl "id")
                        (or_else (oget pl "order_id") (VStr EmptyString))) = Ret sale
  end.

Definition revoke_site (p : provider) : site :=
  match p with payhip => PayhipRevoke | _ => GumroadRevoke end.

(** [subscribers] after [update({ revoked_at }).eq("sale_id", sale)]. *)
Definition revoked_table (o : oracle) (sale : string) (db : database) : database :=
  with_subscribers
    (update_rows (fun r => column_is (sale_id r) sale) (set_revoked (now o))
       (subscribers db)) db.

(** A card-processor delivery that passes the configuration tests and the
    signature check, and whose body parses to [evt]. *)
Definition authenticated (pf : platform) (cfg : config) (req : request) (evt : jsval) : Prop :=
  reaches_auth pf stripe cfg req
  /\ exists h secret,
       header req "stripe-signature" = Some h
       /\ truthy h = true
       /\ stripeWebhookSecret cfg = Some secret
       /\ StripeSig.verifyStripeSignature (hmacSHA256Hex pf) (body req) h secret = Ret true
       /\ JSON_parse pf (body req) = Some evt.

Definition ledger_has (id : jsval) (db : database) : bool :=
  existsb (fun r => conflicts (event_id r) id) (stripe_event_ledger db).

Definition ledger_probe : call := DbUpsert "stripe_event_ledger" "event_id".

(** The database once the ledger has taken the event. *)
Definition recorded (evt id : jsval) (db : database) : database :=
  with_ledger
    (stripe_event_ledger db ++ [{| event_id := id; event_type := prop evt "type" |}])%list
    db.

(** The calls of a card-processor delivery that is processed to the end. *)
Definition processing_calls (n : Stripe.NormalizedStripeInfo) (evt : jsval) : list call :=
  [DbUpsert "customers" "stripe_customer_id";
   DbUpsert "premium_subscriptions" "stripe_checkout_session_id";
   BrevoSend (Stripe.buyerEmailOf n evt) Stripe.subject (Stripe.productName n);
   DbInsert "onboarding_emails"].

Definition same_ledger (db db' : database) : Prop :=
  stripe_event_ledger db' = stripe_event_ledger db.

End Pipeline.

(** ** Worked inputs *)

Module Fixtures.
Import JsString JsValue Http World Pipeline.

(** A stand-in keyed digest for the worked examples; every theorem below
    holds for whatever function the platform provides. *)
Definition digest (secret message : string) : string :=
  pretty (Z.of_nat (String.length secret + 31 * String.length message)).

(** A stand-in [JSON.parse] that knows the listed texts only. *)
Fixpoint parse_table (table : list (string * jsval)) (text : string) : option jsval :=
  match table with
  | [] => None
  | (t, v) :: rest => if String.eqb t text then Some v else parse_table rest text
  end.

Definition platform_with (table : list (string * jsval)) : platform :=
  {| hmacSHA256Hex := digest;
     JSON_parse := parse_table table;
     URLSearchParams_entries := fun _ => [];
     Number_isFinite := fun _ => false |}.

Definition cfg0 : config :=
  {| stripeWebhookSecret := Some "whsec_1";
     brevoApiKey := Some "xkeysib";
     emailFrom := Some "TrendDrop <hi@trenddrop.test>";
     telegramInviteUrl := None;
     supabaseUrl := "https://db.test";
     supabaseServiceRoleKey := "service";
     telegramBotToken := None;
     telegramCommunityChatId := None;
     reportsBucket := "trenddrop-reports";
     requireGumroadAuth := true;
     gumroadWebhookSecret := Some "gum_secret";
     gumroadSellerId := None;
     payhipApiKey := Some "payhip_key" |}.

(** [cfg0] with the marketplace secrets left unset. *)
Definition cfg_no_secret : config :=
  {| stripeWebhookSecret := None;
     brevoApiKey := Some "xkeysib";
     emailFrom := Some "TrendDrop <hi@trenddrop.test>";
     telegramInviteUrl := None;
     supabaseUrl := "https://db.test";
     supabaseServiceRoleKey := "service";
     telegramBotToken := None;
     telegramCommunityChatId := None;
     reportsBucket := "trenddrop-reports";
     requireGumroadAuth := true;
     gumroadWebhookSecret := None;
     gumroadSellerId := None;
     payhipApiKey := None |}.

(** [cfg0] without the mail provider's key. *)
Definition cfg_no_mail : config :=
  {| stripeWebhookSecret := Some "whsec_1";
     brevoApiKey := None;
     emailFrom := Some "TrendDrop <hi@trenddrop.test>";
     telegramInviteUrl := None;
     supabaseUrl := "https://db.test";
     supabaseServiceRoleKey := "service";
     telegramBotToken := None;
     telegramCommunityChatId := None;
     reportsBucket := "trenddrop-reports";
     requireGumroadAuth := true;
     gumroadWebhookSecret := Some "gum_secret";
     gumroadSellerId := None;
     payhipApiKey := Some "payhip_key" |}.

(** [cfg0] with REQUIRE_GUMROAD_AUTH off. *)
Definition cfg_open : config :=
  {| stripeWebhookSecret := Some "whsec_1";
     brevoApiKey := Some "xkeysib";
     emailFrom := Some "TrendDrop <hi@trenddrop.test>";
     telegramInviteUrl := None;
     supabaseUrl := "https://db.test";
     supabaseServiceRoleKey := "service";
     telegramBotToken := None;
     telegramCommunityChatId := None;
     reportsBucket := "trenddrop-reports";
     requireGumroadAuth := false;
     gumroadWebhookSecret := Some "gum_secret";
     gumroadSellerId := None;
     payhipApiKey := Some "payhip_key" |}.

(** Every remote call succeeds. *)
Definition all_ok : oracle :=
  {| now := "2025-01-01T00:00:00.000Z";
     db_result_of := fun _ => DbOk;
     brevo := HttpResponse 201;
     brevo_text := Ret "{}";
     telegram := HttpResponse 200;
     add_member := HttpResponse 200;
     signed_pdf := Ret None;
     signed_csv := Ret None |}.

Definition post (hs : list (string * string)) (text : string) : request :=
  {| method := "POST"; headers := list_to_map hs; body := text |}.

Definition get_request (hs : list (string * string)) : request :=
  {| method := "GET"; headers := list_to_map hs; body := "" |}.

Definition put (hs : list (string * string)) (text : string) : request :=
  {| method := "PUT"; headers := list_to_map hs; body := text |}.

Definition gumroad_sale_text : string := "gumroad-sale".
Definition gumroad_sale : jsval :=
  VObj [("action", VStr "sale"); ("sale_id", VStr "S1"); ("email", VStr "a@b.com")].

Definition gumroad_ping_text : string := "gumroad-ping".
Definition gumroad_ping : jsval := VObj [("resource_name", VStr "PING")].

Definition payhip_sale_text : string := "payhip-paid".
Definition payhip_sale : jsval :=
  VObj [("type", VStr "sale.completed"); ("id", VStr "P1"); ("email", VStr "a@b.com")].

Definition payhip_refund_text : string := "payhip-refunded".
Definition payhip_refund : jsval :=
  VObj [("type", VStr "refunded"); ("id", VStr "P1")].

Definition gumroad_refund_text : string := "gumroad-refund".
Definition gumroad_refund : jsval :=
  VObj [("action", VStr "refund"); ("sale_id", VStr "S1"); ("secret", VStr "gum_secret")].

Definition checkout_text : string := "stripe-checkout".
Definition checkout : jsval :=
  VObj [("id", VStr "evt_1");
        ("type", VStr "checkout.session.completed");
        ("data", VObj [("object",
           VObj [("id", VStr "cs_1");
                 ("customer", VStr "cus_1");
                 ("customer_details", VObj [("email", VStr "a@b.com")]);
                 ("metadata", VObj [("plan_id", VStr "premium_telegram")])])])].

(** A checkout session without [customer_details], the customer expanded. *)
Definition checkout_nested : jsval :=
  VObj [("id", VStr "evt_2");
        ("type", VStr "checkout.session.completed");
        ("data", VObj [("object",
           VObj [("id", VStr "cs_2");
                 ("customer", VObj [("id", VStr "cus_2"); ("email", VStr "c@d.com")])])])].

Definition refund_text : string := "stripe-refund".
Definition refund : jsval :=
  VObj [("id", VStr "evt_3");
        ("type", VStr "charge.refunded");
        ("data", VObj [("object",
           VObj [("id", VStr "ch_1");
                 ("metadata", VObj [("checkout_session_id", VStr "cs_1")])])])].

Definition pf0 : platform :=
  platform_with
    [(gumroad_sale_text, gumroad_sale); (gumroad_ping_text, gumroad_ping);
     (payhip_sale_text, payhip_sale); (payhip_refund_text, payhip_refund);
     (gumroad_refund_text, gumroad_refund);
     (checkout_text, checkout); (refund_text, refund)].

(** A card-processor delivery signed with [cfg0]'s secret. *)
Definition signed (text : string) : request :=
  post [("stripe-signature",
         "t=1700000000,v1=" +:+ digest "whsec_1" ("1700000000." +:+ text))] text.

(** A payhip delivery signed with [cfg0]'s key. *)
Definition payhip_signed (text : string) : request :=
  post [("x-payhip-signature", digest "payhip_key" text)] text.

Definition active_subscription : subscription_row :=
  {| customer_id := Some 0; stripe_subscription_id := VNull;
     stripe_checkout_session_id := VStr "cs_1"; sub_status := "active";
     plan_id := VStr "premium_telegram"; last_event_at := "2024-12-01T00:00:00.000Z" |}.

Definition db_with_subscription : database :=
  with_subscriptions [active_subscription] empty_database.

(** A gumroad delivery signed with [cfg0]'s secret. *)
Definition gumroad_signed (text : string) : request :=
  post [("x-gumroad-signature", digest "gum_secret" text)] text.

Definition subscriber_S1 : subscriber_row :=
  {| sale_id := VStr "S1"; World.email := VStr "a@b.com"; product_id := VNull;
     seller_id := VNull; full_name := VNull; source := VNull;
     revoked_at := None; pdf_url := None; csv_url := None |}.

Definition db_with_subscriber : database :=
  with_subscribers [subscriber_S1] empty_database.

(** A client constructor that accepts [https] URLs only. *)
Definition https_only (url key : string) : outcome unit :=
  if String.prefix "https://" url then Ret tt else Throw "Invalid URL".

End Fixtures.

(** ** The shared configuration file [supabase/_shared/config.ts] *)

Module ConfigFile.
Import JsString JsValue Http.

Inductive Mode := live | test.

(** [(Deno.env.get("MODE") ?? "live").toLowerCase() === "test" ? "test" : "live"] *)
Definition mode (env : gmap string string) : Mode :=
  let m := match env !! "MODE" with Some v => v | None => "live" end in
  if String.eqb (toLowerCase m) "test" then test else live.

Definition isLive (env : gmap string string) : bool :=
  match mode env with live => true | test => false end.

Definition read (env : gmap string string) (name : string) : option string :=
  match env !! name with
  | None => None
  | Some v =>
      let trimmed := trim v in
      if Nat.eqb (String.length trimmed) 0 then None else Some trimmed
  end.

Definition requireEnv (env : gmap string string) (name : string) : outcome string :=
  let missing :=
    if isLive env then Ret EmptyString
    else Throw ("[config] missing required env " +:+ name) in
  match read env name with
  | Some v => if truthy v then Ret v else missing
  | None => missing
  end.

(** [a ?? b] on settings *)
Definition or_setting (a b : option string) : option string :=
  match a with Some _ => a | None => b end.

(** [read(name) ?? (isLive ? "" : requireEnv(name))] *)
Definition supabase_setting (env : gmap string string) (name : string) : outcome string :=
  match read env name with
  | Some v => Ret v
  | None => if isLive env then Ret EmptyString else requireEnv env name
  end.

Section Module.
(** [createClient] of the Supabase library, which is not part of this
    repository: whether it returns a client for a URL and a key, or throws
    (a URL it cannot parse). *)
Variable createSupabaseClient : string -> string -> outcome unit.

(** The module body: the exported settings, or the error that aborts the
    import. The client is created once, when both settings are truthy. *)
Definition load (env : gmap string string) : outcome config :=
  let webhookSecret :=
    or_setting
      (if isLive env then read env "STRIPE_WEBHOOK_SECRET_LIVE"
       else read env "STRIPE_WEBHOOK_SECRET_TEST")
      (read env "STRIPE_WEBHOOK_SECRET") in
  let? url := supabase_setting env "SUPABASE_URL" in
  let? key := supabase_setting env "SUPABASE_SERVICE_ROLE_KEY" in
  let? _ := (if truthy url && truthy key then createSupabaseClient url key
             else Ret tt) in
  Ret {| stripeWebhookSecret := webhookSecret;
         brevoApiKey := read env "BREVO_API_KEY";
         emailFrom := read env "EMAIL_FROM";
         telegramInviteUrl := read env "TELEGRAM_INVITE_URL";
         supabaseUrl := url;
         supabaseServiceRoleKey := key;
         telegramBotToken := read env "TELEGRAM_BOT_TOKEN";
         telegramCommunityChatId := read env "TELEGRAM_COMMUNITY_CHAT_ID";
         reportsBucket :=
           match or_setting (read env "REPORTS_BUCKET") (read env "SUPABASE_BUCKET") with
           | Some b => b
           | None => "trenddrop-reports"
           end;
         requireGumroadAuth :=
           String.eqb
             (toLowerCase
                (match read env "REQUIRE_GUMROAD_AUTH" with
                 | Some v => if truthy v then v else EmptyString
                 | None => EmptyString
                 end))
             "true";
         gumroadWebhookSecret := read env "GUMROAD_WEBHOOK_SECRET";
         gumroadSellerId := read env "GUMROAD_SELLER_ID";
         payhipApiKey := read env "PAYHIP_API_KEY" |}.

End Module.
End ConfigFile.

(** ** The status endpoint [supabase/functions/premium-status/index.ts],
    which [getPremiumStatus] posts to *)

Module PremiumStatusFunction.
Import JsString JsValue Http.
Local Open Scope js_scope.

(** A request together with [new URL(req.url).searchParams]. *)
Record url_request := {
  req : request;
  searchParams : gmap string string
}.

(** What the query on [v_premium_members] comes back with. *)
Inductive query_result :=
| QueryError
| QueryData (data : option (list jsval))
| QueryThrow (message : string).

Definition jsonResponse (v : jsval) (st : Z) : response := json_response st v.

Definition refused (error : string) (st : Z) : response :=
  jsonResponse (VObj [("error", VStr error); ("isPremium", VBool false);
                      ("member", VNull)]) st.

Section Function.
Variable JSON_parse : string -> option jsval.
(** Whether the module found both Supabase settings. *)
Variable db : bool.
(** The rows of [v_premium_members] for an email, [status = "active"],
    newest first, at most one. *)
Variable query : string -> query_result.

(** [body.email && body.email.trim()], then [trim().toLowerCase()]; calling
    [trim] on a value that is not a string throws, which the [try] swallows. *)
Definition body_email (b : jsval) : option string :=
  let e := b?."email" in
  if truthy_val e then
    match e with
    | VStr s => if truthy (trim s) then Some (toLowerCase (trim s)) else None
    | _ => None
    end
  else None.

Definition getEmailFromRequest (r : url_request) : option string :=
  let from_body :=
    if String.eqb (method (req r)) "POST" then
      match header (req r) "content-type" with
      | Some ct =>
          if includes "application/json" ct then
            match JSON_parse (body (req r)) with
            | Some b => body_email b
            | None => None
            end
          else None
      | None => None
      end
    else None in
  match searchParams r !! "email" with
  | Some qp =>
      if truthy qp && truthy (trim qp) then Some (toLowerCase (trim qp))
      else from_body
  | None => from_body
  end.

Definition lookup (email : string) : response :=
  match query email with
  | QueryThrow _ => refused "unexpected_error" 500
  | QueryError => refused "db_error" 500
  | QueryData data =>
      let member :=
        match data with
        | Some (row :: _) => row
        | _ => VNull
        end in
      jsonResponse (VObj [("isPremium", VBool (truthy_val member)); ("member", member)]) 200
  end.

Definition serve (r : url_request) : response :=
  if String.eqb (method (req r)) "OPTIONS" then jsonResponse (VObj []) 200
  else if negb db then refused "server_not_configured" 500
  else
    let email := getEmailFromRequest r in
    if negb (truthy_opt email) && String.eqb (method (req r)) "GET" then
      jsonResponse (VObj [("status", VStr "ok"); ("service", VStr "premium-status")]) 200
    else
      match email with
      | Some e => if truthy e then lookup e else refused "missing_email" 400
      | None => refused "missing_email" 400
      end.

(** The request [getPremiumStatus] sends, given the text of its body. *)
Definition posted (text : string) : url_request :=
  {| req := {| method := "POST";
               headers := {[ "content-type" := "application/json" ]};
               body := text |};
     searchParams := ∅ |}.

End Function.
End PremiumStatusFunction.

(** ** Vocabulary of the further properties *)

Module Coverage.
Import JsString JsValue Http World StripeSig.

Fixpoint all_chars (f : ascii -> bool) (s : string) : bool :=
  match s with
  | EmptyString => true
  | String c s' => f c && all_chars f s'
  end.

(** A string without [,], [=] or white space: a timestamp, a hex digest. *)
Definition plain_char (c : ascii) : bool :=
  negb (Ascii.eqb c ","%char) && negb (Ascii.eqb c "="%char) && negb (isWhiteSpace c).

Definition plain (s : string) : bool := all_chars plain_char s.

(** The header the card processor sends: [t=<t>,v1=<sig>,v1=<sig>...] *)
Fixpoint v1_segments (sigs : list string) : string :=
  match sigs with
  | [] => EmptyString
  | sig :: rest => ",v1=" +:+ sig +:+ v1_segments rest
  end.

Definition signature_header_text (t : string) (sigs : list string) : string :=
  "t=" +:+ t +:+ v1_segments sigs.

(** The value the last entry for [k] carries. *)
Fixpoint last_value (k : string) (entries : list (string * string)) : option string :=
  match entries with
  | [] => None
  | (k', v) :: rest =>
      match last_value k rest with
      | Some v' => Some v'
      | None => if String.eqb k k' then Some v else None
      end
  end.

(** Whenever [m] returns, what it returns satisfies [Q]. *)
Definition returns {A} (Q : A -> Prop) (m : M A) : Prop :=
  forall db, match result_of (m db) with Ret a => Q a | Throw _ => True end.

(** [m] never throws, and what it returns satisfies [Q]. *)
Definition answers {A} (Q : A -> Prop) (m : M A) : Prop :=
  forall db, exists a, result_of (m db) = Ret a /\ Q a.

(** No white space at either end. *)
Definition trimmed (s : string) : Prop := trim s = s.

(** What [sendOnboardingEmail] reports for the mail provider's answer. *)
Definition brevo_result (o : oracle) : Stripe.BrevoResult :=
  match brevo o with
  | HttpResponse code =>
      if res_ok code then Stripe.BrevoOk
      else match brevo_text o with
           | Ret _ => Stripe.BrevoFailed ("Brevo error " +:+ pretty code)
           | Throw m => Stripe.BrevoFailed m
           end
  | HttpThrow m => Stripe.BrevoFailed m
  end.

(** The handler's last answer, [{ received: true, sent: brevo.ok }]. *)
Definition sent_ack (o : oracle) : response :=
  Stripe.ok (VObj [("received", VBool true);
                   ("sent", VBool (Stripe.brevo_ok (brevo_result o)))]).

(** The row the handler inserts into [onboarding_emails]. *)
Definition notification_row (o : oracle) (n : Stripe.NormalizedStripeInfo)
    (evt : jsval) : onboarding_row :=
  {| to_email := Stripe.buyerEmailOf n evt;
     product_name := Stripe.productName n;
     ob_event_id := Stripe.eventId n;
     ob_checkout_session_id := Stripe.checkoutSessionId n;
     ob_customer_id := Stripe.customerId n;
     ob_status := if Stripe.brevo_ok (brevo_result o) then "sent" else "error";
     error_message :=
       match brevo_result o with
       | Stripe.BrevoOk => None
       | Stripe.BrevoFailed e => Some e
       end |}.

Definition email_call (n : Stripe.NormalizedStripeInfo) (evt : jsval) : call :=
  BrevoSend (Stripe.buyerEmailOf n evt) Stripe.subject (Stripe.productName n).

(** The two upserts as the handler runs them: only with a database, and only
    for checkout and payment events. *)
Definition upserts_stage (cfg : config) (o : oracle) (n : Stripe.NormalizedStripeInfo)
    (evt : jsval) : M unit :=
  if has_db cfg && Stripe.shouldProcessDb (prop evt "type")
  then Stripe.upserts o n (Stripe.buyerEmailOf n evt)
  else ret tt.

(** What the ledger step leaves for the rest of the handler: the database
    and the calls so far when the event goes on to be processed, [None] when
    the handler stops there (a duplicate, or a rejected ledger upsert). *)
Definition ledger_stage (cfg : config) (o : oracle) (evt : jsval) (db : database)
  : option (database * list call) :=
  if has_db cfg then
    match db_result_of o LedgerUpsert with
    | DbOk =>
        if Pipeline.ledger_has (prop evt "id") db then None
        else Some (Pipeline.recorded evt (prop evt "id") db, [Pipeline.ledger_probe])
    | DbError _ => Some (db, [Pipeline.ledger_probe])
    | DbThrow _ => None
    end
  else Some (db, []).

(** The fields [handleSale] reads off a payload. *)
Definition sale_id_of (p : jsval) : string :=
  to_text (coalesce (prop p "sale_id") (coalesce (prop p "id") (VStr EmptyString))).

Definition sale_email_of (p : jsval) : string :=
  to_text (coalesce (prop p "email")
               (coalesce (prop p "purchaser_email") (VStr EmptyString))).


Definition links_of (o : oracle) : option string * option string :=
  (match signed_pdf o with Ret u => u | Throw _ => None end,
   match signed_csv o with Ret u => u | Throw _ => None end).

(** The rows of [subscribers] after [update({ pdf_url, csv_url })] for a sale. *)
Definition linked_rows (sale : string) (links : option string * option string)
    (rows : list subscriber_row) : list subscriber_row :=
  update_rows (fun r => column_is (sale_id r) sale)
    (fun r => {| sale_id := sale_id r; email := email r;
                 product_id := product_id r; seller_id := seller_id r;
                 full_name := full_name r; source := source r;
                 revoked_at := revoked_at r;
                 pdf_url := fst links; csv_url := snd links |})
    rows.

(** A row of [subscribers] belongs to the sale [sale]. *)
Definition is_sale_row (sale : string) (r : subscriber_row) : bool :=
  conflicts (sale_id r) (VStr sale).

Definition product_of (p : jsval) : string :=
  to_text (coalesce (prop p "product_id")
               (coalesce (oget (prop p "product") "id") (VStr EmptyString))).

Definition seller_of (p : jsval) : string :=
  to_text (coalesce (prop p "seller_id")
               (coalesce (oget (prop p "seller") "id") (VStr EmptyString))).

Definition name_of (p : jsval) : string :=
  to_text (coalesce (prop p "full_name")
               (coalesce (prop p "purchaser_name") (VStr EmptyString))).

(** The row the gumroad upsert inserts, and what it makes of a row in
    conflict. *)
(** The five values [handleSale] converts all convert. *)
Definition sale_converts (p : jsval) : bool :=
  convertible (coalesce (prop p "sale_id") (coalesce (prop p "id") (VStr EmptyString)))
  && convertible (coalesce (prop p "email")
                    (coalesce (prop p "purchaser_email") (VStr EmptyString)))
  && convertible (coalesce (prop p "product_id")
                    (coalesce (oget (prop p "product") "id") (VStr EmptyString)))
  && convertible (coalesce (prop p "seller_id")
                    (coalesce (oget (prop p "seller") "id") (VStr EmptyString)))
  && convertible (coalesce (prop p "full_name")
                    (coalesce (prop p "purchaser_name") (VStr EmptyString))).

(** A payload [handleSale] goes on to write. *)
Definition writable_sale (cfg : config) (p : jsval) : bool :=
  has_db cfg && negb (nullish p) && sale_converts p
  && truthy (sale_id_of p) && truthy (sale_email_of p).

Definition sale_fresh (p : jsval) : subscriber_row :=
  {| sale_id := VStr (sale_id_of p); email := VStr (sale_email_of p);
     product_id := Gumroad.or_null (product_of p);
     seller_id := Gumroad.or_null (seller_of p);
     full_name := Gumroad.or_null (name_of p);
     source := VNull; revoked_at := None; pdf_url := None; csv_url := None |}.

Definition sale_merge (p : jsval) (r : subscriber_row) : subscriber_row :=
  {| sale_id := VStr (sale_id_of p); email := VStr (sale_email_of p);
     product_id := Gumroad.or_null (product_of p);
     seller_id := Gumroad.or_null (seller_of p);
     full_name := Gumroad.or_null (name_of p);
     source := source r; revoked_at := revoked_at r;
     pdf_url := pdf_url r; csv_url := csv_url r |}.

Definition sale_rows (p : jsval) (rows : list subscriber_row) : list subscriber_row :=
  upsert_rows (is_sale_row (sale_id_of p)) (sale_merge p) (sale_fresh p) rows.

(** The sale a revocation names. *)
Definition revoked_sale_value (p : jsval) : jsval :=
  coalesce (oget p "sale_id") (coalesce (oget p "id") (VStr EmptyString)).

Definition revoked_sale_of (p : jsval) : string := to_text (revoked_sale_value p).

Definition revoked_rows (sale t : string) (rows : list subscriber_row)
  : list subscriber_row :=
  update_rows (fun r => column_is (sale_id r) sale) (set_revoked t) rows.

(** The database a gumroad revocation leaves. *)
Definition revoke_effect (cfg : config) (o : oracle) (p : jsval) (db : database)
  : database :=
  if has_db cfg && convertible (revoked_sale_value p) && truthy (revoked_sale_of p) then
    match db_result_of o GumroadRevoke with
    | DbOk => with_subscribers
                (revoked_rows (revoked_sale_of p) (now o) (subscribers db)) db
    | _ => db
    end
  else db.

(** *** The payhip handler's effect on the database *)

(** [if (attrs.x) row.x = attrs.x]: the submitted column when it is truthy,
    else the stored one. *)
Definition payhip_pick (submitted old : jsval) : jsval :=
  if truthy_val submitted then submitted else old.

Definition payhip_fresh (e : string) (a b : jsval) : subscriber_row :=
  {| sale_id := payhip_pick a VNull; email := VStr e;
     product_id := payhip_pick b VNull;
     seller_id := VNull; full_name := VNull;
     source := VStr "payhip"; revoked_at := None;
     pdf_url := None; csv_url := None |}.

Definition payhip_merge (e : string) (a b : jsval) (r : subscriber_row) : subscriber_row :=
  {| sale_id := payhip_pick a (sale_id r); email := VStr e;
     product_id := payhip_pick b (product_id r);
     seller_id := seller_id r; full_name := full_name r;
     source := VStr "payhip"; revoked_at := revoked_at r;
     pdf_url := pdf_url r; csv_url := csv_url r |}.

Definition payhip_rows (e : string) (a b : jsval) (rows : list subscriber_row)
  : list subscriber_row :=
  upsert_rows (fun r => conflicts (email r) (VStr e)) (payhip_merge e a b)
    (payhip_fresh e a b) rows.

(** The buyer a payhip sale names, if any. *)
Definition payhip_email_value (p : jsval) : jsval :=
  or_else (oget (oget p "customer") "email") (or_else (oget p "email") (VStr EmptyString)).

Definition payhip_email_of (p : jsval) : option string :=
  let e := to_text (payhip_email_value p) in
  if truthy e then Some e else None.

Definition payhip_sale_value (p : jsval) : jsval :=
  or_else (oget p "id") (or_else (oget p "order_id") (VStr EmptyString)).

Definition payhip_sale_of (p : jsval) : string := to_text (payhip_sale_value p).

Definition payhip_event_value (p : jsval) : jsval :=
  or_else (oget p "event") (or_else (oget p "type") (VStr EmptyString)).

Definition payhip_event_of (p : jsval) : string := to_text (payhip_event_value p).

(** What the sale branch of the payhip handler leaves, and whether it
    completes without throwing. *)
Definition sale_part_db (cfg : config) (o : oracle) (p : jsval) (db : database)
  : database :=
  match payhip_email_of p with
  | None => db
  | Some e =>
      if convertible (payhip_email_value p) && has_db cfg then
        match db_result_of o PayhipUpsert with
        | DbOk =>
            with_subscribers
              (payhip_rows e (or_else (oget p "id") (oget p "order_id"))
                 (oget p "product_id") (subscribers db)) db
        | _ => db
        end
      else db
  end.

Definition sale_part_ok (cfg : config) (o : oracle) (p : jsval) : bool :=
  convertible (payhip_email_value p)
  && match payhip_email_of p with
     | None => true
     | Some _ =>
         has_db cfg
         && match db_result_of o PayhipUpsert with DbThrow _ => false | _ => true end
     end.

Definition refund_part_db (cfg : config) (o : oracle) (p : jsval) (db : database)
  : database :=
  if has_db cfg && convertible (payhip_sale_value p) && truthy (payhip_sale_of p) then
    match db_result_of o PayhipRevoke with
    | DbOk => with_subscribers
                (revoked_rows (payhip_sale_of p) (now o) (subscribers db)) db
    | _ => db
    end
  else db.

(** The refund branch runs only when the sale branch, if taken, did not
    throw: both sit in one [try]. *)
Definition event_effect (cfg : config) (o : oracle) (event : string) (p : jsval)
    (db : database) : database :=
  let db1 := if Payhip.is_sale event then sale_part_db cfg o p db else db in
  if (negb (Payhip.is_sale event) || sale_part_ok cfg o p) && Payhip.is_refund event
  then refund_part_db cfg o p db1
  else db1.

(** The database a sale leaves: the upsert when it is applied, then the
    links when their update is applied. *)
Definition sale_effect (cfg : config) (o : oracle) (p : jsval) (db : database) : database :=
  if writable_sale cfg p then
    match db_result_of o GumroadSaleUpsert with
    | DbOk =>
        match db_result_of o GumroadLinksUpdate with
        | DbOk =>
            with_subscribers
              (linked_rows (sale_id_of p) (links_of o) (sale_rows p (subscribers db))) db
        | _ => with_subscribers (sale_rows p (subscribers db)) db
        end
    | _ => db
    end
  else db.

(** The answers to an event that is not processed. *)
Definition ignored_ack : response := Stripe.ok (VObj [("ignored", VBool true)]).
Definition no_email_ack : response :=
  Stripe.ok (VObj [("skipped", VBool true); ("reason", VStr "no_email")]).
Definition internal_error : response := Stripe.bad "internal error" 500.

(** The delivery is a sale that passes the adapter's checks on the way to
    its entitlement write. Card processor: a signed event that the ledger lets through, of a
    type with database writes, that normalises and has a buyer email, with
    a database client and a customers upsert that does not throw. Gumroad:
    a request that is neither GET nor HEAD, whose action is [sale], that
    passes the optional authentication and that [handleSale] goes on to
    write. Payhip: a signed POST whose event name contains sale, purchase or
    completed and whose buyer email converts to a non-empty string, with a
    database client. *)
Definition sells (pf : Pipeline.platform) (p : Pipeline.provider) (cfg : config)
    (o : oracle) (req : request) (db : database) : Prop :=
  match p with
  | Pipeline.stripe =>
      exists evt n db' pre,
        Pipeline.authenticated pf cfg req evt
        /\ nullish evt = false
        /\ has_db cfg = true
        /\ ledger_stage cfg o evt db = Some (db', pre)
        /\ Stripe.shouldProcessDb (prop evt "type") = true
        /\ Stripe.normalizeStripeEvent evt = Ret n
        /\ truthy_val (Stripe.buyerEmailOf n evt) = true
        /\ (forall m, db_result_of o CustomersUpsert <> DbThrow m)
  | Pipeline.gumroad =>
      Gumroad.bodiless req = false
      /\ exists pl,
           Gumroad.parseBody (Pipeline.JSON_parse pf) (Pipeline.URLSearchParams_entries pf)
             req = Ret pl
           /\ Gumroad.actionOf pl = Ret "sale"
           /\ (requireGumroadAuth cfg = false
               \/ Gumroad.authed (Pipeline.hmacSHA256Hex pf) cfg req (body req) pl = true)
           /\ writable_sale cfg pl = true
  | Pipeline.payhip =>
      let pl := Pipeline.payhip_payload pf req in
      exists event e,
        method req = "POST"
        /\ Payhip.verifyHmac (Pipeline.hmacSHA256Hex pf) cfg req (body req) = true
        /\ js_String (payhip_event_value pl) = Ret event
        /\ Payhip.is_sale event = true
        /\ js_String (payhip_email_value pl) = Ret e
        /\ truthy e = true
        /\ has_db cfg = true
  end.

End Coverage.

(** ** Further worked inputs *)

Module Samples.
Import JsString JsValue Http World Pipeline Fixtures.

Definition invoice_text : string := "stripe-invoice".
Definition invoice : jsval :=
  VObj [("id", VStr "evt_4");
        ("type", VStr "invoice.paid");
        ("data", VObj [("object", VObj [("customer_email", VStr "a@b.com")])])].

Definition update_text : string := "stripe-customer-updated".
Definition update : jsval :=
  VObj [("id", VStr "evt_5"); ("type", VStr "customer.updated")].

Definition gumroad_nameless_text : string := "gumroad-sale-without-email".
Definition gumroad_nameless : jsval :=
  VObj [("action", VStr "sale"); ("sale_id", VStr "S2")].

Definition payhip_nameless_text : string := "payhip-sale-without-email".
Definition payhip_nameless : jsval :=
  VObj [("type", VStr "sale.completed"); ("id", VStr "P2")].

(** A payhip event whose name triggers both branches. *)
Definition payhip_sale_refunded_text : string := "payhip-sale-refunded".
Definition payhip_sale_refunded : jsval :=
  VObj [("type", VStr "sale.refunded"); ("id", VStr "S1"); ("email", VStr "a@b.com")].

(** The normal forms of the sample events. *)
(** A checkout session that names no buyer. *)
Definition checkout_anonymous_text : string := "stripe-checkout-anonymous".
Definition checkout_anonymous : jsval :=
  VObj [("id", VStr "evt_6");
        ("type", VStr "checkout.session.completed");
        ("data", VObj [("object", VObj [("id", VStr "cs_6")])])].

Definition checkout_normal : Stripe.NormalizedStripeInfo :=
  {| Stripe.eventId := "evt_1"; Stripe.customerId := VStr "cus_1";
     Stripe.checkoutSessionId := VStr "cs_1"; Stripe.email := VStr "a@b.com";
     Stripe.productName := "Premium Access";
     Stripe.planId := VStr "premium_telegram" |}.

Definition invoice_normal : Stripe.NormalizedStripeInfo :=
  {| Stripe.eventId := "evt_4"; Stripe.customerId := VNull;
     Stripe.checkoutSessionId := VNull; Stripe.email := VNull;
     Stripe.productName := "Premium Access"; Stripe.planId := VNull |}.

(** Events a signature does not rule out: an id, or a product name, that
    is an object with an own [toString]. *)
Definition odd_id_text : string := "stripe-odd-id".
Definition odd_id : jsval :=
  VObj [("id", VObj [("toString", VNum 1)]); ("type", VStr "customer.updated")].

Definition odd_name_text : string := "stripe-odd-name".
Definition odd_name : jsval :=
  VObj [("id", VStr "evt_6");
        ("type", VStr "checkout.session.completed");
        ("data", VObj [("object",
           VObj [("id", VStr "cs_6");
                 ("customer_details", VObj [("email", VStr "a@b.com")]);
                 ("metadata", VObj [("product_name", VObj [("toString", VNum 1)])])])])].

Definition pf1 : platform :=
  platform_with
    [(checkout_text, checkout); (invoice_text, invoice); (update_text, update);
     (gumroad_sale_text, gumroad_sale); (gumroad_refund_text, gumroad_refund);
     (gumroad_nameless_text, gumroad_nameless);
     (payhip_sale_text, payhip_sale); (payhip_refund_text, payhip_refund);
     (payhip_nameless_text, payhip_nameless);
     (payhip_sale_refunded_text, payhip_sale_refunded);
     (odd_id_text, odd_id); (odd_name_text, odd_name);
     (checkout_anonymous_text, checkout_anonymous)].

(** [cfg0] without the Supabase URL: no database client. *)
Definition cfg_no_db : config :=
  {| stripeWebhookSecret := Some "whsec_1";
     brevoApiKey := Some "xkeysib";
     emailFrom := Some "TrendDrop <hi@trenddrop.test>";
     telegramInviteUrl := None;
     supabaseUrl := "";
     supabaseServiceRoleKey := "service";
     telegramBotToken := None;
     telegramCommunityChatId := None;
     reportsBucket := "trenddrop-reports";
     requireGumroadAuth := true;
     gumroadWebhookSecret := Some "gum_secret";
     gumroadSellerId := None;
     payhipApiKey := Some "payhip_key" |}.

(** The customers upsert is refused, the subscription upsert rejects, and
    the mail provider answers 500. *)
Definition failing : oracle :=
  {| now := "2025-01-01T00:00:00.000Z";
     db_result_of := fun s =>
       match s with
       | CustomersUpsert => DbError "duplicate key"
       | SubscriptionsUpsert => DbThrow "connection reset"
       | GumroadSaleUpsert => DbError "duplicate key"
       | _ => DbOk
       end;
     brevo := HttpResponse 500;
     brevo_text := Ret "{}";
     telegram := HttpThrow "timeout";
     add_member := HttpThrow "timeout";
     signed_pdf := Throw "no such object";
     signed_csv := Ret (Some "https://files.test/latest.csv") |}.

(** The ledger upsert comes back with an error. *)
Definition ledger_down : oracle :=
  {| now := "2025-01-01T00:00:00.000Z";
     db_result_of := fun s =>
       match s with LedgerUpsert => DbError "timeout" | _ => DbOk end;
     brevo := HttpResponse 201;
     brevo_text := Ret "{}";
     telegram := HttpResponse 200;
     add_member := HttpResponse 200;
     signed_pdf := Ret None;
     signed_csv := Ret None |}.

(** A database whose ledger already holds [evt_1]. *)
Definition db_seen : database :=
  with_ledger [{| event_id := VStr "evt_1";
                  event_type := VStr "checkout.session.completed" |}]
    empty_database.

(** The payhip upsert rejects. *)
Definition upsert_rejects : oracle :=
  {| now := "2025-01-01T00:00:00.000Z";
     db_result_of := fun s =>
       match s with PayhipUpsert => DbThrow "connection reset" | _ => DbOk end;
     brevo := HttpResponse 201;
     brevo_text := Ret "{}";
     telegram := HttpResponse 200;
     add_member := HttpResponse 200;
     signed_pdf := Ret None;
     signed_csv := Ret None |}.

(** The revoking update comes back with an error. *)
Definition revoke_rejects : oracle :=
  {| now := "2025-01-01T00:00:00.000Z";
     db_result_of := fun s =>
       match s with
       | GumroadRevoke | PayhipRevoke => DbError "timeout"
       | _ => DbOk
       end;
     brevo := HttpResponse 201;
     brevo_text := Ret "{}";
     telegram := HttpResponse 200;
     add_member := HttpResponse 200;
     signed_pdf := Ret None;
     signed_csv := Ret None |}.

(** The customers upsert rejects. *)
Definition customers_down : oracle :=
  {| now := "2025-01-01T00:00:00.000Z";
     db_result_of := fun s =>
       match s with CustomersUpsert => DbThrow "connection reset" | _ => DbOk end;
     brevo := HttpResponse 201;
     brevo_text := Ret "{}";
     telegram := HttpResponse 200;
     add_member := HttpResponse 200;
     signed_pdf := Ret None;
     signed_csv := Ret None |}.

(** A subscription that something outside the handlers marked revoked. *)
Definition revoked_subscription : subscription_row :=
  {| customer_id := Some 0; stripe_subscription_id := VNull;
     stripe_checkout_session_id := VStr "cs_1"; sub_status := "revoked";
     plan_id := VStr "premium_telegram"; last_event_at := "2024-12-01T00:00:00.000Z" |}.

Definition db_with_revoked_subscription : database :=
  with_subscriptions [revoked_subscription] empty_database.

(** A GET request that carries a body. *)
Definition get_with_body (text : string) : request :=
  {| method := "GET"; headers := ∅; body := text |}.

(** The premium-status function with one active member. *)
Definition ann_text : string := "{email:ann}".
Definition ann_body : jsval := VObj [("email", VStr "ann@example.com")].
Definition ann_row : jsval :=
  VObj [("email", VStr "ann@example.com"); ("status", VStr "active")].

Definition members (email : string) : PremiumStatusFunction.query_result :=
  PremiumStatusFunction.QueryData
    (Some (if String.eqb email "ann@example.com" then [ann_row] else [])).

Definition ann_answer : jsval :=
  VObj [("isPremium", VBool true); ("member", ann_row)].

(** The network between the helper and the function, for that one request. *)
Definition ann_fetch (_ : jsval) : PremiumStatus.fetch_result :=
  PremiumStatus.FetchResponse 200 (Ret "{isPremium:true}") (Ret ann_answer).

Definition ann_by_query : PremiumStatusFunction.url_request :=
  {| PremiumStatusFunction.req := {| method := "GET"; headers := ∅; body := "" |};
     PremiumStatusFunction.searchParams := {[ "email" := "  Ann@Example.COM " ]} |}.

End Samples.

(** * Properties *)

(** ** Signature verification of the card processor *)

Section StripeSigFacts.
Import JsString StripeSig.

Lemma charCodeAt_inj x y : charCodeAt x = charCodeAt y -> x = y.
Proof.
  unfold charCodeAt. intros H.
  rewrite <- (ascii_N_embedding x), <- (ascii_N_embedding y). now rewrite H.
Qed.

Lemma xor_accumulate_zero a : forall b r,
  String.length a = String.length b ->
  (xor_accumulate a b r = 0%N <-> r = 0%N /\ a = b).
Proof.
  induction a as [|x a IH]; intros [|y b] r Hlen; simpl in *; try discriminate.
  - intuition.
  - injection Hlen as Hlen. rewrite (IH b _ Hlen), N.lor_eq_0_iff. split.
    + intros [[Hr Hx] Hab]. split; [exact Hr|].
      apply N.lxor_eq in Hx. apply charCodeAt_inj in Hx. congruence.
    + intros [Hr Heq]. injection Heq as -> ->.
      rewrite N.lxor_nilpotent. intuition.
Qed.

(** The XOR-accumulate comparison decides string equality. *)
Lemma tsec_spec a b : tsec a b = true <-> a = b.
Proof.
  unfold tsec. destruct (Nat.eqb (String.length a) (String.length b)) eqn:Hlen; simpl.
  - apply Nat.eqb_eq in Hlen. rewrite N.eqb_eq, (xor_accumulate_zero a b 0%N Hlen).
    intuition.
  - split; [discriminate|]. intros ->. rewrite Nat.eqb_refl in Hlen. discriminate.
Qed.

Lemma tsec_false a b : tsec a b = false <-> a <> b.
Proof.
  rewrite <- tsec_spec. destruct (tsec a b); split; congruence.
Qed.

Lemma some_tsec_true v1 expected :
  some_tsec v1 expected = Ret true -> In (Some expected) v1.
Proof.
  induction v1 as [|[given|] rest IH]; simpl; try discriminate.
  destruct (tsec given expected) eqn:Hg.
  - apply tsec_spec in Hg. subst. auto.
  - auto.
Qed.

Lemma some_tsec_defined v1 expected :
  Forall (fun given => given <> None) v1 ->
  (In (Some expected) v1 -> some_tsec v1 expected = Ret true)
  /\ (~ In (Some expected) v1 -> some_tsec v1 expected = Ret false).
Proof.
  induction 1 as [|[given|] rest Hx Hrest [IHt IHf]]; simpl.
  - intuition.
  - destruct (tsec given expected) eqn:Hg.
    + apply tsec_spec in Hg. subst. intuition.
    + apply tsec_false in Hg. split.
      * intros [Heq|Hin]; [congruence|auto].
      * intros Hn. apply IHf. intuition.
  - congruence.
Qed.

Variable hmacSHA256Hex : string -> string -> string.

(** A header that does not parse is refused. *)
Lemma verify_unparsed rawBody sigHeader secret :
  parseStripeSigHeader (Some sigHeader) = None ->
  verifyStripeSignature hmacSHA256Hex rawBody sigHeader secret = Ret false.
Proof. unfold verifyStripeSignature. now intros ->. Qed.

(** Acceptance is sound: [true] only for a header that parses and carries
    the digest of ["<t>.<rawBody>"] among its [v1] values. *)
Lemma verify_sound rawBody sigHeader secret :
  verifyStripeSignature hmacSHA256Hex rawBody sigHeader secret = Ret true ->
  exists t v1,
    parseStripeSigHeader (Some sigHeader) = Some (t, v1)
    /\ In (Some (hmacSHA256Hex secret (t +:+ "." +:+ rawBody))) v1.
Proof.
  unfold verifyStripeSignature.
  destruct (parseStripeSigHeader (Some sigHeader)) as [[t v1]|]; [|discriminate].
  intros H. exists t, v1. split; [reflexivity|]. now apply some_tsec_true.
Qed.

(** When every [v1] segment of the header carries a value, the verifier
    returns, and returns [true] exactly when one of them is the digest. *)
Lemma verify_when_values_present rawBody sigHeader secret t v1 :
  parseStripeSigHeader (Some sigHeader) = Some (t, v1) ->
  Forall (fun given => given <> None) v1 ->
  let expected := hmacSHA256Hex secret (t +:+ "." +:+ rawBody) in
  (In (Some expected) v1 ->
   verifyStripeSignature hmacSHA256Hex rawBody sigHeader secret = Ret true)
  /\ (~ In (Some expected) v1 ->
      verifyStripeSignature hmacSHA256Hex rawBody sigHeader secret = Ret false).
Proof.
  intros Hp Hall. unfold verifyStripeSignature. rewrite Hp.
  now apply some_tsec_defined.
Qed.

(** C3. The claim has the verifier return [false] whenever no supplied [v1]
    equals the digest. On the header [t=1,v1], whose [v1] segment has no
    [=], the parser keeps an [undefined] candidate and [tsec] throws on its
    [length]: the verifier does not return at all, whatever the body, the
    secret and the digest function. *)
Theorem C3_verify_throws_on_v1_without_value rawBody secret :
  parseStripeSigHeader (Some "t=1,v1") = Some ("1", [None])
  /\ verifyStripeSignature hmacSHA256Hex rawBody "t=1,v1" secret
     = Throw "Cannot read properties of undefined (reading 'length')".
Proof. split; reflexivity. Qed.

End StripeSigFacts.

Section WorkedSignatures.
Import JsString StripeSig Fixtures.

Example split_keeps_empty_segments : split ","%char "a,,b," = ["a"; ""; "b"; ""].
Proof. reflexivity. Qed.

Example trim_both_ends : trim "  v1=ab  " = "v1=ab".
Proof. reflexivity. Qed.

Example header_with_two_candidates :
  parseStripeSigHeader (Some "t=1, v1=ab ,v1=cd=ef") = Some ("1", [Some "ab"; Some "cd"]).
Proof. reflexivity. Qed.

Example header_without_timestamp : parseStripeSigHeader (Some "v1=ab") = None.
Proof. reflexivity. Qed.

Example header_with_empty_timestamp : parseStripeSigHeader (Some "t=,v1=ab") = None.
Proof. reflexivity. Qed.

Example tsec_differs_in_last_character : tsec "abc1" "abc2" = false.
Proof. reflexivity. Qed.

Example second_candidate_verifies :
  verifyStripeSignature digest "body"
    ("t=7,v1=00,v1=" +:+ digest "whsec_1" "7.body") "whsec_1" = Ret true.
Proof. reflexivity. Qed.

Example other_secret_is_refused :
  verifyStripeSignature digest "body"
    ("t=7,v1=" +:+ digest "whsec_1" "7.body") "whsec_12" = Ret false.
Proof. reflexivity. Qed.

End WorkedSignatures.

(** ** Refused deliveries *)

Section Refusals.
Import JsString JsValue Http World Pipeline.

Variable pf : platform.
Variable cfg : config.
Variable o : oracle.

Lemma stripe_missing_signature req db :
  reaches_auth pf stripe cfg req ->
  header req "stripe-signature" = None ->
  deliver pf stripe cfg o req db = (Ret Stripe.missing_signature, db, []).
Proof.
  intros (Hm & Hs & Hb & He) Hh. simpl.
  unfold Stripe.serve, try_catch, Stripe.handle, Stripe.EMAIL_FROM.
  destruct (String.eqb_spec (method req) "GET") as [|_]; [contradiction|].
  destruct (stripeWebhookSecret cfg) as [secret|]; [|discriminate].
  simpl in Hs. rewrite Hs, Hb. simpl.
  destruct (emailFrom cfg) as [from|]; [|discriminate].
  simpl in He. rewrite He. simpl. now rewrite Hh.
Qed.


Lemma payhip_refusal req db :
  method req = "POST" ->
  Payhip.verifyHmac (hmacSHA256Hex pf) cfg req (body req) = false ->
  deliver pf payhip cfg o req db = (Ret Payhip.unauthorized, db, []).
Proof.
  intros Hm Hv. simpl. unfold Payhip.serve. now rewrite Hm, Hv.
Qed.

Lemma gumroad_refusal req db :
  reaches_auth pf gumroad cfg req ->
  auth_fails pf gumroad cfg req ->
  deliver pf gumroad cfg o req db = (Ret Gumroad.unauthorized, db, []).
Proof.
  intros (Hbody & Hreq & pl & action & Hp & Ha & Hping) Hf. simpl in Hf |- *.
  specialize (Hf pl Hp).
  unfold Gumroad.serve, bind, lift. rewrite Hbody, Hp, Ha.
  destruct (String.eqb_spec action "ping") as [|_]; [contradiction|].
  now rewrite Hreq, Hf.
Qed.

(** With its secret unset a marketplace verifier answers [false]. *)
Lemma gumroad_verifyHmac_no_secret req raw :
  truthy_opt (gumroadWebhookSecret cfg) = false ->
  Gumroad.verifyHmac (hmacSHA256Hex pf) cfg req raw = false.
Proof.
  unfold Gumroad.verifyHmac. destruct (gumroadWebhookSecret cfg); simpl; [|reflexivity].
  now intros ->.
Qed.

Lemma payhip_verifyHmac_no_secret req raw :
  truthy_opt (payhipApiKey cfg) = false ->
  Payhip.verifyHmac (hmacSHA256Hex pf) cfg req raw = false.
Proof.
  unfold Payhip.verifyHmac. destruct (payhipApiKey cfg); simpl; [|reflexivity].
  now intros ->.
Qed.

(** Without a signature header a marketplace verifier answers [false]. *)
Lemma gumroad_verifyHmac_no_header req raw :
  header req "x-gumroad-signature" = None ->
  Gumroad.verifyHmac (hmacSHA256Hex pf) cfg req raw = false.
Proof.
  intros Hh. unfold Gumroad.verifyHmac.
  destruct (gumroadWebhookSecret cfg) as [s|]; [|reflexivity].
  destruct (truthy s); simpl; [|reflexivity].
  change (header req "X-Gumroad-Signature") with (header req "x-gumroad-signature").
  now rewrite Hh.
Qed.

Lemma payhip_verifyHmac_no_header req raw :
  header req "x-payhip-signature" = None ->
  Payhip.verifyHmac (hmacSHA256Hex pf) cfg req raw = false.
Proof.
  intros Hh. unfold Payhip.verifyHmac.
  destruct (payhipApiKey cfg) as [s|]; [|reflexivity].
  destruct (truthy s); simpl; [|reflexivity].
  change (header req "X-Payhip-Signature") with (header req "x-payhip-signature").
  now rewrite Hh.
Qed.

(** A delivery that fails authentication writes nothing, wherever the
    handler stops. *)
Lemma stripe_unauthenticated req db :
  auth_fails pf stripe cfg req ->
  db_of (deliver pf stripe cfg o req db) = db
  /\ calls_of (deliver pf stripe cfg o req db) = [].
Proof.
  intros Hf. simpl in Hf |- *. unfold Stripe.serve, try_catch, Stripe.handle.
  destruct (String.eqb (method req) "GET"); [now split|].
  destruct (stripeWebhookSecret cfg) as [secret|]; [|now split].
  destruct (negb (truthy secret)); [now split|].
  destruct (negb (truthy_opt (brevoApiKey cfg)) || negb (truthy (Stripe.EMAIL_FROM cfg)));
    [now split|].
  destruct (header req "stripe-signature") as [h|]; [|now split].
  destruct (truthy h); simpl; [|now split].
  destruct Hf as [Hf|Hf]; [discriminate|]. unfold bind, lift. rewrite Hf. now split.
Qed.

Lemma payhip_unauthenticated req db :
  auth_fails pf payhip cfg req ->
  db_of (deliver pf payhip cfg o req db) = db
  /\ calls_of (deliver pf payhip cfg o req db) = [].
Proof.
  intros Hf. simpl in Hf |- *. unfold Payhip.serve.
  destruct (negb (String.eqb (method req) "POST")); [now split|].
  rewrite Hf. now split.
Qed.

Lemma gumroad_unauthenticated req db :
  requireGumroadAuth cfg = true ->
  auth_fails pf gumroad cfg req ->
  db_of (deliver pf gumroad cfg o req db) = db
  /\ calls_of (deliver pf gumroad cfg o req db) = [].
Proof.
  intros Hreq Hf. simpl in Hf |- *. unfold Gumroad.serve, bind, lift.
  destruct (Gumroad.bodiless req); [now split|].
  destruct (Gumroad.parseBody _ _ req) as [pl|m] eqn:Hp; [|now split].
  destruct (Gumroad.actionOf pl) as [action|m]; [|now split].
  destruct (String.eqb action "ping"); [now split|].
  rewrite Hreq, (Hf pl eq_refl). now split.
Qed.

Lemma unauthenticated_writes_nothing p req db :
  auth_fails pf p cfg req ->
  (p = gumroad -> requireGumroadAuth cfg = true) ->
  db_of (deliver pf p cfg o req db) = db
  /\ calls_of (deliver pf p cfg o req db) = [].
Proof.
  intros Hf Hreq. destruct p.
  - now apply stripe_unauthenticated.
  - apply gumroad_unauthenticated; [now apply Hreq|exact Hf].
  - now apply payhip_unauthenticated.
Qed.

Lemma missing_header_fails p req :
  header req (signature_header p) = None ->
  (p = gumroad ->
   forall pl,
     Gumroad.parseBody (JSON_parse pf) (URLSearchParams_entries pf) req = Ret pl ->
     Gumroad.body_auth cfg pl = false) ->
  auth_fails pf p cfg req.
Proof.
  intros Hh Hbody. destruct p; simpl in Hh |- *.
  - now rewrite Hh.
  - intros pl Hp. unfold Gumroad.authed.
    rewrite (gumroad_verifyHmac_no_header _ _ Hh). now apply Hbody.
  - now apply payhip_verifyHmac_no_header.
Qed.


(** C4 (as amended). A delivery without its signature header issues no call
    and leaves the database as it was; on the gumroad adapter this holds
    when REQUIRE_GUMROAD_AUTH is on and the body fallback does not
    authenticate the payload either. When the delivery reaches the adapter's
    authentication step (as in C1), the card-processor adapter answers 400
    "missing signature", the payhip adapter 401 "unauthorized", and the
    gumroad adapter 200 with [ok:false, error:"unauthorized"]. *)
Theorem C4_missing_signature_header (p : provider) req db :
  header req (signature_header p) = None ->
  (p = gumroad ->
   forall pl,
     Gumroad.parseBody (JSON_parse pf) (URLSearchParams_entries pf) req = Ret pl ->
     Gumroad.body_auth cfg pl = false) ->
  ((p = gumroad -> requireGumroadAuth cfg = true) ->
   db_of (deliver pf p cfg o req db) = db
   /\ calls_of (deliver pf p cfg o req db) = [])
  /\ (reaches_auth pf p cfg req ->
      deliver pf p cfg o req db = (Ret (refusal p true), db, [])
      /\ status (refusal p true) = refusal_status p).
Proof.
  intros Hh Hbody. pose proof (missing_header_fails p req Hh Hbody) as Hf.
  split; [now apply unauthenticated_writes_nothing|].
  intros Hr. split; [|now destruct p]. destruct p.
  - now apply stripe_missing_signature.
  - now apply gumroad_refusal.
  - now apply payhip_refusal.
Qed.

(** C5 (as amended). With no secret configured, the two marketplace
    verifiers answer [false] on every request. The payhip adapter then
    refuses the delivery with 401, and the card-processor adapter answers
    500 "server not configured (secret)" before it verifies anything, both
    without a call. The gumroad adapter goes on to its body fallback, whose
    secret test passes when no secret is configured: the delivery counts as
    authenticated exactly when the seller test passes, which it always does
    when no seller id is configured. *)
Theorem C5_no_secret_configured (p : provider) req db :
  truthy_opt (secret_of p cfg) = false ->
  match p with
  | stripe =>
      method req <> "GET" ->
      deliver pf stripe cfg o req db
      = (Ret (Stripe.bad "server not configured (secret)" 500), db, [])
  | payhip =>
      Payhip.verifyHmac (hmacSHA256Hex pf) cfg req (body req) = false
      /\ (method req = "POST" ->
          deliver pf payhip cfg o req db = (Ret Payhip.unauthorized, db, []))
  | gumroad =>
      Gumroad.verifyHmac (hmacSHA256Hex pf) cfg req (body req) = false
      /\ (forall pl,
            Gumroad.authed (hmacSHA256Hex pf) cfg req (body req) pl
            = match gumroadSellerId cfg with
              | Some needSeller =>
                  if truthy needSeller
                  then is_str (coalesce (oget pl "seller_id") (oget (oget pl "seller") "id"))
                         needSeller
                  else true
              | None => true
              end)
  end.
Proof.
  intros Hs. destruct p; simpl in Hs.
  - intros Hm. simpl. unfold Stripe.serve, try_catch, Stripe.handle.
    destruct (String.eqb_spec (method req) "GET") as [|_]; [contradiction|].
    destruct (stripeWebhookSecret cfg) as [secret|]; [|reflexivity].
    simpl in Hs. now rewrite Hs.
  - split; [now apply gumroad_verifyHmac_no_secret|].
    intros pl. unfold Gumroad.authed.
    rewrite (gumroad_verifyHmac_no_secret _ _ Hs). unfold Gumroad.body_auth.
    destruct (gumroadWebhookSecret cfg) as [s|]; [|reflexivity].
    simpl in Hs. now rewrite Hs.
  - split; [now apply payhip_verifyHmac_no_secret|].
    intros Hm. apply payhip_refusal; [exact Hm|].
    now apply payhip_verifyHmac_no_secret.
Qed.

End Refusals.

(** ** Normalisation of a completed checkout *)

Section Normalisation.
Import JsString JsValue Http World Pipeline.
Local Open Scope js_scope.

Lemma oget_nullish (v : jsval) (p : string) : nullish v = true -> v?.p = VUndef.
Proof. unfold oget. now intros ->. Qed.

Lemma normalize_returns evt id name :
  js_String (evt?."id" ?? VStr "") = Ret id ->
  Stripe.extractProductName evt = Ret name ->
  exists n,
    Stripe.normalizeStripeEvent evt = Ret n
    /\ Stripe.eventId n = id /\ Stripe.productName n = name.
Proof.
  intros Hid Hname. unfold Stripe.normalizeStripeEvent. rewrite Hid, Hname. simpl.
  eexists. split; [reflexivity|].
  destruct (is_str _ _); [now split|]. destruct (is_str _ _); now split.
Qed.

(** C6 (as amended). A [checkout.session.completed] event whose id and
    product name convert to strings normalises, and
    it is handled as a completed sale: it is among the events that send the
    email and among those that write the customer and subscription rows, and
    it is normalised by the checkout branch, its session reference being the
    session's own [id] and its customer the session's [customer]. Its
    normalised [email] is the first of [customer_details.email],
    [customer_email] and [customer.email] that is neither [null] nor
    [undefined]; its [planId] is [metadata.plan_id] when present. So
    [customer_details.email = "a@b.com"] with
    [metadata.plan_id = "premium_telegram"] yields that email and plan, and
    without [customer_details] the email is [customer_email], or else
    [customer.email]: a nested ["c@d.com"] still comes out. *)
Theorem C6_checkout_completed_normalizes (evt : jsval) (id name : string) :
  evt?."type" = VStr "checkout.session.completed" ->
  js_String (evt?."id" ?? VStr "") = Ret id ->
  Stripe.extractProductName evt = Ret name ->
  let obj := evt?."data"?."object" ?? VObj [] in
  exists n,
    Stripe.normalizeStripeEvent evt = Ret n
    /\ (Stripe.shouldSend (evt?."type") = true
        /\ Stripe.shouldProcessDb (evt?."type") = true
        /\ Stripe.checkoutSessionId n = (obj?."id" ?? VNull)
        /\ Stripe.customerId n = (obj?."customer" ?? VNull))
    /\ (obj?."customer_details"?."email" = VStr "a@b.com" ->
        obj?."metadata"?."plan_id" = VStr "premium_telegram" ->
        Stripe.email n = VStr "a@b.com" /\ Stripe.planId n = VStr "premium_telegram")
    /\ (nullish (obj?."customer_details") = true ->
        Stripe.email n = (obj?."customer_email" ?? obj?."customer"?."email" ?? VNull))
    /\ (nullish (obj?."customer_details") = true ->
        nullish (obj?."customer_email") = true ->
        obj?."customer"?."email" = VStr "c@d.com" ->
        Stripe.email n = VStr "c@d.com").
Proof.
  intros Ht Hid Hname obj. unfold Stripe.normalizeStripeEvent.
  rewrite Hid, Hname, Ht. fold obj. simpl. eexists. split; [reflexivity|]. simpl.
  split; [repeat (split; [reflexivity|]); reflexivity|]. split; [|split].
  - intros -> ->. now split.
  - intros Hcd. now rewrite (oget_nullish _ "email" Hcd).
  - intros Hcd Hce ->. rewrite (oget_nullish _ "email" Hcd).
    unfold coalesce at 1 2. now rewrite Hce.
Qed.

Lemma C6_witness :
  (exists n,
     Stripe.normalizeStripeEvent Fixtures.checkout = Ret n
     /\ Stripe.email n = VStr "a@b.com" /\ Stripe.planId n = VStr "premium_telegram")
  /\ (exists n,
        Stripe.normalizeStripeEvent Fixtures.checkout_nested = Ret n
        /\ Stripe.email n = VStr "c@d.com").
Proof.
  split.
  - destruct (C6_checkout_completed_normalizes Fixtures.checkout "evt_1" "Premium Access")
      as (n & Hn & _ & H & _); [reflexivity..|].
    exists n. split; [exact Hn|]. apply H; reflexivity.
  - destruct (C6_checkout_completed_normalizes Fixtures.checkout_nested "evt_2"
                "Premium Access") as (n & Hn & _ & _ & _ & H); [reflexivity..|].
    exists n. split; [exact Hn|]. apply H; reflexivity.
Defined.

(** C6 as stated fails on a payload whose id, or whose product name, is an
    object with a [toString] property of its own: the conversion to a string
    throws, and normalising yields no record at all, whatever email the
    payload carries. *)
Lemma C6_unconvertible_id_throws :
  (let evt :=
     VObj [("id", VObj [("toString", VNum 1)]);
           ("type", VStr "checkout.session.completed");
           ("data", VObj [("object",
              VObj [("customer_details", VObj [("email", VStr "a@b.com")]);
                    ("metadata", VObj [("plan_id", VStr "premium_telegram")])])])] in
   evt?."data"?."object"?."customer_details"?."email" = VStr "a@b.com"
   /\ evt?."data"?."object"?."metadata"?."plan_id" = VStr "premium_telegram"
   /\ Stripe.normalizeStripeEvent evt = Throw "Cannot convert object to primitive value")
  /\ (let evt :=
        VObj [("id", VStr "evt_7");
              ("type", VStr "checkout.session.completed");
              ("data", VObj [("object",
                 VObj [("customer", VObj [("email", VStr "c@d.com")]);
                       ("metadata",
                        VObj [("product_name", VObj [("toString", VNum 1)])])])])] in
      nullish (evt?."data"?."object"?."customer_details") = true
      /\ evt?."data"?."object"?."customer"?."email" = VStr "c@d.com"
      /\ Stripe.normalizeStripeEvent evt
         = Throw "Cannot convert object to primitive value").
Proof. repeat split. Qed.

End Normalisation.

(** ** Pings *)

Section Ping.
Import JsString JsValue Http World Pipeline.

(** C7. A gumroad delivery (sent with a method that can carry a body, so
    neither GET nor HEAD) whose payload names the action [ping] is answered
    200 [ok:true, type:"ping"] whatever the body otherwise holds and
    whatever the headers, the secret and the other settings are: nothing is
    verified, nothing is written, nobody is called. *)
Theorem C7_ping_is_acknowledged (pf : platform) (cfg : config) (o : oracle)
    (req : request) (db : database) (pl : jsval) :
  Gumroad.bodiless req = false ->
  Gumroad.parseBody (JSON_parse pf) (URLSearchParams_entries pf) req = Ret pl ->
  Gumroad.actionOf pl = Ret "ping" ->
  deliver pf gumroad cfg o req db
  = (Ret {| status := 200;
            content := Json (VObj [("ok", VBool true); ("type", VStr "ping")]) |},
     db, []).
Proof.
  intros Hm Hp Ha. simpl. unfold Gumroad.serve, bind, lift. now rewrite Hm, Hp, Ha.
Qed.

Lemma C7_witness :
  deliver Fixtures.pf0 gumroad Fixtures.cfg_no_secret Fixtures.all_ok
    (Fixtures.post [("x-gumroad-signature", "not-a-digest")] Fixtures.gumroad_ping_text)
    Fixtures.db_with_subscription
  = (Ret {| status := 200;
            content := Json (VObj [("ok", VBool true); ("type", VStr "ping")]) |},
     Fixtures.db_with_subscription, []).
Proof.
  apply (C7_ping_is_acknowledged Fixtures.pf0 Fixtures.cfg_no_secret Fixtures.all_ok
           _ _ Fixtures.gumroad_ping); reflexivity.
Defined.

(** A GET request is no delivery: the handler rebuilds the request around
    the body it has read, which throws for GET and HEAD before the payload
    is looked at, whatever the body holds. *)
Example ping_by_get_throws :
  Gumroad.parseBody (JSON_parse Fixtures.pf0) (URLSearchParams_entries Fixtures.pf0)
    (Samples.get_with_body Fixtures.gumroad_ping_text) = Ret Fixtures.gumroad_ping
  /\ Gumroad.actionOf Fixtures.gumroad_ping = Ret "ping"
  /\ deliver Fixtures.pf0 gumroad Fixtures.cfg0 Fixtures.all_ok
       (Samples.get_with_body Fixtures.gumroad_ping_text) empty_database
     = (Throw "Request with GET/HEAD method cannot have body", empty_database, []).
Proof. repeat split. Qed.

End Ping.

(** ** Worked refusals *)

Section RefusalExamples.
Import JsString JsValue Http World Pipeline Fixtures.



Lemma C4_witness :
  (db_of (deliver pf0 stripe cfg0 all_ok (post [] checkout_text) empty_database)
   = empty_database
   /\ calls_of (deliver pf0 stripe cfg0 all_ok (post [] checkout_text) empty_database) = [])
  /\ deliver pf0 stripe cfg0 all_ok (post [] checkout_text) empty_database
     = (Ret Stripe.missing_signature, empty_database, [])
  /\ status Stripe.missing_signature = 400%Z.
Proof.
  assert (Hh : header (post [] checkout_text) (signature_header stripe) = None)
    by reflexivity.
  assert (Hbody : stripe = gumroad ->
                  forall pl,
                    Gumroad.parseBody (JSON_parse pf0) (URLSearchParams_entries pf0)
                      (post [] checkout_text) = Ret pl ->
                    Gumroad.body_auth cfg0 pl = false) by discriminate.
  pose proof (C4_missing_signature_header pf0 cfg0 all_ok stripe (post [] checkout_text)
                empty_database Hh Hbody) as [Hquiet Hanswer].
  split.
  - apply Hquiet. discriminate.
  - apply Hanswer. split; [discriminate|]. split; [reflexivity|]. split; reflexivity.
Defined.

(** C4 as stated fails, on five counts, each on a request without its
    signature header.
    - The payhip adapter answers 401, not 400.
    - The gumroad adapter answers 200 [ok:false]; a GET request, or a JSON
      body that does not parse, makes it throw, and a ping is answered 200
      [ok:true].
    - The gumroad adapter accepts a refund whose body carries the secret,
      and revokes the sale; with REQUIRE_GUMROAD_AUTH off it accepts a sale
      without any secret, and writes it.
    - The card-processor adapter without its mail key, or without its
      webhook secret, answers 500, and a GET 200.
    - The payhip adapter answers a request that is not a POST 405. *)
Lemma C4_payhip_answers_401 :
  (header (post [] payhip_sale_text) "x-payhip-signature" = None
   /\ deliver pf0 payhip cfg0 all_ok (post [] payhip_sale_text) empty_database
      = (Ret {| status := 401;
                content := Json (VObj [("ok", VBool false);
                                       ("error", VStr "unauthorized")]) |},
         empty_database, []))
  /\ (header (post [] gumroad_sale_text) "x-gumroad-signature" = None
      /\ result_of (deliver pf0 gumroad cfg0 all_ok (post [] gumroad_sale_text)
                      empty_database)
         = Ret {| status := 200;
                  content := Json (VObj [("ok", VBool false);
                                         ("error", VStr "unauthorized")]) |}
      /\ result_of (deliver pf0 gumroad cfg0 all_ok (get_request []) empty_database)
         = Throw "Request with GET/HEAD method cannot have body"
      /\ result_of (deliver pf0 gumroad cfg0 all_ok
                      (post [("content-type", "application/json")] "{") empty_database)
         = Throw "SyntaxError"
      /\ result_of (deliver pf0 gumroad cfg0 all_ok (post [] gumroad_ping_text)
                      empty_database)
         = Ret Gumroad.ping_ack)
  /\ (header (post [] gumroad_refund_text) "x-gumroad-signature" = None
      /\ deliver pf0 gumroad cfg0 all_ok (post [] gumroad_refund_text) db_with_subscriber
         = (Ret (Gumroad.respond (VObj [("ok", VBool true)])),
            with_subscribers [set_revoked "2025-01-01T00:00:00.000Z" subscriber_S1]
              empty_database,
            [DbUpdate "subscribers" "sale_id"])
      /\ count (is_upsert_on "subscribers")
           (calls_of (deliver pf0 gumroad cfg_open all_ok (post [] gumroad_sale_text)
                        empty_database)) = 1)
  /\ (header (post [] checkout_text) "stripe-signature" = None
      /\ result_of (deliver pf0 stripe cfg_no_mail all_ok (post [] checkout_text)
                      empty_database)
         = Ret (Stripe.bad "server not configured (email)" 500)
      /\ result_of (deliver pf0 stripe cfg_no_secret all_ok (post [] checkout_text)
                      empty_database)
         = Ret (Stripe.bad "server not configured (secret)" 500)
      /\ result_of (deliver pf0 stripe cfg0 all_ok (get_request []) empty_database)
         = Ret (Stripe.ok (VObj [("status", VStr "ok")])))
  /\ (header (put [] payhip_sale_text) "x-payhip-signature" = None
      /\ result_of (deliver pf0 payhip cfg0 all_ok (put [] payhip_sale_text)
                      empty_database)
         = Ret Payhip.method_not_allowed).
Proof. repeat split. Qed.

Lemma C5_witness :
  Payhip.verifyHmac digest cfg_no_secret (payhip_signed payhip_sale_text) payhip_sale_text = false
  /\ (method (payhip_signed payhip_sale_text) = "POST" ->
      deliver pf0 payhip cfg_no_secret all_ok (payhip_signed payhip_sale_text) empty_database
      = (Ret Payhip.unauthorized, empty_database, [])).
Proof.
  apply (C5_no_secret_configured pf0 cfg_no_secret all_ok payhip). reflexivity.
Defined.

(** C5 as stated fails on the gumroad adapter: with no secret (and no seller
    id) configured and authentication required, an unsigned sale is taken as
    authenticated and written to [subscribers]. *)
Lemma C5_gumroad_accepts_without_secret :
  requireGumroadAuth cfg_no_secret = true
  /\ secret_of gumroad cfg_no_secret = None
  /\ Gumroad.verifyHmac digest cfg_no_secret (post [] gumroad_sale_text) gumroad_sale_text = false
  /\ Gumroad.authed digest cfg_no_secret (post [] gumroad_sale_text) gumroad_sale_text
       gumroad_sale = true
  /\ calls_of (deliver pf0 gumroad cfg_no_secret all_ok (post [] gumroad_sale_text)
                 empty_database)
     = [DbUpsert "subscribers" "sale_id";
        SignedUrl "trenddrop-reports" "weekly/latest.pdf";
        SignedUrl "trenddrop-reports" "weekly/latest.csv";
        DbUpdate "subscribers" "sale_id"]
  /\ length (subscribers (db_of (deliver pf0 gumroad cfg_no_secret all_ok
                                   (post [] gumroad_sale_text) empty_database))) = 1.
Proof. repeat split. Qed.

End RefusalExamples.

(** ** The premium-status client *)

Section PremiumStatusFacts.
Import JsString JsValue World PremiumStatus.

Variable fetch : jsval -> fetch_result.

Lemma getPremiumStatus_total email : exists r, getPremiumStatus fetch email = Ret r.
Proof.
  unfold getPremiumStatus. destruct (truthy (trim email)); simpl; [|eauto].
  destruct (fetch _) as [m|code text json]; simpl; [eauto|].
  destruct (res_ok code); simpl; [|eauto].
  destruct json as [data|m]; simpl; [|eauto].
  unfold get. destruct (nullish data); simpl; eauto.
Qed.


End PremiumStatusFacts.



(** ** Framing: what every run of a handler preserves *)

Section Frame.
Import World.
Context (R : database -> database -> Prop) `{!PreOrder R}.
Context (P : call -> Prop).

Lemma keeps_ret {A} (a : A) : keeps R P (ret a).
Proof. intros db. split; [reflexivity|constructor]. Qed.

Lemma keeps_throw {A} msg : keeps R P (@throw A msg).
Proof. intros db. split; [reflexivity|constructor]. Qed.

Lemma keeps_lift {A} (x : outcome A) : keeps R P (lift x).
Proof. intros db. split; [reflexivity|constructor]. Qed.

Lemma keeps_issue c : P c -> keeps R P (issue c).
Proof. intros Hc db. split; [reflexivity|]. repeat constructor. exact Hc. Qed.

Lemma keeps_bind {A B} (m : M A) (k : A -> M B) :
  keeps R P m -> (forall a, keeps R P (k a)) -> keeps R P (bind m k).
Proof.
  intros Hm Hk db. specialize (Hm db). unfold bind, db_of, calls_of in *.
  destruct (m db) as [[[a|msg] db1] cs1]; simpl in *; [|exact Hm].
  specialize (Hk a db1). unfold db_of, calls_of in Hk.
  destruct (k a db1) as [[r db2] cs2]; simpl in *.
  destruct Hm as [Hm1 Hm2], Hk as [Hk1 Hk2]. split.
  - now transitivity db1.
  - apply Forall_app. now split.
Qed.

Lemma keeps_try_catch {A} (m : M A) (h : string -> M A) :
  keeps R P m -> (forall e, keeps R P (h e)) -> keeps R P (try_catch m h).
Proof.
  intros Hm Hh db. specialize (Hm db). unfold try_catch, db_of, calls_of in *.
  destruct (m db) as [[[a|msg] db1] cs1]; simpl in *; [exact Hm|].
  specialize (Hh msg db1). unfold db_of, calls_of in Hh.
  destruct (h msg db1) as [[r db2] cs2]; simpl in *.
  destruct Hm as [Hm1 Hm2], Hh as [Hh1 Hh2]. split.
  - now transitivity db1.
  - apply Forall_app. now split.
Qed.

Lemma keeps_db_request {A} o s c (apply : database -> database * A) :
  P c -> (forall db, R db (fst (apply db))) -> keeps R P (db_request o s c apply).
Proof.
  intros Hc Ha db. unfold db_request, db_of, calls_of.
  destruct (db_result_of o s).
  - specialize (Ha db). destruct (apply db) as [db' a]. simpl in *.
    split; [exact Ha|]. repeat constructor. exact Hc.
  - simpl. split; [reflexivity|]. repeat constructor. exact Hc.
  - simpl. split; [reflexivity|]. repeat constructor. exact Hc.
Qed.

End Frame.

(** Splits a [keeps] goal along the structure of the handler. *)
Ltac frame :=
  repeat first
    [ simple apply keeps_ret; [typeclasses eauto]
    | simple apply keeps_throw; [typeclasses eauto]
    | simple apply keeps_lift; [typeclasses eauto]
    | simple apply keeps_bind; [typeclasses eauto| |intros ?]
    | simple apply keeps_try_catch; [typeclasses eauto| |intros ?]
    | simple apply keeps_issue; [typeclasses eauto|]
    | simple apply keeps_db_request; [typeclasses eauto| |intros ?]
    | match goal with
      | |- World.keeps _ _ (if ?b then _ else _) => destruct b
      | |- World.keeps _ _ (match ?x with _ => _ end) => destruct x
      end ].

(** ** Running a handler step by step *)

Section Runs.
Import JsValue World.

Lemma bind_lift {A B} (a : A) (k : A -> M B) db : bind (lift (Ret a)) k db = k a db.
Proof. unfold bind, lift. now destruct (k a db) as [[r db2] cs2]. Qed.

Lemma get_defined evt p v : get evt p = Ret v -> nullish evt = false /\ v = prop evt p.
Proof. unfold get. destruct (nullish evt); [discriminate|]. now intros [= <-]. Qed.

Lemma bind_ret {A B} (a : A) (k : A -> M B) db : bind (ret a) k db = k a db.
Proof. apply (bind_lift a k db). Qed.

Lemma bind_run {A B} (m : M A) (k : A -> M B) db a db1 cs1 r db2 cs2 :
  m db = (Ret a, db1, cs1) ->
  k a db1 = (r, db2, cs2) ->
  bind m k db = (r, db2, (cs1 ++ cs2)%list).
Proof. unfold bind. now intros -> ->. Qed.

(** The calls of [m] come first in those of [m] followed by [k], and in
    those of [m] inside a [try]. *)
Lemma bind_calls {A B} (m : M A) (k : A -> M B) db :
  exists cs, calls_of (bind m k db) = (calls_of (m db) ++ cs)%list.
Proof.
  unfold bind, calls_of. destruct (m db) as [[[a|msg] db1] cs1]; simpl.
  - destruct (k a db1) as [[r db2] cs2]. now exists cs2.
  - exists []. now rewrite app_nil_r.
Qed.

Lemma try_catch_calls {A} (m : M A) (h : string -> M A) db :
  exists cs, calls_of (try_catch m h db) = (calls_of (m db) ++ cs)%list.
Proof.
  unfold try_catch, calls_of. destruct (m db) as [[[a|msg] db1] cs1]; simpl.
  - exists []. now rewrite app_nil_r.
  - destruct (h msg db1) as [[r db2] cs2]. now exists cs2.
Qed.

End Runs.

(** ** Conflict keys of the entitlement upserts *)

Section ConflictKeys.
Import JsString JsValue Http World Pipeline.

#[local] Instance any_change : PreOrder (fun _ _ : database => True).
Proof. split; repeat intro; exact I. Qed.

Variable pf : platform.
Variable cfg : config.
Variable o : oracle.

Lemma stripe_conflict_keys req :
  keeps (fun _ _ => True) (fun c => conflict_key_ok stripe c = true)
    (deliver pf stripe cfg o req).
Proof.
  simpl. unfold Stripe.serve, Stripe.handle, Stripe.dedupe, Stripe.process, Stripe.fulfil,
    Stripe.upserts, Stripe.ledger_upsert, Stripe.customers_upsert,
    Stripe.subscriptions_upsert, Stripe.sendOnboardingEmail, Stripe.sendWithBrevo,
    Stripe.onboarding_insert.
  frame; try exact I; reflexivity.
Qed.

Lemma gumroad_conflict_keys req :
  keeps (fun _ _ => True) (fun c => conflict_key_ok gumroad c = true)
    (deliver pf gumroad cfg o req).
Proof.
  simpl. unfold Gumroad.serve, Gumroad.dispatch, Gumroad.handleSale, Gumroad.revoke,
    Gumroad.sale_upsert, Gumroad.telegram_notify, Gumroad.auto_invite,
    Gumroad.signed_url, Gumroad.links_update, Gumroad.supa.
  frame; try exact I; reflexivity.
Qed.

Lemma payhip_conflict_keys req :
  keeps (fun _ _ => True) (fun c => conflict_key_ok payhip c = true)
    (deliver pf payhip cfg o req).
Proof.
  simpl. unfold Payhip.serve, Payhip.on_event, Payhip.on_sale, Payhip.on_refund,
    Payhip.upsert, Payhip.supa.
  frame; try exact I; reflexivity.
Qed.

End ConflictKeys.


(** ** Revocation *)

Section Revocation.
Import JsString JsValue Http World Pipeline.

Lemma lookup_map {A B} (f : A -> B) (l : list A) (i : nat) :
  map f l !! i = option_map f (l !! i).
Proof. revert i. induction l as [|x l IH]; intros [|i]; simpl; auto. Qed.

#[local] Instance revoked_kept_preorder : PreOrder revoked_kept.
Proof.
  split.
  - intros db i r Hr. eauto.
  - intros a b c Hab Hbc i r Hr.
    destruct (Hab i r Hr) as (r1 & Hr1 & H1).
    destruct (Hbc i r1 Hr1) as (r2 & Hr2 & H2). eauto.
Qed.

#[local] Instance only_activates_preorder : PreOrder only_activates.
Proof.
  split; unfold only_activates.
  - intros a. apply List.Forall_forall. auto.
  - intros a b c Hab Hbc. apply List.Forall_forall. intros r Hr.
    destruct (proj1 (List.Forall_forall _ _) Hbc r Hr) as [H|H]; [now left|].
    exact (proj1 (List.Forall_forall _ _) Hab r H).
Qed.

Lemma only_activates_same db db' :
  premium_subscriptions db' = premium_subscriptions db -> only_activates db db'.
Proof. intros E. unfold only_activates. rewrite E. apply List.Forall_forall. auto. Qed.

Lemma revoked_kept_same db db' :
  subscribers db' = subscribers db -> revoked_kept db db'.
Proof. intros E i r Hr. rewrite E. eauto. Qed.

Lemma update_rows_kept matches patch db :
  (forall r, revoked_at r <> None -> revoked_at (patch r) <> None) ->
  revoked_kept db (with_subscribers (update_rows matches patch (subscribers db)) db).
Proof.
  intros Hpatch i r Hr. simpl. unfold update_rows. rewrite lookup_map, Hr. simpl.
  eexists; split; [reflexivity|]. destruct (matches r); auto.
Qed.

Lemma upsert_rows_kept same merge fresh db :
  (forall r, revoked_at r <> None -> revoked_at (merge r) <> None) ->
  revoked_kept db
    (with_subscribers (upsert_rows same merge fresh (subscribers db)) db).
Proof.
  intros Hmerge i r Hr. simpl. unfold upsert_rows.
  destruct (existsb same (subscribers db)).
  - rewrite lookup_map, Hr. simpl.
    eexists; split; [reflexivity|]. destruct (same r); auto.
  - exists r. split; [|auto]. now apply lookup_app_l_Some.
Qed.

Variable pf : platform.
Variable cfg : config.
Variable o : oracle.

(** Closes the side conditions [frame] leaves for [revoked_kept]. *)
Ltac kept :=
  cbn beta;
  first
    [ exact I
    | apply revoked_kept_same; reflexivity
    | apply update_rows_kept; intros ?; simpl; congruence
    | apply upsert_rows_kept; intros ?; simpl; congruence
    | match goal with
      | |- revoked_kept _ (fst (if ?b then _ else _)) =>
          destruct b; apply revoked_kept_same; reflexivity
      end ].

Lemma stripe_revoked_kept req :
  keeps revoked_kept (fun _ => True) (deliver pf stripe cfg o req).
Proof.
  simpl. unfold Stripe.serve, Stripe.handle, Stripe.dedupe, Stripe.process, Stripe.fulfil,
    Stripe.upserts, Stripe.ledger_upsert, Stripe.customers_upsert,
    Stripe.subscriptions_upsert, Stripe.sendOnboardingEmail, Stripe.sendWithBrevo,
    Stripe.onboarding_insert.
  frame; kept.
Qed.

Lemma gumroad_revoked_kept req :
  keeps revoked_kept (fun _ => True) (deliver pf gumroad cfg o req).
Proof.
  simpl. unfold Gumroad.serve, Gumroad.dispatch, Gumroad.handleSale, Gumroad.revoke,
    Gumroad.sale_upsert, Gumroad.telegram_notify, Gumroad.auto_invite,
    Gumroad.signed_url, Gumroad.links_update, Gumroad.supa.
  frame; kept.
Qed.

Lemma payhip_revoked_kept req :
  keeps revoked_kept (fun _ => True) (deliver pf payhip cfg o req).
Proof.
  simpl. unfold Payhip.serve, Payhip.on_event, Payhip.on_sale, Payhip.on_refund,
    Payhip.upsert, Payhip.supa.
  frame; kept.
Qed.

Lemma stripe_only_activates req :
  keeps only_activates (fun _ => True) (deliver pf stripe cfg o req).
Proof.
  simpl. unfold Stripe.serve, Stripe.handle, Stripe.dedupe, Stripe.process, Stripe.fulfil,
    Stripe.upserts, Stripe.ledger_upsert, Stripe.customers_upsert,
    Stripe.subscriptions_upsert, Stripe.sendOnboardingEmail, Stripe.sendWithBrevo,
    Stripe.onboarding_insert.
  frame; cbn beta; try exact I; try (apply only_activates_same; reflexivity).
  - destruct (existsb _ _); apply only_activates_same; reflexivity.
  - unfold only_activates. simpl. unfold upsert_rows.
    destruct (existsb _ _).
    + apply List.Forall_map, List.Forall_forall. intros r Hr. simpl.
      destruct (conflicts _ _); [now left|now right].
    + apply Forall_app. split.
      * apply List.Forall_forall. auto.
      * repeat constructor.
Qed.

Lemma with_subscribers_same db : with_subscribers (subscribers db) db = db.
Proof. now destruct db. Qed.

Lemma update_rows_none {A} (matches : A -> bool) patch rows :
  Forall (fun r => matches r = false) rows -> update_rows matches patch rows = rows.
Proof.
  unfold update_rows. induction 1 as [|r rows Hr _ IH]; simpl; [reflexivity|].
  now rewrite Hr, IH.
Qed.

Lemma revoked_table_row sale db i row :
  subscribers db !! i = Some row ->
  subscribers (revoked_table o sale db) !! i
  = Some (if column_is (sale_id row) sale then set_revoked (now o) row else row).
Proof.
  intros Hr. unfold revoked_table. simpl. unfold update_rows.
  now rewrite lookup_map, Hr.
Qed.

Lemma revoked_table_unknown sale db :
  Forall (fun row => column_is (sale_id row) sale = false) (subscribers db) ->
  revoked_table o sale db = db.
Proof.
  intros H. unfold revoked_table. rewrite update_rows_none by exact H.
  apply with_subscribers_same.
Qed.

Lemma is_revocation_not_ping_or_sale action :
  Gumroad.is_revocation action = true ->
  String.eqb action "ping" = false /\ String.eqb action "sale" = false.
Proof.
  unfold Gumroad.is_revocation. intros H.
  apply orb_true_iff in H. destruct H as [H|H];
    [apply orb_true_iff in H; destruct H as [H|H]|];
    apply String.eqb_eq in H; subst; split; reflexivity.
Qed.

Lemma revoke_applied pl db sale :
  js_String (coalesce (oget pl "sale_id") (coalesce (oget pl "id") (VStr EmptyString)))
  = Ret sale ->
  truthy sale = true ->
  has_db cfg = true ->
  db_result_of o GumroadRevoke = DbOk ->
  Gumroad.revoke cfg o pl db
  = (Ret tt, revoked_table o sale db, [DbUpdate "subscribers" "sale_id"]).
Proof.
  intros Hs Hsale Hdb Hok. unfold Gumroad.revoke, Gumroad.supa, try_catch.
  rewrite Hdb, bind_ret, Hs, bind_lift, Hsale. unfold bind, db_request, ret.
  rewrite Hok. reflexivity.
Qed.

Lemma gumroad_revocation req db sale :
  revokes pf gumroad cfg o req sale ->
  truthy sale = true ->
  has_db cfg = true ->
  db_result_of o GumroadRevoke = DbOk ->
  deliver pf gumroad cfg o req db
  = (Ret (Gumroad.respond (VObj [("ok", VBool true)])), revoked_table o sale db,
     [DbUpdate "subscribers" "sale_id"]).
Proof.
  intros (Hbody & pl & action & Hp & Ha & Hrev & Hauth & Hs) Hsale Hdb Hok. simpl.
  destruct (is_revocation_not_ping_or_sale _ Hrev) as [Hping Hnsale].
  unfold Gumroad.serve. rewrite Hbody, Hp, bind_lift, Ha, bind_lift, Hping.
  assert (requireGumroadAuth cfg
          && negb (Gumroad.authed (hmacSHA256Hex pf) cfg req (body req) pl) = false) as ->.
  { destruct Hauth as [-> | ->]; [reflexivity|apply andb_false_r]. }
  unfold Gumroad.dispatch. rewrite Hnsale, Hrev.
  erewrite bind_run; [|apply (revoke_applied pl db sale); assumption|reflexivity].
  reflexivity.
Qed.

Lemma on_refund_applied pl db sale :
  js_String (or_else (oget pl "id") (or_else (oget pl "order_id") (VStr EmptyString)))
  = Ret sale ->
  truthy sale = true ->
  has_db cfg = true ->
  db_result_of o PayhipRevoke = DbOk ->
  Payhip.on_refund cfg o pl db
  = (Ret tt, revoked_table o sale db, [DbUpdate "subscribers" "sale_id"]).
Proof.
  intros Hs Hsale Hdb Hok. unfold Payhip.on_refund, Payhip.supa. rewrite Hdb.
  rewrite bind_ret, Hs, bind_lift, Hsale. unfold bind, db_request, ret.
  rewrite Hok. reflexivity.
Qed.

Lemma js_String_text v s : js_String v = Ret s -> s = to_text v.
Proof. unfold js_String. destruct (convertible v); [now intros [= <-]|discriminate]. Qed.

Lemma payhip_revocation req db sale :
  revokes pf payhip cfg o req sale ->
  truthy sale = true ->
  has_db cfg = true ->
  db_result_of o PayhipRevoke = DbOk ->
  deliver pf payhip cfg o req db
  = (Ret Payhip.acknowledged,
     revoked_table o sale (db_of (before_revocation pf payhip cfg o req db)),
     (calls_of (before_revocation pf payhip cfg o req db)
      ++ [DbUpdate "subscribers" "sale_id"])%list).
Proof.
  intros (event & Hm & Hv & Hev & Hrefund & Hbefore & Hs) Hsale Hdb Hok.
  specialize (Hbefore db). revert Hbefore.
  unfold before_revocation, also_sells. rewrite <- (js_String_text _ _ Hev).
  simpl. unfold Payhip.serve. fold (payhip_payload pf req).
  rewrite Hm, Hv. cbn [negb String.eqb Ascii.eqb Bool.eqb].
  rewrite Hev, bind_lift.
  assert (Htruthy : truthy event = true).
  { destruct event; [discriminate Hrefund|reflexivity]. }
  rewrite Htruthy. unfold Payhip.on_event. rewrite Hrefund.
  set (sale_branch := if Payhip.is_sale event then _ else _).
  destruct (sale_branch db) as [[r db1] cs1] eqn:E. unfold result_of. simpl.
  intros ->.
  erewrite bind_run; [| |reflexivity].
  2:{ unfold try_catch. erewrite bind_run;
        [|exact E|apply on_refund_applied; eassumption]. reflexivity. }
  simpl. now rewrite app_nil_r.
Qed.

(** C8 (as amended). A gumroad refund, chargeback or subscription_cancelled
    delivery (neither GET nor HEAD, passing the optional authentication), or
    a signed payhip POST whose event name contains refund or chargeback,
    whose sale id converts to a non-empty string, with a database client
    and the database update applied, is answered 200 and sets [revoked_at]
    to the current time on
    every [subscribers] row whose [sale_id] matches; the other rows are left
    as they are, and with no matching row the table is unchanged. A payhip
    event name that also contains sale, purchase or completed runs the sale
    upsert first: the revocation follows only if that did not throw, and
    then applies to the table the upsert left. No delivery to any adapter
    clears [revoked_at] on a [subscribers] row. The card-processor adapter
    has no revocation path, and its upsert writes status [active] only:
    after a delivery every row of [premium_subscriptions] is a row that was
    there before or is active. *)
Theorem C8_revocation :
  (forall p req db sale,
     revokes pf p cfg o req sale ->
     truthy sale = true ->
     has_db cfg = true ->
     db_result_of o (revoke_site p) = DbOk ->
     let before := before_revocation pf p cfg o req db in
     (exists r,
        deliver pf p cfg o req db
        = (Ret r, revoked_table o sale (db_of before),
           (calls_of before ++ [DbUpdate "subscribers" "sale_id"])%list)
        /\ status r = 200%Z)
     /\ (also_sells pf p req = false -> before = (Ret tt, db, []))
     /\ (forall i row,
           subscribers (db_of before) !! i = Some row ->
           subscribers (revoked_table o sale (db_of before)) !! i
           = Some (if column_is (sale_id row) sale
                   then set_revoked (now o) row else row))
     /\ (Forall (fun row => column_is (sale_id row) sale = false)
           (subscribers (db_of before)) ->
         revoked_table o sale (db_of before) = db_of before))
  /\ (forall p req db, revoked_kept db (db_of (deliver pf p cfg o req db)))
  /\ (forall req db, only_activates db (db_of (deliver pf stripe cfg o req db))).
Proof.
  split; [|split].
  - intros p req db sale Hrev Hsale Hdb Hok before. split; [|split; [|split]].
    + destruct p; [destruct Hrev| |].
      * subst before. rewrite (gumroad_revocation req db sale Hrev Hsale Hdb Hok).
        now eexists.
      * subst before. rewrite (payhip_revocation req db sale Hrev Hsale Hdb Hok).
        now eexists.
    + intros Hno. subst before. unfold before_revocation. now rewrite Hno.
    + intros i row. apply revoked_table_row.
    + apply revoked_table_unknown.
  - intros p req db. destruct p.
    + apply stripe_revoked_kept.
    + apply gumroad_revoked_kept.
    + apply payhip_revoked_kept.
  - intros req db. apply stripe_only_activates.
Qed.

End Revocation.

Section RevocationExamples.
Import JsString JsValue Http World Pipeline Fixtures.

Lemma C8_witness :
  (exists r,
     deliver pf0 gumroad cfg0 all_ok (post [] gumroad_refund_text) db_with_subscriber
     = (Ret r, revoked_table all_ok "S1" db_with_subscriber,
        [DbUpdate "subscribers" "sale_id"])
     /\ status r = 200%Z)
  /\ subscribers (revoked_table all_ok "S1" db_with_subscriber)
     = [set_revoked "2025-01-01T00:00:00.000Z" subscriber_S1].
Proof.
  split; [|reflexivity].
  refine (proj1 (proj1 (C8_revocation pf0 cfg0 all_ok) gumroad
                   (post [] gumroad_refund_text) db_with_subscriber "S1" _ _ _ _));
    try reflexivity.
  split; [reflexivity|]. exists gumroad_refund, "refund".
  split; [reflexivity|]. split; [reflexivity|]. split; [reflexivity|].
  split; [right; reflexivity|reflexivity].
Defined.

(** A payhip event named [sale.refunded] upserts the buyer and then revokes
    the sale. *)
Example payhip_sale_refunded_runs_both :
  deliver Samples.pf1 payhip cfg0 all_ok
    (payhip_signed Samples.payhip_sale_refunded_text) db_with_subscriber
  = (Ret Payhip.acknowledged,
     with_subscribers
       [{| sale_id := VStr "S1"; World.email := VStr "a@b.com"; product_id := VNull;
           seller_id := VNull; full_name := VNull; source := VStr "payhip";
           revoked_at := Some "2025-01-01T00:00:00.000Z";
           pdf_url := None; csv_url := None |}]
       empty_database,
     [DbUpsert "subscribers" "email"; DbUpdate "subscribers" "sale_id"]).
Proof. reflexivity. Qed.

(** C8 as stated fails, on five counts.
    - On the card-processor adapter a signed [charge.refunded] event that
      refers to the checkout session [cs_1] of an active subscription is
      acknowledged as ignored, and the subscription stays active.
    - On the same adapter a checkout for the session of a subscription that
      is marked revoked sets it active again.
    - A payhip [sale.refunded] event whose sale upsert rejects is
      acknowledged, and the sale is not revoked.
    - A gumroad refund sent as a GET request makes the handler throw, and
      the sale is not revoked.
    - A gumroad refund for an existing sale is acknowledged and the sale is
      not revoked when no database client is configured, or when the
      database answers the update with an error. *)
Lemma C8_stripe_refund_leaves_subscription_active :
  (premium_subscriptions db_with_subscription = [active_subscription]
   /\ sub_status active_subscription = "active"
   /\ result_of (deliver pf0 stripe cfg0 all_ok (signed refund_text) db_with_subscription)
      = Ret {| status := 200; content := Json (VObj [("ignored", VBool true)]) |}
   /\ premium_subscriptions
        (db_of (deliver pf0 stripe cfg0 all_ok (signed refund_text) db_with_subscription))
      = [active_subscription])
  /\ (map sub_status (premium_subscriptions Samples.db_with_revoked_subscription)
      = ["revoked"]
      /\ map sub_status
           (premium_subscriptions
              (db_of (deliver pf0 stripe cfg0 all_ok (signed checkout_text)
                        Samples.db_with_revoked_subscription)))
         = ["active"])
  /\ (deliver Samples.pf1 payhip cfg0 Samples.upsert_rejects
        (payhip_signed Samples.payhip_sale_refunded_text) db_with_subscriber
      = (Ret Payhip.acknowledged, db_with_subscriber, [DbUpsert "subscribers" "email"]))
  /\ (deliver pf0 gumroad cfg0 all_ok (Samples.get_with_body gumroad_refund_text)
        db_with_subscriber
      = (Throw "Request with GET/HEAD method cannot have body", db_with_subscriber, []))
  /\ (deliver pf0 gumroad Samples.cfg_no_db all_ok (post [] gumroad_refund_text)
        db_with_subscriber
      = (Ret (Gumroad.respond (VObj [("ok", VBool true)])), db_with_subscriber, [])
      /\ deliver pf0 gumroad cfg0 Samples.revoke_rejects (post [] gumroad_refund_text)
           db_with_subscriber
         = (Ret (Gumroad.respond (VObj [("ok", VBool true)])), db_with_subscriber,
            [DbUpdate "subscribers" "sale_id"])).
Proof. repeat split. Qed.

End RevocationExamples.

(** ** Replayed deliveries *)

Section Replay.
Import JsString JsValue Http World Pipeline.

Lemma jsval_eqb_refl : forall v, jsval_eqb v v = true.
Proof.
  fix IH 1. intros [| |b|n|s|xs|fs]; simpl.
  - reflexivity.
  - reflexivity.
  - now destruct b.
  - apply Z.eqb_refl.
  - apply String.eqb_refl.
  - induction xs as [|x xs IHxs]; [reflexivity|]. now rewrite IH.
  - induction fs as [|[k x] fs IHfs]; [reflexivity|].
    now rewrite String.eqb_refl, IH.
Qed.

Lemma conflicts_refl id : nullish id = false -> conflicts id id = true.
Proof. unfold conflicts. intros ->. apply jsval_eqb_refl. Qed.

Lemma count_app f cs1 cs2 : count f (cs1 ++ cs2) = count f cs1 + count f cs2.
Proof. unfold count. now rewrite List.filter_app, length_app. Qed.

Lemma count_sublist f cs L : sublist cs L -> count f cs <= count f L.
Proof.
  unfold count. induction 1 as [|x l1 l2 _ IH|x l1 l2 _ IH]; simpl.
  - lia.
  - destruct (f x); simpl; lia.
  - destruct (f x); simpl; lia.
Qed.

#[local] Instance same_ledger_preorder : PreOrder same_ledger.
Proof. split; unfold same_ledger; [intros a; auto | intros a b c; congruence]. Qed.

Lemma within_nil {A} (m : M A) L : within [] m -> within L m.
Proof. intros H db. etransitivity; [apply H|apply sublist_nil_l]. Qed.

Lemma within_ret {A} (a : A) L : within L (ret a).
Proof. intros db. apply sublist_nil_l. Qed.

Lemma within_throw {A} msg L : within L (@throw A msg).
Proof. intros db. apply sublist_nil_l. Qed.

Lemma within_lift {A} (x : outcome A) L : within L (lift x).
Proof. intros db. apply sublist_nil_l. Qed.

Lemma within_issue c : within [c] (issue c).
Proof. intros db. reflexivity. Qed.

Lemma within_db_request {A} o s c (apply : database -> database * A) :
  within [c] (db_request o s c apply).
Proof.
  intros db. unfold db_request, calls_of.
  destruct (db_result_of o s); [destruct (apply db)|..]; reflexivity.
Qed.

Lemma within_bind {A B} L1 L2 (m : M A) (k : A -> M B) :
  within L1 m -> (forall a, within L2 (k a)) -> within (L1 ++ L2) (bind m k).
Proof.
  intros Hm Hk db. specialize (Hm db). unfold bind, calls_of in *.
  destruct (m db) as [[[a|msg] db1] cs1]; simpl in *.
  - specialize (Hk a db1). unfold calls_of in Hk.
    destruct (k a db1) as [[r db2] cs2]; simpl in *. now apply sublist_app.
  - now apply sublist_inserts_r.
Qed.

Lemma within_try_catch {A} L1 L2 (m : M A) (h : string -> M A) :
  within L1 m -> (forall e, within L2 (h e)) -> within (L1 ++ L2) (try_catch m h).
Proof.
  intros Hm Hh db. specialize (Hm db). unfold try_catch, calls_of in *.
  destruct (m db) as [[[a|msg] db1] cs1]; simpl in *.
  - now apply sublist_inserts_r.
  - specialize (Hh msg db1). unfold calls_of in Hh.
    destruct (h msg db1) as [[r db2] cs2]; simpl in *. now apply sublist_app.
Qed.

Variable pf : platform.
Variable cfg : config.

Section OneDelivery.
Variable o : oracle.

Local Abbreviation process := (Stripe.process cfg o).
Local Abbreviation dedupe := (Stripe.dedupe cfg o).
Local Abbreviation serve := (Stripe.serve (hmacSHA256Hex pf) (JSON_parse pf) cfg o).
Local Abbreviation handle := (Stripe.handle (hmacSHA256Hex pf) (JSON_parse pf) cfg o).

Lemma process_same_ledger evt : keeps same_ledger (fun _ => True) (process evt).
Proof.
  unfold Stripe.process, Stripe.fulfil, Stripe.upserts, Stripe.customers_upsert,
    Stripe.subscriptions_upsert, Stripe.sendOnboardingEmail, Stripe.sendWithBrevo,
    Stripe.onboarding_insert.
  frame; cbn beta; first [exact I | reflexivity].
Qed.

Lemma upserts_within n e :
  within [DbUpsert "customers" "stripe_customer_id";
          DbUpsert "premium_subscriptions" "stripe_checkout_session_id"]
    (Stripe.upserts o n e).
Proof.
  unfold Stripe.upserts.
  apply (within_try_catch [_; _] []); [|intros; apply within_ret].
  apply (within_bind [_] [_]); [apply within_db_request|intros c].
  apply (within_bind [_] []); [apply within_db_request|intros; apply within_ret].
Qed.

Lemma sendOnboardingEmail_within to product :
  within [BrevoSend to Stripe.subject product] (Stripe.sendOnboardingEmail o to product).
Proof.
  unfold Stripe.sendOnboardingEmail, Stripe.sendWithBrevo.
  apply (within_try_catch [_] []); [|intros; apply within_ret].
  apply (within_bind [_] []); [|intros; apply within_ret].
  apply (within_bind [_] []); [apply within_issue|intros _].
  destruct (brevo o) as [code|m]; [destruct (res_ok code)|];
    first [apply within_ret | apply within_throw | idtac].
  apply (within_bind [] []); [apply within_lift|intros; apply within_throw].
Qed.

Lemma fulfil_within type n evt :
  within (processing_calls n evt) (Stripe.fulfil cfg o type n evt).
Proof.
  unfold Stripe.fulfil, processing_calls.
  destruct (negb (truthy_val (Stripe.buyerEmailOf n evt))); [apply within_ret|].
  apply (within_bind [_; _] [_; _]).
  { destruct (has_db cfg && Stripe.shouldProcessDb type);
      [apply upserts_within|apply within_ret]. }
  intros _. apply (within_bind [_] [_]); [apply sendOnboardingEmail_within|intros b].
  apply (within_bind [_] []); [|intros; apply within_ret].
  destruct (has_db cfg); [|apply within_ret].
  apply (within_bind [_] []); [apply within_db_request|intros; apply within_ret].
Qed.

(** What [process] comes to, by the event's type and its normal form. *)
Lemma process_run evt db :
  process evt db
  = match get evt "type" with
    | Throw m => (Throw m, db, [])
    | Ret type =>
        if negb (Stripe.shouldSend type)
        then (Ret (Stripe.ok (VObj [("ignored", VBool true)])), db, [])
        else match Stripe.normalizeStripeEvent evt with
             | Throw m => (Throw m, db, [])
             | Ret n => Stripe.fulfil cfg o type n evt db
             end
    end.
Proof.
  unfold Stripe.process. destruct (get evt "type") as [type|m]; [|reflexivity].
  rewrite bind_lift. destruct (negb (Stripe.shouldSend type)); [reflexivity|].
  destruct (Stripe.normalizeStripeEvent evt) as [n|m]; [|reflexivity].
  now rewrite bind_lift.
Qed.

(** Whatever the event, [process] issues each entitlement upsert, each
    notification insert and each email at most once. *)
Lemma process_at_most_once evt db f :
  (forall n, count f (processing_calls n evt) <= 1) ->
  count f (calls_of (process evt db)) <= 1.
Proof.
  intros Hf. rewrite process_run.
  destruct (get evt "type") as [type|m]; [|unfold count; simpl; lia].
  destruct (negb (Stripe.shouldSend type)); [unfold count; simpl; lia|].
  destruct (Stripe.normalizeStripeEvent evt) as [n|m]; [|unfold count; simpl; lia].
  etransitivity; [|apply (Hf n)]. apply count_sublist, fulfil_within.
Qed.

(** After the configuration tests, the signature check and [JSON.parse],
    the handler is the ledger test followed by the processing. *)
Lemma handle_authenticated req evt db :
  authenticated pf cfg req evt ->
  handle req db
  = bind (dedupe evt)
      (fun dup => if dup then ret Stripe.duplicate_ack else process evt) db.
Proof.
  intros ((Hm & Hs & Hb & He) & h & secret & Hh & Ht & Hsec & Hv & Hp).
  unfold Stripe.handle, Stripe.EMAIL_FROM.
  destruct (String.eqb_spec (method req) "GET") as [|_]; [contradiction|].
  rewrite Hsec in *. simpl in Hs. rewrite Hs, Hb. simpl.
  destruct (emailFrom cfg) as [from|]; [|discriminate].
  simpl in He. rewrite He. simpl. rewrite Hh, Ht, Hv, Hp. simpl.
  rewrite bind_lift. simpl. now rewrite bind_lift.
Qed.

Lemma dedupe_run evt id db :
  has_db cfg = true ->
  get evt "id" = Ret id ->
  db_result_of o LedgerUpsert = DbOk ->
  dedupe evt db
  = if ledger_has id db
    then (match js_String id with Ret _ => Ret true | Throw m => Throw m end,
          db, [ledger_probe])
    else (Ret false, recorded evt id db, [ledger_probe]).
Proof.
  intros Hdb Hid Hok. unfold Stripe.dedupe. rewrite Hdb, Hid, bind_lift.
  destruct (get_defined _ _ _ Hid) as [Hn _].
  unfold get. rewrite Hn, bind_lift.
  unfold bind, Stripe.ledger_upsert, db_request, ledger_has, recorded. rewrite Hok.
  destruct (existsb _ _); [|reflexivity]. simpl. unfold lift, ret.
  now destruct (js_String id).
Qed.

Lemma serve_duplicate req evt id db :
  authenticated pf cfg req evt ->
  has_db cfg = true ->
  get evt "id" = Ret id ->
  convertible id = true ->
  db_result_of o LedgerUpsert = DbOk ->
  ledger_has id db = true ->
  serve req db = (Ret Stripe.duplicate_ack, db, [ledger_probe]).
Proof.
  intros Ha Hdb Hid Hconv Hok Hhas. unfold Stripe.serve, try_catch.
  rewrite (handle_authenticated _ _ _ Ha). unfold bind.
  rewrite (dedupe_run _ _ _ Hdb Hid Hok), Hhas. unfold js_String. now rewrite Hconv.
Qed.

(** A duplicate changes nothing and calls the ledger only, also when the
    logging of its id throws. *)
Lemma serve_seen req evt id db :
  authenticated pf cfg req evt ->
  has_db cfg = true ->
  get evt "id" = Ret id ->
  db_result_of o LedgerUpsert = DbOk ->
  ledger_has id db = true ->
  db_of (serve req db) = db /\ calls_of (serve req db) = [ledger_probe].
Proof.
  intros Ha Hdb Hid Hok Hhas. unfold Stripe.serve, try_catch.
  rewrite (handle_authenticated _ _ _ Ha). unfold bind.
  rewrite (dedupe_run _ _ _ Hdb Hid Hok), Hhas.
  destruct (js_String id); split; reflexivity.
Qed.

Lemma serve_new req evt id db :
  authenticated pf cfg req evt ->
  has_db cfg = true ->
  get evt "id" = Ret id ->
  db_result_of o LedgerUpsert = DbOk ->
  ledger_has id db = false ->
  db_of (serve req db) = db_of (process evt (recorded evt id db))
  /\ calls_of (serve req db)
     = ledger_probe :: calls_of (process evt (recorded evt id db)).
Proof.
  intros Ha Hdb Hid Hok Hhas. unfold Stripe.serve, try_catch.
  rewrite (handle_authenticated _ _ _ Ha). unfold bind.
  rewrite (dedupe_run _ _ _ Hdb Hid Hok), Hhas.
  destruct (process evt (recorded evt id db)) as [[[r|msg] db2] cs2]; simpl.
  - now split.
  - now rewrite app_nil_r.
Qed.

(** A delivery that got past the ledger leaves its event id in the ledger. *)
Lemma serve_records req evt id db :
  authenticated pf cfg req evt ->
  has_db cfg = true ->
  get evt "id" = Ret id ->
  nullish id = false ->
  db_result_of o LedgerUpsert = DbOk ->
  ledger_has id (db_of (serve req db)) = true.
Proof.
  intros Ha Hdb Hid Hn Hok. destruct (ledger_has id db) eqn:Hhas.
  - now destruct (serve_seen _ _ _ _ Ha Hdb Hid Hok Hhas) as [-> _].
  - destruct (serve_new _ _ _ _ Ha Hdb Hid Hok Hhas) as [-> _].
    destruct (process_same_ledger evt (recorded evt id db)) as [Hl _].
    unfold ledger_has. rewrite Hl. unfold recorded. simpl.
    rewrite existsb_app. simpl. rewrite (conflicts_refl _ Hn).
    now rewrite orb_true_r.
Qed.

Lemma serve_at_most_once req evt id db f :
  authenticated pf cfg req evt ->
  has_db cfg = true ->
  get evt "id" = Ret id ->
  db_result_of o LedgerUpsert = DbOk ->
  f ledger_probe = false ->
  (forall n, count f (processing_calls n evt) <= 1) ->
  count f (calls_of (serve req db)) <= 1.
Proof.
  intros Ha Hdb Hid Hok Hprobe Hf. destruct (ledger_has id db) eqn:Hhas.
  - destruct (serve_seen _ _ _ _ Ha Hdb Hid Hok Hhas) as [_ ->].
    unfold count. simpl. rewrite Hprobe. simpl. lia.
  - destruct (serve_new _ _ _ _ Ha Hdb Hid Hok Hhas) as [_ ->].
    change (ledger_probe :: ?l) with ([ledger_probe] ++ l)%list.
    rewrite count_app. unfold count at 1. simpl. rewrite Hprobe. simpl.
    now apply process_at_most_once.
Qed.

(** A completed sale with a buyer email issues each processing call once. *)
Lemma process_calls_exact evt n db :
  nullish evt = false ->
  has_db cfg = true ->
  Stripe.shouldProcessDb (prop evt "type") = true ->
  Stripe.normalizeStripeEvent evt = Ret n ->
  truthy_val (Stripe.buyerEmailOf n evt) = true ->
  (forall m, db_result_of o CustomersUpsert <> DbThrow m) ->
  calls_of (process evt db) = processing_calls n evt.
Proof.
  intros Hn Hdb Hty Hnorm Hmail Hcust.
  assert (Hsend : Stripe.shouldSend (prop evt "type") = true).
  { unfold Stripe.shouldSend. unfold Stripe.shouldProcessDb in Hty. now rewrite Hty. }
  rewrite process_run. unfold get. rewrite Hn, Hsend, Hnorm. cbn [negb].
  unfold Stripe.fulfil. rewrite Hmail, Hdb, Hty. simpl.
  unfold processing_calls, Stripe.upserts, Stripe.customers_upsert,
    Stripe.subscriptions_upsert, Stripe.sendOnboardingEmail, Stripe.sendWithBrevo,
    Stripe.onboarding_insert, bind, try_catch, db_request, issue, ret, throw, lift,
    calls_of.
  destruct (db_result_of o CustomersUpsert) as [|e|e] eqn:Hc;
    [| |now destruct (Hcust e)];
    destruct (db_result_of o SubscriptionsUpsert);
    (destruct (brevo o) as [code|e']; [destruct (res_ok code); [|destruct (brevo_text o)]|]);
    destruct (db_result_of o OnboardingInsert); reflexivity.
Qed.

End OneDelivery.

(** C2 (as amended). On the card-processor adapter, for signed deliveries
    to a configured handler (not a GET; webhook secret, mail key and sender
    set; a signature that verifies; a body that parses), when the database
    is configured and the ledger upsert comes back without an error, a
    second delivery of an event whose id the first delivery carried, an id
    that converts to a string, is answered 200
    [received:true, duplicate:true],
    leaves the database as the first delivery left it, and issues no call
    besides the ledger upsert itself: no entitlement upsert, no
    NotificationRecord, no email. Over the two deliveries at most one
    entitlement upsert, one NotificationRecord insert and one email send are
    issued, and exactly one of each when the first delivery is a new
    checkout or payment event that normalises, with a buyer email, and
    whose customers upsert does not reject. *)
Theorem C2_card_processor_replay (o1 o2 : oracle) (req1 req2 : request)
    (evt1 evt2 id : jsval) (db : database) :
  authenticated pf cfg req1 evt1 ->
  authenticated pf cfg req2 evt2 ->
  get evt1 "id" = Ret id ->
  get evt2 "id" = Ret id ->
  nullish id = false ->
  convertible id = true ->
  has_db cfg = true ->
  db_result_of o1 LedgerUpsert = DbOk ->
  db_result_of o2 LedgerUpsert = DbOk ->
  let first := deliver pf stripe cfg o1 req1 db in
  let second := deliver pf stripe cfg o2 req2 (db_of first) in
  let both := (calls_of first ++ calls_of second)%list in
  second
  = (Ret {| status := 200;
            content := Json (VObj [("received", VBool true); ("duplicate", VBool true)]) |},
     db_of first, [DbUpsert "stripe_event_ledger" "event_id"])
  /\ (count (is_upsert_on "premium_subscriptions") both <= 1
      /\ count (is_insert_on "onboarding_emails") both <= 1
      /\ count is_email both <= 1)
  /\ (forall n,
        ledger_has id db = false ->
        Stripe.shouldProcessDb (prop evt1 "type") = true ->
        Stripe.normalizeStripeEvent evt1 = Ret n ->
        truthy_val (Stripe.buyerEmailOf n evt1) = true ->
        (forall m, db_result_of o1 CustomersUpsert <> DbThrow m) ->
        count (is_upsert_on "premium_subscriptions") both = 1
        /\ count (is_insert_on "onboarding_emails") both = 1
        /\ count is_email both = 1).
Proof.
  intros Ha1 Ha2 Hid1 Hid2 Hn Hconv Hdb Hok1 Hok2 first second both.
  assert (Hsecond : second = (Ret Stripe.duplicate_ack, db_of first, [ledger_probe])).
  { apply (serve_duplicate o2 req2 evt2 id); auto.
    apply (serve_records o1 req1 evt1 id); auto. }
  split; [exact Hsecond|].
  subst both. rewrite Hsecond. simpl calls_of. rewrite !count_app. split.
  - assert (H : forall f, f ledger_probe = false ->
                  (forall n, count f (processing_calls n evt1) <= 1) ->
                  count f (calls_of first) + count f [ledger_probe] <= 1).
    { intros f Hp Hf.
      pose proof (serve_at_most_once o1 req1 evt1 id db f Ha1 Hdb Hid1 Hok1 Hp Hf) as H.
      fold (deliver pf stripe cfg o1 req1 db) in H. fold first in H.
      unfold count at 2. simpl. rewrite Hp. simpl. lia. }
    split; [|split]; apply H; try reflexivity; intros n; unfold count; simpl; lia.
  - intros n Hnew Hty Hnorm Hmail Hcust.
    destruct (get_defined _ _ _ Hid1) as [Hnn _].
    destruct (serve_new o1 req1 evt1 id db Ha1 Hdb Hid1 Hok1 Hnew) as [_ Hcalls].
    fold (deliver pf stripe cfg o1 req1 db) in Hcalls. fold first in Hcalls.
    rewrite Hcalls, (process_calls_exact o1 evt1 n _ Hnn Hdb Hty Hnorm Hmail Hcust).
    unfold processing_calls, ledger_probe, count. simpl. auto.
Qed.

End Replay.

Section ReplayExamples.
Import JsString JsValue Http World Pipeline Fixtures.

Lemma C2_witness :
  let first := deliver pf0 stripe cfg0 all_ok (signed checkout_text) empty_database in
  let second := deliver pf0 stripe cfg0 all_ok (signed checkout_text) (db_of first) in
  let both := (calls_of first ++ calls_of second)%list in
  second
  = (Ret {| status := 200;
            content := Json (VObj [("received", VBool true); ("duplicate", VBool true)]) |},
     db_of first, [DbUpsert "stripe_event_ledger" "event_id"])
  /\ (count (is_upsert_on "premium_subscriptions") both <= 1
      /\ count (is_insert_on "onboarding_emails") both <= 1
      /\ count is_email both <= 1)
  /\ (forall n,
        ledger_has (VStr "evt_1") empty_database = false ->
        Stripe.shouldProcessDb (prop checkout "type") = true ->
        Stripe.normalizeStripeEvent checkout = Ret n ->
        truthy_val (Stripe.buyerEmailOf n checkout) = true ->
        (forall m, db_result_of all_ok CustomersUpsert <> DbThrow m) ->
        count (is_upsert_on "premium_subscriptions") both = 1
        /\ count (is_insert_on "onboarding_emails") both = 1
        /\ count is_email both = 1).
Proof.
  assert (Ha : authenticated pf0 cfg0 (signed checkout_text) checkout).
  { split.
    - split; [discriminate|]. split; [reflexivity|]. split; reflexivity.
    - eexists _, _. split; [reflexivity|]. split; [reflexivity|].
      split; [reflexivity|]. split; reflexivity. }
  apply (C2_card_processor_replay pf0 cfg0 all_ok all_ok _ _ checkout checkout
           (VStr "evt_1")); auto.
Defined.

(** The exact counts of that replay. *)
Example checkout_replay_counts :
  let first := deliver pf0 stripe cfg0 all_ok (signed checkout_text) empty_database in
  let second := deliver pf0 stripe cfg0 all_ok (signed checkout_text) (db_of first) in
  let both := (calls_of first ++ calls_of second)%list in
  count (is_upsert_on "premium_subscriptions") both = 1
  /\ count (is_insert_on "onboarding_emails") both = 1
  /\ count is_email both = 1.
Proof. repeat split. Qed.

(** C2 as stated fails, on six counts.
    - The gumroad adapter keeps no ledger: the second delivery of a signed
      sale is not reported as a duplicate and upserts the subscriber again,
      so two entitlement upserts are issued.
    - On the card-processor adapter, the second delivery of an event whose
      id does not convert to a string is answered 500: logging the duplicate
      throws.
    - A checkout whose product name does not convert is answered 500 after
      the ledger took it: no entitlement, no record, no email, on either
      delivery.
    - When the ledger upsert comes back with an error, a replayed checkout
      is processed again; without a database client there is no ledger, and
      the second delivery sends the email again.
    - An [invoice.paid] event is sent its email and recorded, with no
      entitlement upsert, and so is a checkout whose customers upsert
      rejects.
    - A checkout that names no buyer gets no entitlement, no record and no
      email.
    - Without the mail key the handler answers a signed replay 500, as it
      answered the first delivery, before it reads the ledger. *)
Lemma C2_gumroad_replay_repeats_the_upsert :
  (let first :=
     deliver pf0 gumroad cfg0 all_ok (gumroad_signed gumroad_sale_text) empty_database in
   let second :=
     deliver pf0 gumroad cfg0 all_ok (gumroad_signed gumroad_sale_text) (db_of first) in
   result_of second
   = Ret {| status := 200;
            content := Json (VObj [("ok", VBool true); ("pdf_url", VNull);
                                   ("csv_url", VNull)]) |}
   /\ calls_of second
      = [DbUpsert "subscribers" "sale_id";
         SignedUrl "trenddrop-reports" "weekly/latest.pdf";
         SignedUrl "trenddrop-reports" "weekly/latest.csv";
         DbUpdate "subscribers" "sale_id"]
   /\ count (is_upsert_on "subscribers") (calls_of first ++ calls_of second) = 2)
  /\ (let first :=
        deliver Samples.pf1 stripe cfg0 all_ok (signed Samples.odd_id_text)
          empty_database in
      let second :=
        deliver Samples.pf1 stripe cfg0 all_ok (signed Samples.odd_id_text)
          (db_of first) in
      result_of first = Ret (Stripe.ok (VObj [("ignored", VBool true)]))
      /\ result_of second = Ret (Stripe.bad "internal error" 500))
  /\ (let first :=
        deliver Samples.pf1 stripe cfg0 all_ok (signed Samples.odd_name_text)
          empty_database in
      let second :=
        deliver Samples.pf1 stripe cfg0 all_ok (signed Samples.odd_name_text)
          (db_of first) in
      result_of first = Ret (Stripe.bad "internal error" 500)
      /\ count is_email (calls_of first ++ calls_of second) = 0
      /\ count (is_upsert_on "premium_subscriptions")
           (calls_of first ++ calls_of second) = 0)
  /\ (count is_email
        (calls_of (deliver Samples.pf1 stripe cfg0 Samples.ledger_down
                     (signed checkout_text) Samples.db_seen)) = 1
      /\ let first :=
           deliver Samples.pf1 stripe Samples.cfg_no_db all_ok (signed checkout_text)
             empty_database in
         let second :=
           deliver Samples.pf1 stripe Samples.cfg_no_db all_ok (signed checkout_text)
             (db_of first) in
         result_of second
         = Ret (Stripe.ok (VObj [("received", VBool true); ("sent", VBool true)]))
         /\ count is_email (calls_of first ++ calls_of second) = 2)
  /\ ((let first :=
         deliver Samples.pf1 stripe cfg0 all_ok (signed Samples.invoice_text)
           empty_database in
       let second :=
         deliver Samples.pf1 stripe cfg0 all_ok (signed Samples.invoice_text)
           (db_of first) in
       count is_email (calls_of first ++ calls_of second) = 1
       /\ count (is_upsert_on "premium_subscriptions")
            (calls_of first ++ calls_of second) = 0)
      /\ let first :=
           deliver Samples.pf1 stripe cfg0 Samples.customers_down (signed checkout_text)
             empty_database in
         let second :=
           deliver Samples.pf1 stripe cfg0 Samples.customers_down (signed checkout_text)
             (db_of first) in
         count is_email (calls_of first ++ calls_of second) = 1
         /\ count (is_upsert_on "premium_subscriptions")
              (calls_of first ++ calls_of second) = 0)
  /\ (let first :=
        deliver Samples.pf1 stripe cfg0 all_ok (signed Samples.checkout_anonymous_text)
          empty_database in
      let second :=
        deliver Samples.pf1 stripe cfg0 all_ok (signed Samples.checkout_anonymous_text)
          (db_of first) in
      result_of first
      = Ret (Stripe.ok (VObj [("skipped", VBool true); ("reason", VStr "no_email")]))
      /\ count is_email (calls_of first ++ calls_of second) = 0
      /\ count (is_upsert_on "premium_subscriptions")
           (calls_of first ++ calls_of second) = 0
      /\ count (is_insert_on "onboarding_emails")
           (calls_of first ++ calls_of second) = 0)
  /\ (let first :=
        deliver Samples.pf1 stripe cfg_no_mail all_ok (signed checkout_text)
          empty_database in
      let second :=
        deliver Samples.pf1 stripe cfg_no_mail all_ok (signed checkout_text)
          (db_of first) in
      second = (Ret (Stripe.bad "server not configured (email)" 500), empty_database, [])).
Proof. repeat split. Qed.

End ReplayExamples.

(** * Further properties of the code *)

(** ** JavaScript string operations *)

Section StringFacts.
Import JsString Coverage.

Lemma lowerChar_idem c : lowerChar (lowerChar c) = lowerChar c.
Proof. destruct c as [[] [] [] [] [] [] [] []]; reflexivity. Qed.

Lemma isWhiteSpace_lowerChar c : isWhiteSpace (lowerChar c) = isWhiteSpace c.
Proof. destruct c as [[] [] [] [] [] [] [] []]; reflexivity. Qed.

Lemma toLowerCase_idem s : toLowerCase (toLowerCase s) = toLowerCase s.
Proof. induction s as [|c s IH]; simpl; [reflexivity|]. now rewrite lowerChar_idem, IH. Qed.

Lemma toLowerCase_empty s : String.eqb (toLowerCase s) "" = String.eqb s "".
Proof. now destruct s. Qed.

Lemma truthy_toLowerCase s : truthy (toLowerCase s) = truthy s.
Proof. unfold truthy. now rewrite toLowerCase_empty. Qed.

Lemma trimStart_toLowerCase s : trimStart (toLowerCase s) = toLowerCase (trimStart s).
Proof.
  induction s as [|c s IH]; simpl; [reflexivity|].
  rewrite isWhiteSpace_lowerChar. now destruct (isWhiteSpace c).
Qed.

Lemma trimEnd_toLowerCase s : trimEnd (toLowerCase s) = toLowerCase (trimEnd s).
Proof.
  induction s as [|c s IH]; simpl; [reflexivity|].
  rewrite isWhiteSpace_lowerChar, IH, toLowerCase_empty.
  now destruct (isWhiteSpace c && String.eqb (trimEnd s) "").
Qed.

Lemma trim_toLowerCase s : trim (toLowerCase s) = toLowerCase (trim s).
Proof. unfold trim. now rewrite trimStart_toLowerCase, trimEnd_toLowerCase. Qed.

Lemma trimEnd_idem s : trimEnd (trimEnd s) = trimEnd s.
Proof.
  induction s as [|c s IH]; simpl; [reflexivity|].
  destruct (isWhiteSpace c && String.eqb (trimEnd s) "") eqn:E; simpl; [reflexivity|].
  now rewrite IH, E.
Qed.

(** [trimStart] leaves the empty string or a string that starts with a
    character that is not white space. *)
Lemma trimStart_head s :
  match trimStart s with
  | EmptyString => True
  | String c _ => isWhiteSpace c = false
  end.
Proof.
  induction s as [|c s IH]; simpl; [exact I|].
  destruct (isWhiteSpace c) eqn:E; [exact IH|exact E].
Qed.

Lemma trimStart_trimEnd s :
  match s with EmptyString => True | String c _ => isWhiteSpace c = false end ->
  trimStart (trimEnd s) = trimEnd s.
Proof.
  destruct s as [|c s]; simpl; [reflexivity|]. intros E. rewrite E. simpl. now rewrite E.
Qed.

Lemma trim_idem s : trim (trim s) = trim s.
Proof.
  unfold trim. rewrite (trimStart_trimEnd (trimStart s)) by apply trimStart_head.
  apply trimEnd_idem.
Qed.

Lemma trimEnd_no_space s : all_chars (fun c => negb (isWhiteSpace c)) s = true -> trimEnd s = s.
Proof.
  induction s as [|c s IH]; simpl; [reflexivity|].
  intros H. apply andb_true_iff in H. destruct H as [Hc Hs].
  apply negb_true_iff in Hc. rewrite Hc. simpl. now rewrite IH.
Qed.

Lemma trim_no_space s : all_chars (fun c => negb (isWhiteSpace c)) s = true -> trim s = s.
Proof.
  intros H. unfold trim. destruct s as [|c s]; [reflexivity|].
  simpl in H |- *. pose proof H as H'. apply andb_true_iff in H'. destruct H' as [Hc _].
  apply negb_true_iff in Hc. rewrite Hc. now apply (trimEnd_no_space (String c s)).
Qed.

Lemma all_chars_impl (f g : ascii -> bool) s :
  (forall c, f c = true -> g c = true) -> all_chars f s = true -> all_chars g s = true.
Proof.
  intros Hfg. induction s as [|c s IH]; simpl; [reflexivity|].
  intros H. apply andb_true_iff in H. destruct H as [Hc Hs].
  now rewrite (Hfg c Hc), IH.
Qed.

Lemma plain_no_space s : plain s = true -> all_chars (fun c => negb (isWhiteSpace c)) s = true.
Proof.
  apply all_chars_impl. unfold plain_char. intros c H.
  apply andb_true_iff in H. now destruct H.
Qed.

Lemma plain_lacks sep s :
  (sep = ","%char \/ sep = "="%char) ->
  plain s = true -> all_chars (fun c => negb (Ascii.eqb c sep)) s = true.
Proof.
  intros Hsep. apply all_chars_impl. unfold plain_char. intros c H.
  apply andb_true_iff in H. destruct H as [H _].
  apply andb_true_iff in H. destruct H as [H1 H2]. now destruct Hsep; subst.
Qed.

Lemma split_lacks sep s :
  all_chars (fun c => negb (Ascii.eqb c sep)) s = true -> split sep s = [s].
Proof.
  induction s as [|c s IH]; simpl; [reflexivity|].
  intros H. apply andb_true_iff in H. destruct H as [Hc Hs].
  apply negb_true_iff in Hc. now rewrite Hc, IH.
Qed.

Lemma split_app sep a b :
  all_chars (fun c => negb (Ascii.eqb c sep)) a = true ->
  split sep (a +:+ String sep b) = a :: split sep b.
Proof.
  induction a as [|c a IH]; simpl.
  - intros _. now rewrite Ascii.eqb_refl.
  - intros H. apply andb_true_iff in H. destruct H as [Hc Ha].
    apply negb_true_iff in Hc. now rewrite Hc, IH.
Qed.

End StringFacts.

(** ** The signature header, from text to verdict *)

Section SignatureCoverage.
Import JsString StripeSig Coverage.

Lemma tsec_eqb a b : tsec a b = String.eqb a b.
Proof.
  destruct (String.eqb_spec a b) as [->|Hne].
  - now apply tsec_spec.
  - now apply tsec_false.
Qed.

(** X1. The XOR-accumulate comparison [tsec] answers exactly as [===] does on
    strings: [true] when the two strings are equal, [false] otherwise,
    whatever their lengths. *)
Theorem X1_tsec_is_string_equality (a b : string) :
  tsec a b = String.eqb a b /\ (tsec a b = true <-> a = b).
Proof. split; [apply tsec_eqb|apply tsec_spec]. Qed.

Lemma key_value_segment k v :
  all_chars (fun c => negb (Ascii.eqb c "="%char)) k = true ->
  plain v = true ->
  key_value (k +:+ String "="%char v) = (k, Some v).
Proof.
  intros Hk Hv. unfold key_value. rewrite (split_app "="%char k v Hk).
  now rewrite (split_lacks "="%char v) by (apply plain_lacks; auto).
Qed.

Lemma scan_part_v1 st sig :
  plain sig = true ->
  scan_part st ("v1=" +:+ sig)
  = {| sig_t := sig_t st; sig_v1 := (sig_v1 st ++ [Some sig])%list |}.
Proof.
  intros Hsig. unfold scan_part.
  change ("v1=" +:+ sig) with ("v1" +:+ String "="%char sig).
  now rewrite (key_value_segment "v1" sig eq_refl Hsig).
Qed.

Lemma scan_part_t st t :
  plain t = true ->
  scan_part st ("t=" +:+ t) = {| sig_t := Some t; sig_v1 := sig_v1 st |}.
Proof.
  intros Ht. unfold scan_part.
  change ("t=" +:+ t) with ("t" +:+ String "="%char t).
  now rewrite (key_value_segment "t" t eq_refl Ht).
Qed.

Lemma scan_v1_segments sigs st :
  Forall (fun sig => plain sig = true) sigs ->
  fold_left scan_part (map (fun sig => "v1=" +:+ sig) sigs) st
  = {| sig_t := sig_t st; sig_v1 := (sig_v1 st ++ map Some sigs)%list |}.
Proof.
  intros Hall. revert st. induction Hall as [|sig sigs Hsig _ IH]; intros st; simpl.
  - rewrite app_nil_r. now destruct st.
  - rewrite IH, (scan_part_v1 st sig Hsig). simpl. now rewrite <- app_assoc.
Qed.

Lemma append_empty_r a : a +:+ "" = a.
Proof.
  induction a as [|c a IH]; [reflexivity|].
  change (String c (a +:+ "") = String c a). now rewrite IH.
Qed.

Lemma split_v1_segments a sigs :
  all_chars (fun c => negb (Ascii.eqb c ","%char)) a = true ->
  Forall (fun sig => plain sig = true) sigs ->
  split ","%char (a +:+ v1_segments sigs) = a :: map (fun sig => "v1=" +:+ sig) sigs.
Proof.
  intros Ha Hall. revert a Ha. induction Hall as [|sig sigs Hsig _ IH]; intros a Ha.
  - change (v1_segments []) with EmptyString.
    rewrite append_empty_r. now apply split_lacks.
  - change (a +:+ v1_segments (sig :: sigs))
      with (a +:+ String ","%char (("v1=" +:+ sig) +:+ v1_segments sigs)).
    rewrite (split_app ","%char a) by exact Ha. cbn [map]. f_equal.
    apply (IH ("v1=" +:+ sig)).
    change (all_chars (fun c => negb (Ascii.eqb c ","%char)) sig = true).
    now apply plain_lacks; auto.
Qed.

Lemma trim_v1_segments sigs :
  Forall (fun sig => plain sig = true) sigs ->
  map trim (map (fun sig => "v1=" +:+ sig) sigs) = map (fun sig => "v1=" +:+ sig) sigs.
Proof.
  induction 1 as [|sig sigs Hsig _ IH]; simpl; [reflexivity|].
  rewrite IH. f_equal. apply trim_no_space. simpl. now apply plain_no_space.
Qed.

Lemma parse_signature_header_text t sigs :
  plain t = true ->
  truthy t = true ->
  Forall (fun sig => plain sig = true) sigs ->
  parseStripeSigHeader (Some (signature_header_text t sigs))
  = match sigs with [] => None | _ => Some (t, map Some sigs) end.
Proof.
  intros Ht Hne Hall. unfold parseStripeSigHeader, signature_header_text.
  change (truthy ("t=" +:+ t +:+ v1_segments sigs)) with true. cbn [negb].
  change ("t=" +:+ t +:+ v1_segments sigs) with (("t=" +:+ t) +:+ v1_segments sigs).
  rewrite split_v1_segments; [|simpl; now apply plain_lacks; auto|exact Hall].
  cbn [map]. rewrite (trim_v1_segments sigs Hall).
  rewrite (trim_no_space ("t=" +:+ t)) by (simpl; now apply plain_no_space).
  unfold scan_parts. cbn [fold_left]. rewrite (scan_part_t _ t Ht).
  rewrite (scan_v1_segments sigs _ Hall).
  simpl. rewrite Hne. simpl. rewrite length_map. now destruct sigs.
Qed.

(** X3. A header written the way the card processor writes it,
    [t=<t>,v1=<sig>,...,v1=<sig>] with a non-empty timestamp and signatures
    that hold no comma, no equals sign and no white space, parses back to
    exactly that timestamp and those signatures, in order; with no [v1]
    segment at all it does not parse. *)
Theorem X3_signature_header_round_trip (t : string) (sigs : list string) :
  plain t = true ->
  truthy t = true ->
  Forall (fun sig => plain sig = true) sigs ->
  parseStripeSigHeader (Some (signature_header_text t sigs))
  = match sigs with [] => None | _ => Some (t, map Some sigs) end.
Proof. apply parse_signature_header_text. Qed.

Lemma X3_witness :
  parseStripeSigHeader (Some (signature_header_text "1700000000" ["0a1b"; "ffee"]))
  = Some ("1700000000", [Some "0a1b"; Some "ffee"]).
Proof.
  apply (X3_signature_header_round_trip "1700000000" ["0a1b"; "ffee"]);
    [reflexivity|reflexivity|repeat constructor].
Defined.

Lemma parse_some_nonempty header t v1 :
  parseStripeSigHeader header = Some (t, v1) -> truthy t = true /\ v1 <> [].
Proof.
  unfold parseStripeSigHeader. destruct header as [h|]; [|discriminate].
  destruct (negb (truthy h)); [discriminate|].
  destruct (sig_t _) as [t'|]; [|discriminate].
  destruct (truthy t') eqn:Ht; simpl; [|discriminate].
  destruct (sig_v1 _) as [|x l]; simpl; [discriminate|].
  intros [= <- <-]. now split.
Qed.

Lemma some_tsec_values sigs expected :
  some_tsec (map Some sigs) expected
  = Ret (existsb (fun sig => String.eqb sig expected) sigs).
Proof.
  induction sigs as [|sig sigs IH]; simpl; [reflexivity|].
  rewrite tsec_eqb. destruct (String.eqb sig expected); [reflexivity|exact IH].
Qed.

Variable hmacSHA256Hex : string -> string -> string.

(** X2. The verifier never accepts a forgery: when it returns [true], the
    header has parsed to a non-empty timestamp [t] and at least one [v1]
    value, and one of those values is the digest of ["<t>.<rawBody>"] under
    the secret. *)
Theorem X2_acceptance_is_sound (rawBody sigHeader secret : string) :
  verifyStripeSignature hmacSHA256Hex rawBody sigHeader secret = Ret true ->
  exists t v1,
    parseStripeSigHeader (Some sigHeader) = Some (t, v1)
    /\ truthy t = true
    /\ In (Some (hmacSHA256Hex secret (t +:+ "." +:+ rawBody))) v1.
Proof.
  intros H. destruct (verify_sound hmacSHA256Hex _ _ _ H) as (t & v1 & Hp & Hin).
  exists t, v1. split; [exact Hp|]. split; [|exact Hin].
  now destruct (parse_some_nonempty _ _ _ Hp).
Qed.

(** X4. On a header in the card processor's format the verifier always
    returns, and returns [true] exactly when one of the signatures is the
    digest of ["<t>.<rawBody>"] under the secret: a correctly signed delivery
    is accepted, and one whose signatures all differ from the digest (another
    body, another secret, another timestamp) is refused. *)
Theorem X4_verdict_on_well_formed_header (rawBody secret t : string) (sigs : list string) :
  plain t = true ->
  truthy t = true ->
  Forall (fun sig => plain sig = true) sigs ->
  verifyStripeSignature hmacSHA256Hex rawBody (signature_header_text t sigs) secret
  = Ret (existsb
           (fun sig => String.eqb sig (hmacSHA256Hex secret (t +:+ "." +:+ rawBody)))
           sigs).
Proof.
  intros Ht Hne Hall. unfold verifyStripeSignature.
  rewrite (parse_signature_header_text t sigs Ht Hne Hall).
  destruct sigs as [|sig sigs]; [reflexivity|]. apply some_tsec_values.
Qed.

End SignatureCoverage.

Section SignatureCoverageExamples.
Import JsString StripeSig Coverage Fixtures.

Lemma X2_witness :
  exists t v1,
    parseStripeSigHeader (Some ("t=7,v1=00,v1=" +:+ digest "whsec_1" "7.body"))
    = Some (t, v1)
    /\ truthy t = true
    /\ In (Some (digest "whsec_1" (t +:+ "." +:+ "body"))) v1.
Proof.
  apply (X2_acceptance_is_sound digest "body" _ "whsec_1"). reflexivity.
Defined.

Lemma X4_witness :
  verifyStripeSignature digest "body"
    (signature_header_text "7" ["00"; digest "whsec_1" "7.body"]) "whsec_1" = Ret true
  /\ verifyStripeSignature digest "another body"
       (signature_header_text "7" ["00"; digest "whsec_1" "7.body"]) "whsec_1" = Ret false.
Proof.
  split.
  - apply (X4_verdict_on_well_formed_header digest "body" "whsec_1" "7"
             ["00"; digest "whsec_1" "7.body"]);
      [reflexivity|reflexivity|repeat constructor].
  - apply (X4_verdict_on_well_formed_header digest "another body" "whsec_1" "7"
             ["00"; digest "whsec_1" "7.body"]);
      [reflexivity|reflexivity|repeat constructor].
Defined.

End SignatureCoverageExamples.

(** ** The card-processor handler beyond authentication *)

Section StripeCoverage.
Import JsString JsValue Http World Pipeline Coverage.

Lemma returns_ret {A} (Q : A -> Prop) a : Q a -> returns Q (ret a).
Proof. intros H db. exact H. Qed.

Lemma returns_throw {A} (Q : A -> Prop) msg : returns Q (@throw A msg).
Proof. intros db. exact I. Qed.

Lemma returns_bind {A B} (Q : B -> Prop) (m : M A) (k : A -> M B) :
  (forall a, returns Q (k a)) -> returns Q (bind m k).
Proof.
  intros Hk db. unfold bind, result_of.
  destruct (m db) as [[[a|msg] db1] cs1]; simpl; [|exact I].
  specialize (Hk a db1). unfold result_of in Hk.
  now destruct (k a db1) as [[r db2] cs2].
Qed.

Lemma returns_try_catch {A} (Q : A -> Prop) (m : M A) h :
  returns Q m -> (forall e, returns Q (h e)) -> returns Q (try_catch m h).
Proof.
  intros Hm Hh db. specialize (Hm db). unfold try_catch, result_of in *.
  destruct (m db) as [[[a|msg] db1] cs1]; simpl in *; [exact Hm|].
  specialize (Hh msg db1). unfold result_of in Hh.
  now destruct (h msg db1) as [[r db2] cs2].
Qed.

(** A [try] whose handler returns a fixed value never throws. *)
Lemma answers_caught {A} (Q : A -> Prop) (m : M A) (fallback : A) :
  returns Q m -> Q fallback -> answers Q (try_catch m (fun _ => ret fallback)).
Proof.
  intros Hm Hf db. specialize (Hm db). unfold try_catch, result_of in *.
  destruct (m db) as [[[a|msg] db1] cs1]; simpl in *; eauto.
Qed.

Variable pf : platform.
Variable cfg : config.
Variable o : oracle.

Local Abbreviation process := (Stripe.process cfg o).
Local Abbreviation serve := (Stripe.serve (hmacSHA256Hex pf) (JSON_parse pf) cfg o).

(** Splits a [returns] goal along the structure of the handler. *)
Ltac returning :=
  repeat match goal with
    | |- returns _ (ret _) => simple apply returns_ret
    | |- returns _ (throw _) => simple apply returns_throw
    | |- returns _ (bind _ _) => simple apply returns_bind; intros ?
    | |- returns _ (try_catch _ _) => simple apply returns_try_catch; [|intros ?]
    | |- returns _ (if ?b then _ else _) => destruct b
    | |- returns _ (match ?x with _ => _ end) => destruct x
    end.

(** X5. The card-processor handler always answers, whatever it is sent and
    whatever its collaborators do: it never throws, and its status is 200,
    400 or 500. *)
Theorem X5_stripe_handler_always_answers (req : request) (db : database) :
  exists r,
    result_of (serve req db) = Ret r
    /\ (status r = 200 \/ status r = 400 \/ status r = 500)%Z.
Proof.
  apply (answers_caught (fun r => status r = 200 \/ status r = 400 \/ status r = 500)%Z);
    [|now right; right].
  unfold Stripe.handle, Stripe.dedupe, Stripe.process, Stripe.fulfil.
  returning; simpl; auto.
Qed.

Lemma upserts_run n e db :
  exists db1 cs1,
    Stripe.upserts o n e db = (Ret tt, db1, cs1)
    /\ onboarding_emails db1 = onboarding_emails db
    /\ count is_email cs1 = 0
    /\ count (is_insert_on "onboarding_emails") cs1 = 0.
Proof.
  unfold Stripe.upserts, Stripe.customers_upsert, Stripe.subscriptions_upsert,
    try_catch, bind, db_request, ret.
  destruct (db_result_of o CustomersUpsert);
    destruct (db_result_of o SubscriptionsUpsert); simpl;
    eexists _, _; (split; [reflexivity|]); simpl; auto.
Qed.

Lemma upserts_stage_run n evt db :
  exists db1 cs1,
    upserts_stage cfg o n evt db = (Ret tt, db1, cs1)
    /\ onboarding_emails db1 = onboarding_emails db
    /\ count is_email cs1 = 0
    /\ count (is_insert_on "onboarding_emails") cs1 = 0
    /\ (has_db cfg && Stripe.shouldProcessDb (prop evt "type") = false ->
        db1 = db /\ cs1 = []).
Proof.
  unfold upserts_stage.
  destruct (has_db cfg && Stripe.shouldProcessDb (prop evt "type")).
  - destruct (upserts_run n (Stripe.buyerEmailOf n evt) db)
      as (db1 & cs1 & H1 & H2 & H3 & H4).
    exists db1, cs1. split; [exact H1|]. split; [exact H2|]. split; [exact H3|].
    split; [exact H4|discriminate].
  - exists db, []. split; [reflexivity|]. split; [reflexivity|]. split; [reflexivity|].
    split; [reflexivity|]. intros _. now split.
Qed.

Lemma sendOnboardingEmail_run to product db :
  Stripe.sendOnboardingEmail o to product db
  = (Ret (brevo_result o), db, [BrevoSend to Stripe.subject product]).
Proof.
  unfold Stripe.sendOnboardingEmail, Stripe.sendWithBrevo, try_catch, bind, issue,
    brevo_result.
  destruct (brevo o) as [code|m];
    [destruct (res_ok code); [|unfold lift; destruct (brevo_text o)]|]; reflexivity.
Qed.

(** The handler, once an event of a sending type has a buyer email. *)
Lemma process_sending evt n db :
  nullish evt = false ->
  Stripe.shouldSend (prop evt "type") = true ->
  Stripe.normalizeStripeEvent evt = Ret n ->
  truthy_val (Stripe.buyerEmailOf n evt) = true ->
  exists db1 cs1,
    upserts_stage cfg o n evt db = (Ret tt, db1, cs1)
    /\ process evt db
       = if has_db cfg then
           match db_result_of o OnboardingInsert with
           | DbOk =>
               (Ret (sent_ack o),
                with_onboarding (onboarding_emails db1 ++ [notification_row o n evt])%list db1,
                (cs1 ++ [email_call n evt; DbInsert "onboarding_emails"])%list)
           | DbError _ =>
               (Ret (sent_ack o), db1,
                (cs1 ++ [email_call n evt; DbInsert "onboarding_emails"])%list)
           | DbThrow m =>
               (Throw m, db1,
                (cs1 ++ [email_call n evt; DbInsert "onboarding_emails"])%list)
           end
         else (Ret (sent_ack o), db1, (cs1 ++ [email_call n evt])%list).
Proof.
  intros Hn Hsend Hnorm Hmail.
  destruct (upserts_stage_run n evt db) as (db1 & cs1 & Hrun & _).
  exists db1, cs1. split; [exact Hrun|].
  rewrite (process_run cfg o). unfold get. rewrite Hn, Hsend, Hnorm. cbn [negb].
  unfold Stripe.fulfil. rewrite Hmail. cbn [negb].
  unfold upserts_stage in Hrun. unfold bind at 1. rewrite Hrun.
  unfold bind at 1. rewrite sendOnboardingEmail_run.
  unfold Stripe.onboarding_insert, bind, db_request, ret, sent_ack, notification_row,
    email_call.
  destruct (has_db cfg); [destruct (db_result_of o OnboardingInsert)|]; reflexivity.
Qed.

Lemma process_quiet evt db :
  nullish evt = false ->
  Stripe.shouldSend (prop evt "type") = false
  \/ (exists n, Stripe.normalizeStripeEvent evt = Ret n
                /\ truthy_val (Stripe.buyerEmailOf n evt) = false) ->
  process evt db
  = (Ret (if Stripe.shouldSend (prop evt "type") then no_email_ack else ignored_ack),
     db, []).
Proof.
  intros Hn H. rewrite (process_run cfg o). unfold get. rewrite Hn.
  destruct (Stripe.shouldSend (prop evt "type")); [|reflexivity].
  destruct H as [H|(n & Hnorm & H)]; [discriminate|].
  cbn [negb]. rewrite Hnorm. unfold Stripe.fulfil. now rewrite H.
Qed.

(** Past the ledger, the handler is the processing inside the outer [try]. *)
Lemma serve_through req evt db db' pre :
  authenticated pf cfg req evt ->
  nullish evt = false ->
  ledger_stage cfg o evt db = Some (db', pre) ->
  serve req db
  = (match result_of (process evt db') with
     | Ret r => Ret r
     | Throw _ => Ret internal_error
     end,
     db_of (process evt db'),
     (pre ++ calls_of (process evt db'))%list).
Proof.
  intros Ha Hn Hstage. unfold Stripe.serve, try_catch.
  rewrite (handle_authenticated pf cfg o _ _ _ Ha).
  unfold ledger_stage in Hstage. unfold bind at 1. unfold Stripe.dedupe.
  destruct (has_db cfg).
  - unfold get. rewrite Hn, !bind_lift.
    unfold bind at 1, Stripe.ledger_upsert, db_request.
    fold (ledger_has (prop evt "id") db).
    destruct (db_result_of o LedgerUpsert); [|injection Hstage as <- <-|discriminate].
    + destruct (ledger_has (prop evt "id") db); [discriminate|].
      injection Hstage as <- <-. simpl.
      destruct (process evt _) as [[[r|msg] db2] cs2]; simpl; [reflexivity|].
      now rewrite app_nil_r.
    + simpl. destruct (process evt db) as [[[r|msg] db2] cs2]; simpl; [reflexivity|].
      now rewrite app_nil_r.
  - injection Hstage as <- <-. simpl.
    destruct (process evt db) as [[[r|msg] db2] cs2]; simpl; [reflexivity|].
    now rewrite app_nil_r.
Qed.

(** X6. A signed event of any type other than the three sale types, or one
    that normalises to an event without a buyer email, is acknowledged with
    200 and is not processed: apart from the ledger upsert the handler
    issues no call and leaves the database as the ledger step left it. *)
Theorem X6_unprocessed_events_leave_no_trace (req : request) (evt : jsval)
    (db db' : database) (pre : list call) :
  authenticated pf cfg req evt ->
  nullish evt = false ->
  ledger_stage cfg o evt db = Some (db', pre) ->
  Stripe.shouldSend (prop evt "type") = false
  \/ (exists n, Stripe.normalizeStripeEvent evt = Ret n
                /\ truthy_val (Stripe.buyerEmailOf n evt) = false) ->
  serve req db
  = (Ret (if Stripe.shouldSend (prop evt "type") then no_email_ack else ignored_ack),
     db', pre)
  /\ sublist pre [ledger_probe]
  /\ with_ledger (stripe_event_ledger db) db' = db.
Proof.
  intros Ha Hn Hstage Hq.
  rewrite (serve_through _ _ _ _ _ Ha Hn Hstage), (process_quiet _ _ Hn Hq). simpl.
  rewrite app_nil_r. split; [reflexivity|].
  unfold ledger_stage in Hstage.
  destruct (has_db cfg);
    [destruct (db_result_of o LedgerUpsert);
       [destruct (ledger_has (prop evt "id") db)|..]|];
    try discriminate; injection Hstage as <- <-;
    (split; [try reflexivity; apply sublist_nil_l|now destruct db]).
Qed.

(** X8. Once a signed sale event that normalises, with a buyer email, is
    past the ledger, the email is attempted exactly once whatever the customers and
    subscription upserts do (applied, refused or rejected), and the answer is
    200 [received:true] with [sent] telling whether the mail provider
    accepted; only a rejected insert of the notification record turns the
    answer into 500, after the email went out. *)
Theorem X8_email_survives_database_failures (req : request) (evt : jsval)
    (n : Stripe.NormalizedStripeInfo) (db db' : database) (pre : list call) :
  authenticated pf cfg req evt ->
  nullish evt = false ->
  ledger_stage cfg o evt db = Some (db', pre) ->
  Stripe.shouldSend (prop evt "type") = true ->
  Stripe.normalizeStripeEvent evt = Ret n ->
  truthy_val (Stripe.buyerEmailOf n evt) = true ->
  count is_email (calls_of (serve req db)) = 1
  /\ result_of (serve req db)
     = Ret (if has_db cfg then
              match db_result_of o OnboardingInsert with
              | DbThrow _ => internal_error
              | _ => sent_ack o
              end
            else sent_ack o).
Proof.
  intros Ha Hn Hstage Hsend Hnorm Hmail.
  rewrite (serve_through _ _ _ _ _ Ha Hn Hstage).
  destruct (process_sending evt n db' Hn Hsend Hnorm Hmail) as (db1 & cs1 & Hrun & ->).
  destruct (upserts_stage_run n evt db') as (db1' & cs1' & Hrun' & _ & Hmails & _).
  rewrite Hrun in Hrun'. injection Hrun' as <- <-.
  assert (Hpre : count is_email pre = 0).
  { unfold ledger_stage in Hstage.
    destruct (has_db cfg);
      [destruct (db_result_of o LedgerUpsert);
         [destruct (ledger_has (prop evt "id") db)|..]|];
      try discriminate; now injection Hstage as <- <-. }
  destruct (has_db cfg); [destruct (db_result_of o OnboardingInsert)|];
    unfold result_of, calls_of; simpl; rewrite !count_app, Hpre, Hmails;
    (split; reflexivity).
Qed.

(** X9. When the insert into [onboarding_emails] is applied, the record it
    appends names the buyer, the product, the event and the checkout
    session, carries status [sent] exactly when the mail provider accepted
    the email and status [error] otherwise, and keeps the provider's error
    text: [Brevo error <status>] when the refusal's body could be read, and
    otherwise the message of the rejected read or of the rejected request. *)
Theorem X9_notification_record (req : request) (evt : jsval)
    (n : Stripe.NormalizedStripeInfo) (db db' : database) (pre : list call) :
  authenticated pf cfg req evt ->
  nullish evt = false ->
  ledger_stage cfg o evt db = Some (db', pre) ->
  Stripe.shouldSend (prop evt "type") = true ->
  Stripe.normalizeStripeEvent evt = Ret n ->
  truthy_val (Stripe.buyerEmailOf n evt) = true ->
  has_db cfg = true ->
  db_result_of o OnboardingInsert = DbOk ->
  onboarding_emails (db_of (serve req db))
  = (onboarding_emails db ++ [notification_row o n evt])%list
  /\ (ob_status (notification_row o n evt) = "sent"
      <-> exists code, brevo o = HttpResponse code /\ res_ok code = true)
  /\ (forall code t, brevo o = HttpResponse code -> res_ok code = false ->
      brevo_text o = Ret t ->
      error_message (notification_row o n evt) = Some ("Brevo error " +:+ pretty code))
  /\ (forall code m, brevo o = HttpResponse code -> res_ok code = false ->
      brevo_text o = Throw m ->
      error_message (notification_row o n evt) = Some m)
  /\ (forall m, brevo o = HttpThrow m ->
      error_message (notification_row o n evt) = Some m).
Proof.
  intros Ha Hn Hstage Hsend Hnorm Hmail Hdb Hins.
  rewrite (serve_through _ _ _ _ _ Ha Hn Hstage).
  destruct (process_sending evt n db' Hn Hsend Hnorm Hmail) as (db1 & cs1 & Hrun & ->).
  destruct (upserts_stage_run n evt db') as (db1' & cs1' & Hrun' & Hkeep & _).
  rewrite Hrun in Hrun'. injection Hrun' as <- <-.
  rewrite Hdb, Hins. unfold db_of. simpl.
  assert (Hledger : onboarding_emails db' = onboarding_emails db).
  { unfold ledger_stage in Hstage. rewrite Hdb in Hstage.
    destruct (db_result_of o LedgerUpsert);
      [destruct (ledger_has (prop evt "id") db)|..];
      try discriminate; now injection Hstage as <- <-. }
  rewrite Hkeep, Hledger. split; [reflexivity|].
  unfold notification_row, brevo_result. simpl.
  destruct (brevo o) as [code|m];
    [destruct (res_ok code) eqn:Hc; [|destruct (brevo_text o) as [t|m]]|]; simpl.
  - split; [split; [eauto|reflexivity]|].
    split; [intros c t [= <-]; congruence|].
    split; [intros c m [= <-]; congruence|discriminate].
  - split; [split; [discriminate|intros (c & [= <-] & Hc'); congruence]|].
    split; [now intros c t' [= <-]|].
    split; [intros c m _ _; discriminate|discriminate].
  - split; [split; [discriminate|intros (c & [= <-] & Hc'); congruence]|].
    split; [intros c t _ _; discriminate|].
    split; [now intros c m' _ _ [= <-]|discriminate].
  - split; [split; [discriminate|now intros (c & Hc & _)]|].
    split; [discriminate|]. split; [discriminate|now intros m' [= <-]].
Qed.

(** X10. Without a database (one of the two Supabase settings missing) a
    signed sale event that normalises, with a buyer email, still sends the
    email: the email is
    the only call, nothing is recorded, and the answer is 200
    [received:true]. *)
Theorem X10_no_database_still_sends (req : request) (evt : jsval)
    (n : Stripe.NormalizedStripeInfo) (db : database) :
  authenticated pf cfg req evt ->
  nullish evt = false ->
  has_db cfg = false ->
  Stripe.shouldSend (prop evt "type") = true ->
  Stripe.normalizeStripeEvent evt = Ret n ->
  truthy_val (Stripe.buyerEmailOf n evt) = true ->
  serve req db = (Ret (sent_ack o), db, [email_call n evt]).
Proof.
  intros Ha Hn Hdb Hsend Hnorm Hmail.
  assert (Hstage : ledger_stage cfg o evt db = Some (db, [])).
  { unfold ledger_stage. now rewrite Hdb. }
  rewrite (serve_through _ _ _ _ _ Ha Hn Hstage).
  destruct (process_sending evt n db Hn Hsend Hnorm Hmail) as (db1 & cs1 & Hrun & ->).
  destruct (upserts_stage_run n evt db) as (db1' & cs1' & Hrun' & _ & _ & _ & Hskip).
  rewrite Hrun in Hrun'. injection Hrun' as <- <-.
  rewrite Hdb in *. destruct (Hskip eq_refl) as [-> ->]. reflexivity.
Qed.

(** X11. An [invoice.paid] event that normalises, with a buyer email, sends
    the onboarding email and records the
    notification, but writes no entitlement: the handler issues no upsert on
    [customers] or [premium_subscriptions] and leaves both tables as they
    were. *)
Theorem X11_invoice_paid_writes_no_entitlement (req : request) (evt : jsval)
    (n : Stripe.NormalizedStripeInfo) (db db' : database) (pre : list call) :
  authenticated pf cfg req evt ->
  nullish evt = false ->
  ledger_stage cfg o evt db = Some (db', pre) ->
  prop evt "type" = VStr "invoice.paid" ->
  Stripe.normalizeStripeEvent evt = Ret n ->
  truthy_val (Stripe.buyerEmailOf n evt) = true ->
  count is_email (calls_of (serve req db)) = 1
  /\ count (is_upsert_on "customers") (calls_of (serve req db)) = 0
  /\ count (is_upsert_on "premium_subscriptions") (calls_of (serve req db)) = 0
  /\ customers (db_of (serve req db)) = customers db
  /\ premium_subscriptions (db_of (serve req db)) = premium_subscriptions db.
Proof.
  intros Ha Hn Hstage Hty Hnorm Hmail.
  assert (Hsend : Stripe.shouldSend (prop evt "type") = true) by now rewrite Hty.
  rewrite (serve_through _ _ _ _ _ Ha Hn Hstage).
  destruct (process_sending evt n db' Hn Hsend Hnorm Hmail) as (db1 & cs1 & Hrun & ->).
  destruct (upserts_stage_run n evt db') as (db1' & cs1' & Hrun' & _ & _ & _ & Hskip).
  rewrite Hrun in Hrun'. injection Hrun' as <- <-.
  destruct Hskip as [-> ->]; [rewrite Hty; apply andb_false_r|].
  assert (Hpre : pre = [] /\ db' = db
                 \/ pre = [ledger_probe]
                    /\ customers db' = customers db
                    /\ premium_subscriptions db' = premium_subscriptions db).
  { unfold ledger_stage in Hstage.
    destruct (has_db cfg);
      [destruct (db_result_of o LedgerUpsert);
         [destruct (ledger_has (prop evt "id") db)|..]|];
      try discriminate; injection Hstage as <- <-; auto. }
  destruct Hpre as [[-> ->]|(-> & Hc & Hs)];
    (destruct (has_db cfg); [destruct (db_result_of o OnboardingInsert)|]);
    unfold calls_of, db_of; simpl; auto.
Qed.

(** X7. The ledger does not stop the handler when its upsert comes back
    with an error: a signed sale event that normalises, with a buyer email,
    is then processed even though the ledger already holds its id, so the
    onboarding email goes out again. *)
Theorem X7_ledger_error_lets_replays_through (req : request) (evt : jsval)
    (n : Stripe.NormalizedStripeInfo) (db : database) (message : string) :
  authenticated pf cfg req evt ->
  nullish evt = false ->
  has_db cfg = true ->
  db_result_of o LedgerUpsert = DbError message ->
  ledger_has (prop evt "id") db = true ->
  Stripe.shouldSend (prop evt "type") = true ->
  Stripe.normalizeStripeEvent evt = Ret n ->
  truthy_val (Stripe.buyerEmailOf n evt) = true ->
  count is_email (calls_of (serve req db)) = 1
  /\ stripe_event_ledger (db_of (serve req db)) = stripe_event_ledger db.
Proof.
  intros Ha Hn Hdb Herr _ Hsend Hnorm Hmail.
  assert (Hstage : ledger_stage cfg o evt db = Some (db, [ledger_probe])).
  { unfold ledger_stage. now rewrite Hdb, Herr. }
  rewrite (serve_through _ _ _ _ _ Ha Hn Hstage).
  destruct (process_same_ledger cfg o evt db) as [Hl _].
  split; [|exact Hl].
  destruct (process_sending evt n db Hn Hsend Hnorm Hmail) as (db1 & cs1 & Hrun & ->).
  destruct (upserts_stage_run n evt db) as (db1' & cs1' & Hrun' & _ & Hmails & _).
  rewrite Hrun in Hrun'. injection Hrun' as <- <-.
  rewrite Hdb. destruct (db_result_of o OnboardingInsert);
    unfold calls_of; cbn [snd]; rewrite !count_app, Hmails; reflexivity.
Qed.

End StripeCoverage.

Section StripeCoverageExamples.
Import JsString JsValue Http World Pipeline Coverage Fixtures Samples.

(** Proves [authenticated] for a signed sample by evaluation. *)
Ltac authenticate :=
  split;
  [ split; [discriminate|]; split; [reflexivity|]; split; reflexivity
  | eexists _, _; split; [reflexivity|]; split; [reflexivity|];
    split; [reflexivity|]; split; reflexivity ].

Lemma X6_witness :
  Stripe.serve digest (JSON_parse pf1) cfg0 all_ok (signed update_text) empty_database
  = (Ret ignored_ack, recorded update (VStr "evt_5") empty_database, [ledger_probe])
  /\ sublist [ledger_probe] [ledger_probe]
  /\ with_ledger (stripe_event_ledger empty_database)
       (recorded update (VStr "evt_5") empty_database) = empty_database.
Proof.
  apply (X6_unprocessed_events_leave_no_trace pf1 cfg0 all_ok (signed update_text) update);
    [authenticate|reflexivity|reflexivity|left; reflexivity].
Defined.

Lemma X7_witness :
  count is_email
    (calls_of (Stripe.serve digest (JSON_parse pf1) cfg0 ledger_down
                 (signed checkout_text) db_seen)) = 1
  /\ stripe_event_ledger
       (db_of (Stripe.serve digest (JSON_parse pf1) cfg0 ledger_down
                 (signed checkout_text) db_seen))
     = stripe_event_ledger db_seen.
Proof.
  apply (X7_ledger_error_lets_replays_through pf1 cfg0 ledger_down (signed checkout_text)
           checkout checkout_normal db_seen "timeout");
    [authenticate|reflexivity..].
Defined.

Lemma X8_witness :
  count is_email
    (calls_of (Stripe.serve digest (JSON_parse pf1) cfg0 failing
                 (signed checkout_text) empty_database)) = 1
  /\ result_of (Stripe.serve digest (JSON_parse pf1) cfg0 failing
                  (signed checkout_text) empty_database)
     = Ret (Stripe.ok (VObj [("received", VBool true); ("sent", VBool false)])).
Proof.
  apply (X8_email_survives_database_failures pf1 cfg0 failing (signed checkout_text)
           checkout checkout_normal empty_database
           (recorded checkout (VStr "evt_1") empty_database) [ledger_probe]);
    [authenticate|reflexivity..].
Defined.

Lemma X9_witness :
  onboarding_emails
    (db_of (Stripe.serve digest (JSON_parse pf1) cfg0 failing
              (signed checkout_text) empty_database))
  = ([] ++ [notification_row failing checkout_normal checkout])%list
  /\ (ob_status (notification_row failing checkout_normal checkout) = "sent"
      <-> exists code, brevo failing = HttpResponse code /\ res_ok code = true)
  /\ (forall code t, brevo failing = HttpResponse code -> res_ok code = false ->
      brevo_text failing = Ret t ->
      error_message (notification_row failing checkout_normal checkout)
      = Some ("Brevo error " +:+ pretty code))
  /\ (forall code m, brevo failing = HttpResponse code -> res_ok code = false ->
      brevo_text failing = Throw m ->
      error_message (notification_row failing checkout_normal checkout) = Some m)
  /\ (forall m, brevo failing = HttpThrow m ->
      error_message (notification_row failing checkout_normal checkout) = Some m).
Proof.
  apply (X9_notification_record pf1 cfg0 failing (signed checkout_text)
           checkout checkout_normal empty_database
           (recorded checkout (VStr "evt_1") empty_database) [ledger_probe]);
    [authenticate|reflexivity..].
Defined.

(** The record of an email the provider refused. *)
Example refused_email_record :
  notification_row failing checkout_normal checkout
  = {| to_email := VStr "a@b.com"; product_name := "Premium Access";
       ob_event_id := "evt_1"; ob_checkout_session_id := VStr "cs_1";
       ob_customer_id := VStr "cus_1"; ob_status := "error";
       error_message := Some "Brevo error 500" |}.
Proof. reflexivity. Qed.

Lemma X10_witness :
  Stripe.serve digest (JSON_parse pf1) cfg_no_db all_ok (signed checkout_text)
    db_with_subscription
  = (Ret (sent_ack all_ok), db_with_subscription, [email_call checkout_normal checkout]).
Proof.
  apply (X10_no_database_still_sends pf1 cfg_no_db all_ok (signed checkout_text) checkout);
    [authenticate|reflexivity..].
Defined.

Lemma X11_witness :
  let run := Stripe.serve digest (JSON_parse pf1) cfg0 all_ok (signed invoice_text)
               db_with_subscription in
  count is_email (calls_of run) = 1
  /\ count (is_upsert_on "customers") (calls_of run) = 0
  /\ count (is_upsert_on "premium_subscriptions") (calls_of run) = 0
  /\ customers (db_of run) = customers db_with_subscription
  /\ premium_subscriptions (db_of run) = premium_subscriptions db_with_subscription.
Proof.
  apply (X11_invoice_paid_writes_no_entitlement pf1 cfg0 all_ok (signed invoice_text)
           invoice invoice_normal db_with_subscription
           (recorded invoice (VStr "evt_4") db_with_subscription) [ledger_probe]);
    [authenticate|reflexivity..].
Defined.

End StripeCoverageExamples.

(** ** The gumroad handler beyond authentication *)

Section GumroadCoverage.
Import JsString JsValue Http World Pipeline Coverage.

Lemma assoc_set_same k v fs : assoc k (assoc_set k v fs) = Some v.
Proof.
  induction fs as [|[k' v'] fs IH]; simpl.
  - now rewrite String.eqb_refl.
  - destruct (String.eqb k k') eqn:E; simpl; [now rewrite String.eqb_refl|now rewrite E].
Qed.

Lemma assoc_set_other k k' v fs :
  String.eqb k k' = false -> assoc k (assoc_set k' v fs) = assoc k fs.
Proof.
  intros Hne. induction fs as [|[k2 v2] fs IH]; simpl.
  - now rewrite Hne.
  - destruct (String.eqb k' k2) eqn:E; simpl.
    + apply String.eqb_eq in E. subst k2. now rewrite Hne.
    + now rewrite IH.
Qed.

Lemma assoc_fold k entries : forall acc,
  String.eqb k "__proto__" = false ->
  assoc k (fold_left
             (fun out kv =>
                if String.eqb (fst kv) "__proto__" then out
                else assoc_set (fst kv) (VStr (snd kv)) out)
             entries acc)
  = match last_value k entries with
    | Some v => Some (VStr v)
    | None => assoc k acc
    end.
Proof.
  induction entries as [|[k' v] entries IH]; intros acc Hk; simpl; [reflexivity|].
  rewrite IH by exact Hk. destruct (last_value k entries); [reflexivity|].
  destruct (String.eqb_spec k' "__proto__") as [->|_].
  - now rewrite Hk.
  - destruct (String.eqb k k') eqn:E.
    + apply String.eqb_eq in E. subst. apply assoc_set_same.
    + now apply assoc_set_other.
Qed.

(** X12. Reading a field of a form-encoded body, under a name that a plain
    object does not inherit, gives the value of the last entry with that
    name, as a string, and [undefined] when the body has no such entry:
    later duplicates overwrite earlier ones. *)
Theorem X12_form_fields_last_entry_wins (entries : string -> list (string * string))
    (body k : string) :
  inherited k = false ->
  prop (Gumroad.parseForm entries body) k
  = match last_value k (entries body) with
    | Some v => VStr v
    | None => VUndef
    end.
Proof.
  intros Hk. unfold Gumroad.parseForm, prop. rewrite assoc_fold.
  - now destruct (last_value k (entries body)).
  - unfold inherited in Hk. simpl in Hk.
    repeat (apply orb_false_iff in Hk; destruct Hk as [? Hk]); assumption.
Qed.

Variable Number_isFinite : string -> bool.
Variable cfg : config.
Variable o : oracle.

Local Abbreviation handleSale := (Gumroad.handleSale Number_isFinite cfg o).

Lemma telegram_notify_run email productId db :
  exists cs, Gumroad.telegram_notify cfg o email productId db = (Ret tt, db, cs)
             /\ count (is_upsert_on "subscribers") cs = 0.
Proof.
  unfold Gumroad.telegram_notify, try_catch, bind, issue, ret, throw.
  destruct (telegramBotToken cfg) as [bot|]; [|eexists; split; reflexivity].
  destruct (telegramCommunityChatId cfg) as [chat|]; [|eexists; split; reflexivity].
  destruct (truthy bot && truthy chat); [|eexists; split; reflexivity].
  destruct (telegram o); eexists; split; reflexivity.
Qed.

Lemma auto_invite_run p db :
  exists cs, Gumroad.auto_invite Number_isFinite cfg o p db = (Ret tt, db, cs)
             /\ count (is_upsert_on "subscribers") cs = 0.
Proof.
  unfold Gumroad.auto_invite, try_catch, bind, lift, issue, ret, throw.
  destruct (js_String _) as [tg|m]; [|eexists; split; reflexivity].
  match goal with |- context [if ?b then _ else _] => destruct b end;
    [|eexists; split; reflexivity].
  destruct (add_member o); eexists; split; reflexivity.
Qed.

Lemma map_idem {A} (f : A -> A) (l : list A) :
  Forall (fun x => f (f x) = f x) l -> map f (map f l) = map f l.
Proof. induction 1 as [|x l Hx _ IH]; simpl; [reflexivity|]. now rewrite Hx, IH. Qed.

Lemma map_fixed {A} (f : A -> A) (l : list A) :
  Forall (fun x => f x = x) l -> map f l = l.
Proof. induction 1 as [|x l Hx _ IH]; simpl; [reflexivity|]. now rewrite Hx, IH. Qed.

Lemma existsb_false_forall {A} (f : A -> bool) (l : list A) :
  existsb f l = false -> Forall (fun x => f x = false) l.
Proof.
  induction l as [|x l IH]; simpl; [constructor|].
  intros H. apply orb_false_iff in H. destruct H. constructor; auto.
Qed.

(** An upsert applied to its own result changes nothing. *)
Lemma upsert_rows_settled {A} (same : A -> bool) (merge : A -> A) (fresh : A) rows :
  existsb same rows = true ->
  Forall (fun r => same r = true -> merge r = r) rows ->
  upsert_rows same merge fresh rows = rows.
Proof.
  intros Hex Hfix. unfold upsert_rows. rewrite Hex. apply map_fixed.
  eapply Forall_impl; [exact Hfix|]. intros r Hr. simpl in *. destruct (same r); auto.
Qed.

Lemma upsert_rows_settles {A} (same : A -> bool) (merge : A -> A) (fresh : A) rows :
  same fresh = true ->
  merge fresh = fresh ->
  (forall r, same (merge r) = true /\ merge (merge r) = merge r) ->
  existsb same (upsert_rows same merge fresh rows) = true
  /\ Forall (fun r => same r = true -> merge r = r) (upsert_rows same merge fresh rows).
Proof.
  intros Hfresh Hmf Hmerge. unfold upsert_rows.
  destruct (existsb same rows) eqn:Hex.
  - split.
    + apply existsb_exists in Hex. destruct Hex as (r & Hin & Hr).
      apply existsb_exists. exists (merge r). split; [|apply Hmerge].
      apply in_map_iff. exists r. now rewrite Hr.
    + apply List.Forall_map, List.Forall_forall. intros r _.
      destruct (same r) eqn:Hr; [intros _; apply Hmerge|congruence].
  - split.
    + rewrite existsb_app. simpl. now rewrite Hfresh, orb_true_r.
    + apply Forall_app. split.
      * eapply Forall_impl; [apply existsb_false_forall, Hex|].
        intros r Hr. simpl in Hr. congruence.
      * repeat constructor. auto.
Qed.

Lemma update_rows_settled {A} (same matches : A -> bool) (merge patch : A -> A) rows :
  (forall r, same (patch r) = same r) ->
  (forall r, merge r = r -> merge (patch r) = patch r) ->
  existsb same rows = true /\ Forall (fun r => same r = true -> merge r = r) rows ->
  existsb same (update_rows matches patch rows) = true
  /\ Forall (fun r => same r = true -> merge r = r) (update_rows matches patch rows).
Proof.
  intros Hsame Hcomm [Hex Hfix]. unfold update_rows. split.
  - apply existsb_exists in Hex. destruct Hex as (r & Hin & Hr).
    apply existsb_exists. exists (if matches r then patch r else r).
    split; [apply in_map_iff; eauto|]. destruct (matches r); [now rewrite Hsame|exact Hr].
  - apply List.Forall_map. eapply Forall_impl; [exact Hfix|].
    intros r Hr. simpl. destruct (matches r); [|exact Hr].
    rewrite Hsame. intros H. apply Hcomm, Hr, H.
Qed.

Lemma update_rows_idem {A} (matches : A -> bool) (patch : A -> A) rows :
  (forall r, matches (patch r) = matches r) ->
  (forall r, patch (patch r) = patch r) ->
  update_rows matches patch (update_rows matches patch rows)
  = update_rows matches patch rows.
Proof.
  intros Hm Hp. unfold update_rows. apply map_idem, List.Forall_forall.
  intros r _. destruct (matches r) eqn:E; [now rewrite Hm, E, Hp|now rewrite E].
Qed.

Lemma is_sale_row_self sale r : sale_id r = VStr sale -> is_sale_row sale r = true.
Proof. unfold is_sale_row, conflicts. intros ->. simpl. apply String.eqb_refl. Qed.

Lemma sale_rows_settled p rows :
  existsb (is_sale_row (sale_id_of p)) (sale_rows p rows) = true
  /\ Forall (fun r => is_sale_row (sale_id_of p) r = true -> sale_merge p r = r)
       (sale_rows p rows).
Proof.
  apply upsert_rows_settles.
  - now apply is_sale_row_self.
  - reflexivity.
  - intros r. split; [now apply is_sale_row_self|reflexivity].
Qed.

Lemma linked_rows_settled p links rows :
  existsb (is_sale_row (sale_id_of p)) rows = true
  /\ Forall (fun r => is_sale_row (sale_id_of p) r = true -> sale_merge p r = r) rows ->
  existsb (is_sale_row (sale_id_of p)) (linked_rows (sale_id_of p) links rows) = true
  /\ Forall (fun r => is_sale_row (sale_id_of p) r = true -> sale_merge p r = r)
       (linked_rows (sale_id_of p) links rows).
Proof.
  apply update_rows_settled; [reflexivity|].
  intros r Hr. destruct r. unfold sale_merge in *. simpl in *. congruence.
Qed.

Lemma linked_rows_idem sale links rows :
  linked_rows sale links (linked_rows sale links rows) = linked_rows sale links rows.
Proof. apply update_rows_idem; reflexivity. Qed.

Lemma with_subscribers_twice l l' db :
  with_subscribers l (with_subscribers l' db) = with_subscribers l db.
Proof. reflexivity. Qed.

Lemma links_update_run sale pdf csv db :
  Gumroad.links_update o sale pdf csv db
  = (Ret tt,
     match db_result_of o GumroadLinksUpdate with
     | DbOk => with_subscribers (linked_rows sale (pdf, csv) (subscribers db)) db
     | _ => db
     end,
     [DbUpdate "subscribers" "sale_id"]).
Proof.
  unfold Gumroad.links_update, try_catch, bind, db_request, ret.
  destruct (db_result_of o GumroadLinksUpdate); reflexivity.
Qed.

(** The five conversions of a payload [handleSale] goes on to write. *)
Lemma writable_sale_inv p :
  writable_sale cfg p = true ->
  has_db cfg = true /\ nullish p = false
  /\ truthy (sale_id_of p) = true /\ truthy (sale_email_of p) = true
  /\ forall db,
       handleSale p db
       = (r <- Gumroad.sale_upsert o (sale_id_of p) (sale_email_of p) (product_of p)
                 (seller_of p) (name_of p);;
          match r with
          | Error message => ret (Gumroad.sale_failed message)
          | Data _ =>
              _ <- Gumroad.telegram_notify cfg o (sale_email_of p) (product_of p);;
              _ <- Gumroad.auto_invite Number_isFinite cfg o p;;
              pdf <- Gumroad.signed_url cfg "weekly/latest.pdf" (signed_pdf o);;
              csv <- Gumroad.signed_url cfg "weekly/latest.csv" (signed_csv o);;
              _ <- Gumroad.links_update o (sale_id_of p) pdf csv;;
              ret (Gumroad.sale_done pdf csv)
          end) db.
Proof.
  unfold writable_sale, sale_converts. intros Hw.
  repeat match goal with
         | H : _ && _ = true |- _ => apply andb_true_iff in H; destruct H
         end.
  destruct (nullish p) eqn:Hp; [discriminate|].
  split; [assumption|]. split; [reflexivity|]. split; [assumption|].
  split; [assumption|].
  intros db. unfold Gumroad.handleSale, Gumroad.supa, get, js_String.
  match goal with H : has_db cfg = true |- _ => rewrite H end.
  rewrite Hp, bind_ret, bind_lift.
  repeat match goal with
         | H : convertible _ = true |- _ => rewrite H; clear H
         end.
  rewrite !bind_lift.
  fold (sale_id_of p) (sale_email_of p) (product_of p) (seller_of p) (name_of p).
  match goal with
  | Hs : truthy (sale_id_of p) = true, He : truthy (sale_email_of p) = true |- _ =>
      rewrite Hs, He
  end.
  reflexivity.
Qed.

(** A sale that is written: the answer, the database, and the upsert at the
    head of the calls. *)
Lemma handleSale_written p db :
  writable_sale cfg p = true ->
  db_result_of o GumroadSaleUpsert = DbOk ->
  exists cs,
    handleSale p db
    = (Ret (Gumroad.sale_done (fst (links_of o)) (snd (links_of o))),
       sale_effect cfg o p db, DbUpsert "subscribers" "sale_id" :: cs).
Proof.
  intros Hw Hok. unfold sale_effect. rewrite Hw, Hok.
  destruct (writable_sale_inv p Hw) as (_ & _ & _ & _ & ->).
  destruct (telegram_notify_run (sale_email_of p) (product_of p)
              (with_subscribers (sale_rows p (subscribers db)) db)) as (c1 & E1 & _).
  destruct (auto_invite_run p (with_subscribers (sale_rows p (subscribers db)) db))
    as (c2 & E2 & _).
  eexists. etransitivity.
  { eapply bind_run;
      [unfold Gumroad.sale_upsert, db_request; rewrite Hok; reflexivity|].
    eapply bind_run; [exact E1|].
    eapply bind_run; [exact E2|].
    eapply bind_run; [reflexivity|].
    eapply bind_run; [reflexivity|].
    eapply bind_run; [apply links_update_run|].
    reflexivity. }
  unfold links_of. simpl.
  destruct (db_result_of o GumroadLinksUpdate); reflexivity.
Qed.

Lemma handleSale_refused p db :
  writable_sale cfg p = true ->
  db_result_of o GumroadSaleUpsert <> DbOk ->
  handleSale p db
  = (match db_result_of o GumroadSaleUpsert with
     | DbError m => Ret (Gumroad.sale_failed m)
     | DbThrow m => Throw m
     | DbOk => Ret VUndef
     end, db, [DbUpsert "subscribers" "sale_id"]).
Proof.
  intros Hw Hno. destruct (writable_sale_inv p Hw) as (_ & _ & _ & _ & ->).
  unfold bind, Gumroad.sale_upsert, db_request.
  destruct (db_result_of o GumroadSaleUpsert); [congruence|reflexivity..].
Qed.

(** A payload that is not written: [handleSale] stops before any call. *)
Lemma handleSale_skipped p db :
  writable_sale cfg p = false ->
  exists r, handleSale p db = (r, db, []).
Proof.
  intros Hw. unfold writable_sale, sale_converts in Hw.
  unfold Gumroad.handleSale, Gumroad.supa, get, js_String.
  destruct (has_db cfg); [|eexists; reflexivity]. rewrite bind_ret.
  destruct (nullish p); [eexists; reflexivity|]. rewrite bind_lift.
  repeat match goal with
         | |- context [if convertible ?v then _ else _] =>
             destruct (convertible v); [rewrite bind_lift|eexists; reflexivity]
         end.
  fold (sale_id_of p) (sale_email_of p). simpl in Hw.
  destruct (truthy (sale_id_of p)); [|eexists; reflexivity].
  destruct (truthy (sale_email_of p)); [discriminate|eexists; reflexivity].
Qed.

(** What [handleSale] does to the database. *)
Lemma handleSale_db p db : db_of (handleSale p db) = sale_effect cfg o p db.
Proof.
  destruct (writable_sale cfg p) eqn:Hw.
  - destruct (db_result_of o GumroadSaleUpsert) eqn:Hr.
    + now destruct (handleSale_written p db Hw Hr) as (cs & ->).
    + rewrite handleSale_refused by congruence.
      unfold sale_effect. now rewrite Hw, Hr.
    + rewrite handleSale_refused by congruence.
      unfold sale_effect. now rewrite Hw, Hr.
  - destruct (handleSale_skipped p db Hw) as (r & ->). unfold sale_effect.
    now rewrite Hw.
Qed.

Lemma sale_effect_idem p db :
  sale_effect cfg o p (sale_effect cfg o p db) = sale_effect cfg o p db.
Proof.
  unfold sale_effect. destruct (writable_sale cfg p); [|reflexivity].
  destruct (db_result_of o GumroadSaleUpsert); [|reflexivity..].
  pose proof (sale_rows_settled p (subscribers db)) as Hs.
  destruct (db_result_of o GumroadLinksUpdate).
  - rewrite with_subscribers_twice. f_equal.
    pose proof (linked_rows_settled p (links_of o) _ Hs) as [Hex Hfix].
    cbn [subscribers with_subscribers].
    unfold sale_rows at 1. rewrite upsert_rows_settled by assumption.
    apply linked_rows_idem.
  - rewrite with_subscribers_twice. f_equal. destruct Hs as [Hex Hfix].
    cbn [subscribers with_subscribers].
    unfold sale_rows at 1. now rewrite upsert_rows_settled.
  - rewrite with_subscribers_twice. f_equal. destruct Hs as [Hex Hfix].
    cbn [subscribers with_subscribers].
    unfold sale_rows at 1. now rewrite upsert_rows_settled.
Qed.

Lemma revoke_run p db :
  exists cs, Gumroad.revoke cfg o p db = (Ret tt, revoke_effect cfg o p db, cs).
Proof.
  unfold Gumroad.revoke, Gumroad.supa, try_catch, revoke_effect, js_String.
  fold (revoked_sale_value p).
  destruct (has_db cfg); [|eexists; reflexivity]. rewrite bind_ret.
  cbn [andb].
  destruct (convertible (revoked_sale_value p)); [|eexists; reflexivity].
  rewrite bind_lift. fold (revoked_sale_of p). cbn [andb].
  destruct (truthy (revoked_sale_of p)); [|eexists; reflexivity].
  unfold bind, db_request, ret.
  destruct (db_result_of o GumroadRevoke); eexists; reflexivity.
Qed.

Lemma revoked_rows_idem sale t rows :
  revoked_rows sale t (revoked_rows sale t rows) = revoked_rows sale t rows.
Proof. apply update_rows_idem; reflexivity. Qed.

Lemma revoke_effect_idem p db :
  revoke_effect cfg o p (revoke_effect cfg o p db) = revoke_effect cfg o p db.
Proof.
  unfold revoke_effect.
  destruct (has_db cfg && convertible (revoked_sale_value p)
            && truthy (revoked_sale_of p)); [|reflexivity].
  destruct (db_result_of o GumroadRevoke); [|reflexivity..].
  rewrite with_subscribers_twice. f_equal. apply revoked_rows_idem.
Qed.

Variable hmacSHA256Hex : string -> string -> string.
Variable JSON_parse : string -> option jsval.
Variable URLSearchParams_entries : string -> list (string * string).

Local Abbreviation dispatch := (Gumroad.dispatch Number_isFinite cfg o).
Local Abbreviation serve :=
  (Gumroad.serve hmacSHA256Hex JSON_parse URLSearchParams_entries Number_isFinite cfg o).

Lemma dispatch_db action p db :
  db_of (dispatch action p db)
  = if String.eqb action "sale" then sale_effect cfg o p db
    else if Gumroad.is_revocation action then revoke_effect cfg o p db
    else db.
Proof.
  unfold Gumroad.dispatch. destruct (String.eqb action "sale").
  - rewrite <- handleSale_db. unfold bind.
    now destruct (handleSale p db) as [[[r|m] db1] cs1].
  - destruct (Gumroad.is_revocation action); [|reflexivity].
    destruct (revoke_run p db) as (cs & E). unfold bind. now rewrite E.
Qed.

(** X13. A gumroad delivery that is replayed, with the remote services
    answering as they did and the clock unchanged, leaves the database as
    the first delivery left it: the upsert, the links update and the
    revocation all settle after one application. *)
Theorem X13_gumroad_replay_settles (req : request) (db : database) :
  db_of (serve req (db_of (serve req db))) = db_of (serve req db).
Proof.
  unfold Gumroad.serve. destruct (Gumroad.bodiless req); [reflexivity|].
  destruct (Gumroad.parseBody JSON_parse URLSearchParams_entries req) as [p|m];
    [|reflexivity].
  rewrite !bind_lift. destruct (Gumroad.actionOf p) as [action|m]; [|reflexivity].
  rewrite !bind_lift. destruct (String.eqb action "ping"); [reflexivity|].
  destruct (requireGumroadAuth cfg
            && negb (Gumroad.authed hmacSHA256Hex cfg req (body req) p)); [reflexivity|].
  rewrite !dispatch_db. destruct (String.eqb action "sale"); [apply sale_effect_idem|].
  destruct (Gumroad.is_revocation action); [apply revoke_effect_idem|reflexivity].
Qed.

(** X14. A sale that [handleSale] does not report as done has left the
    database as it was and has asked for nothing beyond the upsert: no
    notification, no invitation, no signed link. *)
Theorem X14_failed_sale_leaves_no_trace (p : jsval) (db : database) :
  (forall pdf csv, result_of (handleSale p db) <> Ret (Gumroad.sale_done pdf csv)) ->
  db_of (handleSale p db) = db
  /\ sublist (calls_of (handleSale p db)) [DbUpsert "subscribers" "sale_id"].
Proof.
  destruct (writable_sale cfg p) eqn:Hw.
  - destruct (db_result_of o GumroadSaleUpsert) eqn:Hr.
    + destruct (handleSale_written p db Hw Hr) as (cs & ->). intros H.
      exfalso. eapply H. reflexivity.
    + intros _. rewrite handleSale_refused by congruence. split; reflexivity.
    + intros _. rewrite handleSale_refused by congruence. split; reflexivity.
  - intros _. destruct (handleSale_skipped p db Hw) as (r & ->).
    split; [reflexivity|]. apply sublist_nil_l.
Qed.

(** X15. Without a database client the two writing branches differ: a sale
    makes the handler throw [supabase not configured], a revocation swallows
    the same error and is acknowledged; neither issues a call. *)
Theorem X15_gumroad_without_database (action : string) (p : jsval) (db : database) :
  has_db cfg = false ->
  dispatch "sale" p db = (Throw "supabase not configured", db, [])
  /\ (Gumroad.is_revocation action = true ->
      dispatch action p db
      = (Ret (Gumroad.respond (VObj [("ok", VBool true)])), db, [])).
Proof.
  intros Hdb. split.
  - unfold Gumroad.dispatch, Gumroad.handleSale, Gumroad.supa. now rewrite Hdb.
  - intros Hrev. unfold Gumroad.dispatch.
    destruct (String.eqb action "sale") eqn:E.
    + apply String.eqb_eq in E. subst. discriminate.
    + rewrite Hrev. unfold Gumroad.revoke, Gumroad.supa. now rewrite Hdb.
Qed.

Ltac returning :=
  repeat match goal with
    | |- returns _ (ret _) => simple apply returns_ret
    | |- returns _ (throw _) => simple apply returns_throw
    | |- returns _ (bind _ _) => simple apply returns_bind; intros ?
    | |- returns _ (try_catch _ _) => simple apply returns_try_catch; [|intros ?]
    | |- returns _ (if ?b then _ else _) => destruct b
    | |- returns _ (match ?x with _ => _ end) => destruct x
    end.

(** X16. Every response the gumroad handler returns is a JSON body with
    status 200, also for a delivery it rejects and for a sale it could not
    write: a failure shows in the body or as a thrown handler, never in the
    status. *)
Theorem X16_gumroad_answers_200 (req : request) (db : database) :
  match result_of (serve req db) with
  | Ret r => status r = 200%Z /\ exists v, content r = Json v
  | Throw _ => True
  end.
Proof.
  revert db. change (returns (fun r => status r = 200%Z /\ exists v, content r = Json v)
                       (serve req)).
  unfold Gumroad.serve, Gumroad.dispatch. returning; simpl; eauto.
Qed.

Lemma revoked_rows_spec sale t rows :
  Forall (fun r => column_is (sale_id r) sale = true -> revoked_at r = Some t)
    (revoked_rows sale t rows).
Proof.
  unfold revoked_rows, update_rows. apply List.Forall_map, List.Forall_forall.
  intros r _. destruct (column_is (sale_id r) sale) eqn:E; [reflexivity|].
  intros H. congruence.
Qed.

Lemma revoked_rows_keeps_sale sale sale' t rows :
  existsb (is_sale_row sale) rows = true ->
  existsb (is_sale_row sale) (revoked_rows sale' t rows) = true.
Proof.
  intros Hex. apply existsb_exists in Hex. destruct Hex as (r & Hin & Hr).
  apply existsb_exists.
  exists (if column_is (sale_id r) sale' then set_revoked t r else r).
  split.
  - unfold revoked_rows, update_rows. apply in_map_iff. eauto.
  - destruct (column_is (sale_id r) sale'); exact Hr.
Qed.

Lemma linked_rows_keeps_sale sale links rows :
  existsb (is_sale_row sale) rows = true ->
  existsb (is_sale_row sale) (linked_rows sale links rows) = true.
Proof.
  intros Hex. apply existsb_exists in Hex. destruct Hex as (r & Hin & Hr).
  apply existsb_exists.
  eexists. split.
  - unfold linked_rows, update_rows. apply in_map_iff. eauto.
  - simpl. destruct (column_is (sale_id r) sale); exact Hr.
Qed.

(** X17. A sale followed by its refund: when the sale is one [handleSale]
    writes (a database, a payload whose five fields convert, with a sale id
    and an email), the refund names the same sale id, and both writes are
    applied, the table holds a row for the sale, and every row of that sale
    carries the time of the refund in [revoked_at]. *)
Theorem X17_sale_then_refund_is_revoked (action : string) (p p' : jsval) (db : database) :
  writable_sale cfg p = true ->
  db_result_of o GumroadSaleUpsert = DbOk ->
  db_result_of o GumroadRevoke = DbOk ->
  Gumroad.is_revocation action = true ->
  js_String (revoked_sale_value p') = Ret (sale_id_of p) ->
  let db2 := db_of (dispatch action p' (db_of (dispatch "sale" p db))) in
  existsb (is_sale_row (sale_id_of p)) (subscribers db2) = true
  /\ Forall (fun r => sale_id r = VStr (sale_id_of p) -> revoked_at r = Some (now o))
       (subscribers db2).
Proof.
  intros Hw Hup Hrev Hact Hsame db2. subst db2. rewrite !dispatch_db.
  destruct (String.eqb action "sale") eqn:E;
    [apply String.eqb_eq in E; subst; discriminate|].
  rewrite Hact. cbn [String.eqb Ascii.eqb Bool.eqb andb].
  unfold revoke_effect, revoked_sale_of. rewrite <- (js_String_text _ _ Hsame), Hrev.
  destruct (writable_sale_inv p Hw) as (Hdb & _ & Hs & _).
  assert (Hconv : convertible (revoked_sale_value p') = true).
  { unfold js_String in Hsame. now destruct (convertible (revoked_sale_value p')). }
  rewrite Hdb, Hs, Hconv. cbn [andb subscribers with_subscribers].
  split.
  - apply revoked_rows_keeps_sale. unfold sale_effect. rewrite Hw, Hup.
    pose proof (sale_rows_settled p (subscribers db)) as [Hex _].
    destruct (db_result_of o GumroadLinksUpdate); cbn [subscribers with_subscribers];
      [apply linked_rows_keeps_sale|..]; exact Hex.
  - eapply Forall_impl; [apply revoked_rows_spec|]. intros r Hr Hid. simpl in *.
    apply Hr. rewrite Hid. unfold column_is. simpl. apply String.eqb_refl.
Qed.

End GumroadCoverage.

Section GumroadCoverageExamples.
Import JsString JsValue Http World Pipeline Coverage Fixtures Samples.

(** A sale without an e-mail address, against a database that works. *)
Lemma X14_witness :
  db_of (Gumroad.handleSale (Number_isFinite pf1) cfg0 all_ok gumroad_nameless
           db_with_subscriber) = db_with_subscriber
  /\ sublist
       (calls_of (Gumroad.handleSale (Number_isFinite pf1) cfg0 all_ok gumroad_nameless
                    db_with_subscriber))
       [DbUpsert "subscribers" "sale_id"].
Proof.
  apply (X14_failed_sale_leaves_no_trace (Number_isFinite pf1) cfg0 all_ok
           gumroad_nameless db_with_subscriber).
  intros pdf csv H. vm_compute in H. discriminate H.
Defined.

(** The same, when the database refuses the upsert. *)
Example failed_sale_refused_upsert :
  Gumroad.handleSale (Number_isFinite pf1) cfg0 failing gumroad_sale db_with_subscriber
  = (Ret (Gumroad.sale_failed "duplicate key"), db_with_subscriber,
     [DbUpsert "subscribers" "sale_id"]).
Proof. reflexivity. Qed.

(** A form with a repeated field. *)
Lemma X12_witness :
  prop (Gumroad.parseForm (fun _ => [("a", "1"); ("b", "x"); ("a", "2")]) "a=1&b=x&a=2") "a"
  = match last_value "a" [("a", "1"); ("b", "x"); ("a", "2")] with
    | Some v => VStr v
    | None => VUndef
    end.
Proof.
  apply (X12_form_fields_last_entry_wins (fun _ => [("a", "1"); ("b", "x"); ("a", "2")])
           "a=1&b=x&a=2" "a").
  reflexivity.
Defined.

(** A field named [__proto__] is not stored, and an absent field that a
    plain object inherits is outside the statement. *)
Example form_proto_entry_is_dropped :
  Gumroad.parseForm (fun _ => [("__proto__", "x"); ("a", "1")]) "__proto__=x&a=1"
  = VObj [("a", VStr "1")].
Proof. reflexivity. Qed.

Lemma X15_witness :
  Gumroad.dispatch (Number_isFinite pf1) cfg_no_db all_ok "sale" gumroad_sale
    db_with_subscriber
  = (Throw "supabase not configured", db_with_subscriber, [])
  /\ (Gumroad.is_revocation "refund" = true ->
      Gumroad.dispatch (Number_isFinite pf1) cfg_no_db all_ok "refund" gumroad_refund
        db_with_subscriber
      = (Ret (Gumroad.respond (VObj [("ok", VBool true)])), db_with_subscriber, [])).
Proof.
  apply (X15_gumroad_without_database (Number_isFinite pf1) cfg_no_db all_ok "refund"
           gumroad_refund db_with_subscriber).
  reflexivity.
Defined.

Lemma X17_witness :
  let db2 :=
    db_of (Gumroad.dispatch (Number_isFinite pf1) cfg0 all_ok "refund" gumroad_refund
             (db_of (Gumroad.dispatch (Number_isFinite pf1) cfg0 all_ok "sale"
                       gumroad_sale empty_database))) in
  existsb (is_sale_row (sale_id_of gumroad_sale)) (subscribers db2) = true
  /\ Forall (fun r => sale_id r = VStr (sale_id_of gumroad_sale) ->
                      revoked_at r = Some (now all_ok))
       (subscribers db2).
Proof.
  apply (X17_sale_then_refund_is_revoked (Number_isFinite pf1) cfg0 all_ok "refund"
           gumroad_sale gumroad_refund empty_database); reflexivity.
Defined.

(** The table after that sale and its refund. *)
Example sale_then_refund_table :
  subscribers
    (db_of (Gumroad.dispatch (Number_isFinite pf1) cfg0 all_ok "refund" gumroad_refund
              (db_of (Gumroad.dispatch (Number_isFinite pf1) cfg0 all_ok "sale"
                        gumroad_sale empty_database))))
  = [set_revoked "2025-01-01T00:00:00.000Z" subscriber_S1].
Proof. reflexivity. Qed.

End GumroadCoverageExamples.

(** ** The payhip handler *)

Section PayhipCoverage.
Import JsString JsValue Http World Pipeline Coverage.

Variable hmacSHA256Hex : string -> string -> string.
Variable JSON_parse : string -> option jsval.
Variable cfg : config.
Variable o : oracle.

Local Abbreviation serve := (Payhip.serve hmacSHA256Hex JSON_parse cfg o).
Local Abbreviation verifyHmac := (Payhip.verifyHmac hmacSHA256Hex cfg).

Lemma on_sale_run p db :
  exists r cs,
    Payhip.on_sale cfg o p db = (r, sale_part_db cfg o p db, cs)
    /\ if sale_part_ok cfg o p then r = Ret tt else exists m, r = Throw m.
Proof.
  unfold Payhip.on_sale, sale_part_db, sale_part_ok, payhip_email_of, js_String.
  fold (payhip_email_value p).
  destruct (convertible (payhip_email_value p)); cbn [andb].
  - rewrite bind_lift.
    destruct (truthy _); [|eexists _, _; split; reflexivity].
    unfold Payhip.upsert, Payhip.supa.
    destruct (has_db cfg); [|eexists _, _; split; [reflexivity|simpl; eauto]].
    rewrite bind_ret. unfold bind, db_request, ret.
    destruct (db_result_of o PayhipUpsert); eexists _, _; (split; [reflexivity|]);
      simpl; eauto.
  - destruct (truthy _); eexists _, _; (split; [reflexivity|]); simpl; eauto.
Qed.

Lemma on_refund_run p db :
  exists r cs, Payhip.on_refund cfg o p db = (r, refund_part_db cfg o p db, cs).
Proof.
  unfold Payhip.on_refund, Payhip.supa, refund_part_db, payhip_sale_of, js_String.
  fold (payhip_sale_value p).
  destruct (has_db cfg); [|eexists _, _; reflexivity]. rewrite bind_ret. cbn [andb].
  destruct (convertible (payhip_sale_value p)); [|eexists _, _; reflexivity].
  rewrite bind_lift. cbn [andb].
  destruct (truthy (to_text (payhip_sale_value p))); [|eexists _, _; reflexivity].
  unfold bind, db_request, ret.
  destruct (db_result_of o PayhipRevoke); eexists _, _; reflexivity.
Qed.

Lemma on_event_run event p db :
  exists cs, Payhip.on_event cfg o event p db = (Ret tt, event_effect cfg o event p db, cs).
Proof.
  unfold Payhip.on_event, event_effect, try_catch.
  destruct (Payhip.is_sale event); cbn [negb orb].
  - destruct (on_sale_run p db) as (r & cs & E & Hr). unfold bind at 1. rewrite E.
    destruct (sale_part_ok cfg o p).
    + subst r. cbn [andb]. destruct (Payhip.is_refund event).
      * destruct (on_refund_run p (sale_part_db cfg o p db)) as ([[]|m] & cs2 & ->);
          eexists; reflexivity.
      * eexists; reflexivity.
    + destruct Hr as (m & ->). eexists; reflexivity.
  - rewrite bind_ret. cbn [andb]. destruct (Payhip.is_refund event).
    + destruct (on_refund_run p db) as ([[]|m] & cs2 & ->); eexists; reflexivity.
    + eexists; reflexivity.
Qed.

(** X18. The outcome of the payhip handler depends on the method, the
    signature and the event name alone: 405 unless the method is POST, 401
    unless the signature verifies; then the handler throws when the event
    name of the payload cannot be converted to a string (the conversion sits
    outside the [try]), and otherwise it acknowledges, whatever else the
    payload holds and whatever the database does. *)
Theorem X18_payhip_answer (req : request) (db : database) :
  result_of (serve req db)
  = if negb (String.eqb (method req) "POST") then Ret Payhip.method_not_allowed
    else if negb (verifyHmac req (body req)) then Ret Payhip.unauthorized
    else
      let p := match JSON_parse (body req) with Some v => v | None => VObj [] end in
      match js_String (payhip_event_value p) with
      | Ret _ => Ret Payhip.acknowledged
      | Throw m => Throw m
      end.
Proof.
  unfold Payhip.serve. destruct (String.eqb (method req) "POST"); [|reflexivity].
  cbn [negb]. destruct (verifyHmac req (body req)); [|reflexivity]. cbn [negb].
  cbv zeta. unfold payhip_event_value.
  match goal with |- context [js_String ?v] => destruct (js_String v) as [event|m] end;
    [|reflexivity].
  rewrite bind_lift.
  destruct (truthy event); [|reflexivity].
  match goal with |- context [Payhip.on_event cfg o ?e ?p] =>
    destruct (on_event_run e p db) as (cs & E) end.
  unfold bind. now rewrite E.
Qed.

Lemma payhip_rows_settled e a b rows :
  existsb (fun r => conflicts (email r) (VStr e)) (payhip_rows e a b rows) = true
  /\ Forall (fun r => conflicts (email r) (VStr e) = true -> payhip_merge e a b r = r)
       (payhip_rows e a b rows).
Proof.
  apply upsert_rows_settles.
  - unfold conflicts. simpl. apply String.eqb_refl.
  - unfold payhip_merge, payhip_fresh, payhip_pick. simpl.
    destruct (truthy_val a), (truthy_val b); reflexivity.
  - intros r. split.
    + unfold conflicts. simpl. apply String.eqb_refl.
    + unfold payhip_merge, payhip_pick. simpl.
      destruct (truthy_val a), (truthy_val b); reflexivity.
Qed.

Lemma revoked_rows_settled e a b sale t rows :
  existsb (fun r => conflicts (email r) (VStr e)) rows = true
  /\ Forall (fun r => conflicts (email r) (VStr e) = true -> payhip_merge e a b r = r) rows ->
  existsb (fun r => conflicts (email r) (VStr e)) (revoked_rows sale t rows) = true
  /\ Forall (fun r => conflicts (email r) (VStr e) = true -> payhip_merge e a b r = r)
       (revoked_rows sale t rows).
Proof.
  apply update_rows_settled; [reflexivity|].
  intros r Hr. destruct r. unfold payhip_merge, set_revoked in *. simpl in *. congruence.
Qed.

Lemma sale_part_db_idem p db :
  sale_part_db cfg o p (sale_part_db cfg o p db) = sale_part_db cfg o p db.
Proof.
  unfold sale_part_db. destruct (payhip_email_of p) as [e|]; [|reflexivity].
  destruct (convertible (payhip_email_value p)); cbn [andb]; [|reflexivity].
  destruct (has_db cfg); [|reflexivity].
  destruct (db_result_of o PayhipUpsert); [|reflexivity..].
  rewrite with_subscribers_twice. f_equal. cbn [subscribers with_subscribers].
  destruct (payhip_rows_settled e (or_else (oget p "id") (oget p "order_id"))
              (oget p "product_id") (subscribers db)) as [Hex Hfix].
  unfold payhip_rows at 1. now rewrite upsert_rows_settled.
Qed.

Lemma refund_part_db_idem p db :
  refund_part_db cfg o p (refund_part_db cfg o p db) = refund_part_db cfg o p db.
Proof.
  unfold refund_part_db.
  destruct (has_db cfg && convertible (payhip_sale_value p) && truthy (payhip_sale_of p));
    [|reflexivity].
  destruct (db_result_of o PayhipRevoke); [|reflexivity..].
  rewrite with_subscribers_twice. f_equal. apply revoked_rows_idem.
Qed.

(** A sale and a refund in one delivery: the pair settles as well. *)
Lemma sale_refund_idem p db :
  refund_part_db cfg o p
    (sale_part_db cfg o p (refund_part_db cfg o p (sale_part_db cfg o p db)))
  = refund_part_db cfg o p (sale_part_db cfg o p db).
Proof.
  assert (H : sale_part_db cfg o p (refund_part_db cfg o p (sale_part_db cfg o p db))
              = refund_part_db cfg o p (sale_part_db cfg o p db));
    [|rewrite H; apply refund_part_db_idem].
  unfold sale_part_db. destruct (payhip_email_of p) as [e|]; [|reflexivity].
  destruct (convertible (payhip_email_value p)); cbn [andb]; [|reflexivity].
  destruct (has_db cfg) eqn:Hdb; [|reflexivity].
  destruct (db_result_of o PayhipUpsert); [|reflexivity..].
  unfold refund_part_db. rewrite Hdb. cbn [andb].
  destruct (convertible (payhip_sale_value p) && truthy (payhip_sale_of p));
    [destruct (db_result_of o PayhipRevoke)|];
    rewrite ?with_subscribers_twice; cbn [subscribers with_subscribers]; f_equal.
  - pose proof (revoked_rows_settled e _ _ (payhip_sale_of p) (now o) _
                  (payhip_rows_settled e (or_else (oget p "id") (oget p "order_id"))
                     (oget p "product_id") (subscribers db))) as [Hex Hfix].
    unfold payhip_rows at 1. now rewrite upsert_rows_settled.
  - destruct (payhip_rows_settled e (or_else (oget p "id") (oget p "order_id"))
                (oget p "product_id") (subscribers db)) as [Hex Hfix].
    unfold payhip_rows at 1. now rewrite upsert_rows_settled.
  - destruct (payhip_rows_settled e (or_else (oget p "id") (oget p "order_id"))
                (oget p "product_id") (subscribers db)) as [Hex Hfix].
    unfold payhip_rows at 1. now rewrite upsert_rows_settled.
  - destruct (payhip_rows_settled e (or_else (oget p "id") (oget p "order_id"))
                (oget p "product_id") (subscribers db)) as [Hex Hfix].
    unfold payhip_rows at 1. now rewrite upsert_rows_settled.
Qed.

Lemma event_effect_idem event p db :
  event_effect cfg o event p (event_effect cfg o event p db)
  = event_effect cfg o event p db.
Proof.
  unfold event_effect.
  destruct (Payhip.is_sale event); cbn [negb orb].
  - destruct (sale_part_ok cfg o p && Payhip.is_refund event).
    + apply sale_refund_idem.
    + apply sale_part_db_idem.
  - cbn [andb]. destruct (Payhip.is_refund event); [apply refund_part_db_idem|reflexivity].
Qed.

(** X19. A payhip delivery that is replayed, with the database answering as
    it did and the clock unchanged, leaves the database as the first delivery
    left it, also when one event name triggers both the upsert and the
    revocation. *)
Theorem X19_payhip_replay_settles (req : request) (db : database) :
  db_of (serve req (db_of (serve req db))) = db_of (serve req db).
Proof.
  unfold Payhip.serve. destruct (String.eqb (method req) "POST"); [|reflexivity].
  cbn [negb]. destruct (verifyHmac req (body req)); [|reflexivity]. cbn [negb].
  match goal with |- context [js_String ?v] => destruct (js_String v) as [event|m] end;
    [|reflexivity].
  rewrite !bind_lift.
  destruct (truthy event); [|reflexivity].
  match goal with |- context [Payhip.on_event cfg o ?e ?p] =>
    assert (H : forall d, db_of ((_ <- Payhip.on_event cfg o e p;; ret Payhip.acknowledged) d)
                          = event_effect cfg o e p d)
  end.
  { intros d. match goal with |- context [Payhip.on_event cfg o ?e ?p] =>
      destruct (on_event_run e p d) as (cs & E) end.
    unfold bind. now rewrite E. }
  rewrite !H. apply event_effect_idem.
Qed.

(** X20. Without a database client a verified payhip delivery whose event
    name converts to a string is still acknowledged: the missing client, and
    an email that does not convert, are swallowed by the [try], no call is
    issued and nothing changes. *)
Theorem X20_payhip_without_database (req : request) (db : database) :
  has_db cfg = false ->
  String.eqb (method req) "POST" = true ->
  verifyHmac req (body req) = true ->
  convertible
    (payhip_event_value
       (match JSON_parse (body req) with Some v => v | None => VObj [] end)) = true ->
  serve req db = (Ret Payhip.acknowledged, db, []).
Proof.
  intros Hdb Hpost Hsig Hconv. unfold Payhip.serve. rewrite Hpost, Hsig. cbn [negb].
  unfold payhip_event_value in Hconv. unfold js_String at 1. rewrite Hconv.
  rewrite bind_lift.
  destruct (truthy _); [|reflexivity].
  unfold Payhip.on_event, Payhip.on_sale, Payhip.on_refund, Payhip.upsert, Payhip.supa.
  rewrite Hdb.
  destruct (Payhip.is_sale _), (Payhip.is_refund _); try reflexivity;
    unfold js_String;
    repeat match goal with |- context [convertible ?v] => destruct (convertible v) end;
    try reflexivity;
    unfold try_catch, bind, lift, ret, throw;
    repeat match goal with |- context [truthy ?v] => destruct (truthy v) end;
    reflexivity.
Qed.

End PayhipCoverage.

Section PayhipCoverageExamples.
Import JsString JsValue Http World Pipeline Coverage Fixtures Samples.

Lemma X20_witness :
  Payhip.serve digest (JSON_parse pf1) cfg_no_db all_ok (payhip_signed payhip_sale_text)
    db_with_subscriber
  = (Ret Payhip.acknowledged, db_with_subscriber, []).
Proof.
  apply (X20_payhip_without_database digest (JSON_parse pf1) cfg_no_db all_ok
           (payhip_signed payhip_sale_text) db_with_subscriber); reflexivity.
Defined.

(** An event name that is an object with a [toString] of its own: the
    conversion throws before the [try] is entered. *)
Example payhip_event_name_throws :
  let parse := fun _ : string =>
    Some (VObj [("event", VObj [("toString", VNum 1)]); ("email", VStr "a@b.com")]) in
  Payhip.serve digest parse cfg0 all_ok (payhip_signed payhip_sale_text) empty_database
  = (Throw "Cannot convert object to primitive value", empty_database, []).
Proof. reflexivity. Qed.

End PayhipCoverageExamples.

(** ** The entitlement upsert of a sale *)

Section EntitlementUpserts.
Import JsString JsValue Http World Pipeline Coverage.

Variable pf : platform.
Variable cfg : config.
Variable o : oracle.

Lemma stripe_sale_upserts req db :
  sells pf stripe cfg o req db ->
  In (DbUpsert "premium_subscriptions" "stripe_checkout_session_id")
    (calls_of (deliver pf stripe cfg o req db)).
Proof.
  intros (evt & n & db' & pre & Ha & Hn & Hdb & Hst & Hty & Hnorm & Hmail & Hcust).
  simpl. rewrite (serve_through pf cfg o req evt db db' pre Ha Hn Hst).
  unfold calls_of at 1. cbn [snd].
  rewrite (process_calls_exact cfg o evt n db' Hn Hdb Hty Hnorm Hmail Hcust).
  apply in_or_app. right. unfold processing_calls. simpl. auto.
Qed.

Lemma gumroad_sale_upserts req db :
  sells pf gumroad cfg o req db ->
  In (DbUpsert "subscribers" "sale_id") (calls_of (deliver pf gumroad cfg o req db)).
Proof.
  intros (Hbody & pl & Hp & Ha & Hauth & Hw). simpl.
  unfold Gumroad.serve. rewrite Hbody, Hp, bind_lift, Ha, bind_lift.
  cbn [String.eqb Ascii.eqb Bool.eqb].
  assert (requireGumroadAuth cfg
          && negb (Gumroad.authed (hmacSHA256Hex pf) cfg req (body req) pl) = false) as ->.
  { destruct Hauth as [-> | ->]; [reflexivity|apply andb_false_r]. }
  unfold Gumroad.dispatch. cbn [String.eqb Ascii.eqb Bool.eqb].
  match goal with |- In _ (calls_of (bind ?m ?k db)) =>
    destruct (bind_calls m k db) as (cs & ->) end.
  apply in_or_app. left.
  destruct (writable_sale_inv (Number_isFinite pf) cfg o pl Hw) as (_ & _ & _ & _ & ->).
  match goal with |- In _ (calls_of (bind ?m ?k db)) =>
    destruct (bind_calls m k db) as (cs' & ->) end.
  apply in_or_app. left.
  unfold Gumroad.sale_upsert, db_request, calls_of.
  destruct (db_result_of o GumroadSaleUpsert); simpl; auto.
Qed.

Lemma payhip_sale_upserts req db :
  sells pf payhip cfg o req db ->
  In (DbUpsert "subscribers" "email") (calls_of (deliver pf payhip cfg o req db)).
Proof.
  intros (event & e & Hm & Hv & Hev & Hsale & He & Hte & Hdb). simpl.
  unfold Payhip.serve. fold (payhip_payload pf req).
  rewrite Hm, Hv. cbn [negb String.eqb Ascii.eqb Bool.eqb].
  unfold payhip_event_value in Hev. rewrite Hev, bind_lift.
  assert (Htruthy : truthy event = true).
  { destruct event; [discriminate Hsale|reflexivity]. }
  rewrite Htruthy.
  match goal with |- In _ (calls_of (bind ?m ?k db)) =>
    destruct (bind_calls m k db) as (cs & ->) end.
  apply in_or_app. left. unfold Payhip.on_event. rewrite Hsale.
  match goal with |- In _ (calls_of (try_catch ?m ?h db)) =>
    destruct (try_catch_calls m h db) as (cs1 & ->) end.
  apply in_or_app. left.
  match goal with |- In _ (calls_of (bind ?m ?k db)) =>
    destruct (bind_calls m k db) as (cs2 & ->) end.
  apply in_or_app. left.
  unfold Payhip.on_sale. unfold payhip_email_value in He. rewrite He, bind_lift, Hte.
  unfold Payhip.upsert, Payhip.supa. rewrite Hdb, bind_ret.
  match goal with |- In _ (calls_of (bind ?m ?k db)) =>
    destruct (bind_calls m k db) as (cs3 & ->) end.
  apply in_or_app. left.
  unfold db_request, calls_of.
  destruct (db_result_of o PayhipUpsert); simpl; auto.
Qed.

(** C9 (as amended). A sale event that passes its adapter's checks makes
    the adapter issue an upsert on its entitlement table with the adapter's
    conflict column, and whatever is delivered, every upsert an adapter
    issues on that table names that one column: the card-processor adapter
    upserts [premium_subscriptions] on [stripe_checkout_session_id], the
    gumroad adapter upserts [subscribers] on [sale_id], and the payhip
    adapter upserts [subscribers] on [email]. The checks are: on the card
    processor, a [checkout.session.completed] or [payment_intent.succeeded]
    event, signed and delivered to a configured handler (not a GET; webhook
    secret, mail key and sender set), that the ledger lets through, that
    normalises and has a buyer email, with a database client and a customers
    upsert that does not throw; on gumroad, a request that is neither GET
    nor HEAD, whose action is [sale], that passes the optional
    authentication, whose five fields convert to strings, with a sale id, an
    email and a database client; on payhip, a signed POST whose event name
    contains sale, purchase or completed and whose buyer email converts to a
    non-empty string, with a database client. *)
Theorem C9_entitlement_conflict_keys (p : provider) (req : request) (db : database) :
  (sells pf p cfg o req db ->
   In (DbUpsert (entitlement_table p) (entitlement_key p))
     (calls_of (deliver pf p cfg o req db)))
  /\ Forall (fun c => forall table key,
               c = DbUpsert table key ->
               table = entitlement_table p ->
               key = entitlement_key p)
       (calls_of (deliver pf p cfg o req db)).
Proof.
  split.
  - destruct p.
    + apply stripe_sale_upserts.
    + apply gumroad_sale_upserts.
    + apply payhip_sale_upserts.
  - assert (H : Forall (fun c => conflict_key_ok p c = true)
                  (calls_of (deliver pf p cfg o req db))).
    { destruct p.
      - apply stripe_conflict_keys.
      - apply gumroad_conflict_keys.
      - apply payhip_conflict_keys. }
    eapply Forall_impl; [exact H|].
    intros c Hc table key -> ->. simpl in Hc.
    rewrite String.eqb_refl in Hc. now apply String.eqb_eq.
Qed.

End EntitlementUpserts.

Section EntitlementUpsertExamples.
Import JsString JsValue Http World Pipeline Coverage Fixtures Samples.

(** A signed gumroad sale. *)
Lemma C9_witness :
  In (DbUpsert (entitlement_table gumroad) (entitlement_key gumroad))
    (calls_of (deliver pf1 gumroad cfg0 all_ok (gumroad_signed gumroad_sale_text)
                 empty_database)).
Proof.
  refine (proj1 (C9_entitlement_conflict_keys pf1 cfg0 all_ok gumroad
                   (gumroad_signed gumroad_sale_text) empty_database) _).
  split; [reflexivity|]. exists gumroad_sale.
  split; [reflexivity|]. split; [reflexivity|]. split; [right; reflexivity|reflexivity].
Defined.

(** The three adapters on a sale each: one upsert on the entitlement table,
    on the adapter's column. *)
Example sale_upserts :
  calls_of (deliver pf1 stripe cfg0 all_ok (signed checkout_text) empty_database)
  = [DbUpsert "stripe_event_ledger" "event_id";
     DbUpsert "customers" "stripe_customer_id";
     DbUpsert "premium_subscriptions" "stripe_checkout_session_id";
     BrevoSend (VStr "a@b.com") Stripe.subject "Premium Access";
     DbInsert "onboarding_emails"]
  /\ calls_of (deliver pf1 gumroad cfg0 all_ok (gumroad_signed gumroad_sale_text)
                empty_database)
     = [DbUpsert "subscribers" "sale_id";
        SignedUrl "trenddrop-reports" "weekly/latest.pdf";
        SignedUrl "trenddrop-reports" "weekly/latest.csv";
        DbUpdate "subscribers" "sale_id"]
  /\ calls_of (deliver pf1 payhip cfg0 all_ok (payhip_signed payhip_sale_text)
                empty_database)
     = [DbUpsert "subscribers" "email"].
Proof. repeat split. Qed.

(** C9 as stated fails in both of its parts. A signed payhip sale is
    upserted into [subscribers] on the conflict column [email], not on the
    sale id. And not every sale or subscription event is upserted: a signed
    [invoice.paid] with a buyer email is sent its email with no upsert on
    [premium_subscriptions]; nor is a checkout that names no buyer, one
    that does not normalise, one that the ledger has seen, one whose
    customers upsert throws, or one delivered without a database client or
    without the mail key; a
    gumroad sale without an email, or without a database client, and a
    payhip sale without an email, or without a database client, issue no
    upsert either. *)
Lemma C9_payhip_upserts_on_email :
  deliver pf1 payhip cfg0 all_ok (payhip_signed payhip_sale_text) empty_database
  = (Ret Payhip.acknowledged,
     with_subscribers
       [{| sale_id := VStr "P1"; World.email := VStr "a@b.com"; product_id := VNull;
           seller_id := VNull; full_name := VNull; source := VStr "payhip";
           revoked_at := None; pdf_url := None; csv_url := None |}]
       empty_database,
     [DbUpsert "subscribers" "email"])
  /\ calls_of (deliver pf1 stripe cfg0 all_ok (signed invoice_text) empty_database)
     = [DbUpsert "stripe_event_ledger" "event_id";
        BrevoSend (VStr "a@b.com") Stripe.subject "Premium Access";
        DbInsert "onboarding_emails"]
  /\ calls_of (deliver pf1 stripe cfg0 all_ok (signed checkout_anonymous_text)
                empty_database)
     = [DbUpsert "stripe_event_ledger" "event_id"]
  /\ calls_of (deliver pf1 stripe cfg0 all_ok (signed odd_name_text) empty_database)
     = [DbUpsert "stripe_event_ledger" "event_id"]
  /\ calls_of (deliver pf1 stripe cfg0 all_ok (signed checkout_text) db_seen)
     = [DbUpsert "stripe_event_ledger" "event_id"]
  /\ calls_of (deliver pf1 stripe cfg0 customers_down (signed checkout_text)
                empty_database)
     = [DbUpsert "stripe_event_ledger" "event_id";
        DbUpsert "customers" "stripe_customer_id";
        BrevoSend (VStr "a@b.com") Stripe.subject "Premium Access";
        DbInsert "onboarding_emails"]
  /\ calls_of (deliver pf1 stripe cfg_no_db all_ok (signed checkout_text) empty_database)
     = [BrevoSend (VStr "a@b.com") Stripe.subject "Premium Access"]
  /\ deliver pf1 stripe cfg_no_mail all_ok (signed checkout_text) empty_database
     = (Ret (Stripe.bad "server not configured (email)" 500), empty_database, [])
  /\ deliver pf1 gumroad cfg0 all_ok (gumroad_signed gumroad_nameless_text) empty_database
     = (Ret (Gumroad.respond (Gumroad.sale_failed "missing_sale_or_email")),
        empty_database, [])
  /\ deliver pf1 gumroad cfg_no_db all_ok (gumroad_signed gumroad_sale_text)
       empty_database
     = (Throw "supabase not configured", empty_database, [])
  /\ deliver pf1 payhip cfg0 all_ok (payhip_signed payhip_nameless_text) empty_database
     = (Ret Payhip.acknowledged, empty_database, [])
  /\ deliver pf1 payhip cfg_no_db all_ok (payhip_signed payhip_sale_text) empty_database
     = (Ret Payhip.acknowledged, empty_database, []).
Proof. repeat split. Qed.

End EntitlementUpsertExamples.

(** ** The client helper beyond its failure paths *)

Section ClientCoverage.
Import JsString JsValue World PremiumStatus.

Variable fetch : jsval -> fetch_result.

(** X21. [getPremiumStatus] depends on the email only through its trimmed,
    lower-cased form: two spellings of one address get the same answer. *)
Theorem X21_client_ignores_case_and_padding (a b : string) :
  toLowerCase (trim a) = toLowerCase (trim b) ->
  getPremiumStatus fetch a = getPremiumStatus fetch b.
Proof.
  intros H. unfold getPremiumStatus. rewrite H.
  rewrite <- (truthy_toLowerCase (trim a)), <- (truthy_toLowerCase (trim b)), H.
  reflexivity.
Qed.

(** X22. The helper reports a premium member only when the request went out
    for a non-blank email, the response status was in 200-299 and the body
    carried a truthy [isPremium]; the member is then the body's, or [null]
    when the body has none. *)
Theorem X22_client_premium_only_from_the_service (email : string)
    (r : PremiumStatusResponse) :
  getPremiumStatus fetch email = Ret r ->
  isPremium r = true ->
  truthy (trim email) = true
  /\ exists code text data,
       fetch (VObj [("email", VStr (toLowerCase (trim email)))])
       = FetchResponse code text (Ret data)
       /\ res_ok code = true
       /\ truthy_val (prop data "isPremium") = true
       /\ member r = coalesce (prop data "member") VNull.
Proof.
  unfold getPremiumStatus. destruct (truthy (trim email)); simpl;
    [|intros [= <-]; discriminate].
  destruct (fetch _) as [m|code text json]; simpl; [intros [= <-]; discriminate|].
  destruct (res_ok code) eqn:Hok; simpl; [|intros [= <-]; discriminate].
  destruct json as [data|m]; simpl; [|intros [= <-]; discriminate].
  unfold get. destruct (nullish data); simpl; [intros [= <-]; discriminate|].
  intros [= <-]. simpl. intros Hp. split; [reflexivity|].
  exists code, text, data. auto.
Qed.

End ClientCoverage.

Section ClientCoverageExamples.
Import JsString JsValue World PremiumStatus.

Lemma X21_witness :
  getPremiumStatus (fun _ => FetchRejected "offline") "  Ann@Example.COM "
  = getPremiumStatus (fun _ => FetchRejected "offline") "ann@example.com".
Proof.
  apply (X21_client_ignores_case_and_padding (fun _ => FetchRejected "offline")
           "  Ann@Example.COM " "ann@example.com").
  reflexivity.
Defined.

Lemma X22_witness :
  truthy (trim "ann@example.com") = true
  /\ exists code text data,
       (fun _ : jsval =>
          FetchResponse 200 (Ret "body")
            (Ret (VObj [("isPremium", VBool true); ("member", VObj [])])))
         (VObj [("email", VStr (toLowerCase (trim "ann@example.com")))])
       = FetchResponse code text (Ret data)
       /\ res_ok code = true
       /\ truthy_val (prop data "isPremium") = true
       /\ member {| isPremium := true; member := VObj []; error := VUndef |}
          = coalesce (prop data "member") VNull.
Proof.
  apply (X22_client_premium_only_from_the_service
           (fun _ => FetchResponse 200 (Ret "body")
                       (Ret (VObj [("isPremium", VBool true); ("member", VObj [])])))
           "ann@example.com"
           {| isPremium := true; member := VObj []; error := VUndef |});
    reflexivity.
Defined.

End ClientCoverageExamples.

(** ** The configuration file *)

Section ConfigCoverage.
Import JsString JsValue Http ConfigFile.

Variable createSupabaseClient : string -> string -> outcome unit.

Local Abbreviation load := (ConfigFile.load createSupabaseClient).

Lemma read_some env name v :
  read env name = Some v -> truthy v = true /\ trim v = v.
Proof.
  unfold read. destruct (env !! name) as [raw|]; [|discriminate].
  destruct (Nat.eqb (String.length (trim raw)) 0) eqn:E; [discriminate|].
  intros [= <-]. split; [|apply trim_idem].
  destruct (trim raw); [discriminate|reflexivity].
Qed.

(** X23. A setting that [read] returns is never empty and carries no white
    space at either end: it is the trimmed value of a variable that is set. *)
Theorem X23_read_is_trimmed_and_non_empty (env : gmap string string) (name v : string) :
  read env name = Some v ->
  truthy v = true /\ trim v = v
  /\ exists raw, env !! name = Some raw /\ v = trim raw.
Proof.
  intros H. destruct (read_some env name v H) as [Ht Hv].
  split; [exact Ht|split; [exact Hv|]].
  unfold read in H. destruct (env !! name) as [raw|]; [|discriminate].
  destruct (Nat.eqb (String.length (trim raw)) 0); [discriminate|].
  injection H as <-. now exists raw.
Qed.

(** X24. In live mode the settings themselves never make the import
    throw, whatever the environment holds: loading can fail only inside the
    client constructor, which is called exactly when both Supabase settings
    are set and not blank, and then with the error of that constructor. When
    the configuration loads, the database client exists exactly when both
    settings are set and not blank. *)
Theorem X24_live_configuration_always_loads (env : gmap string string) :
  isLive env = true ->
  match load env with
  | Ret c =>
      has_db c = true <->
      exists url key,
        read env "SUPABASE_URL" = Some url
        /\ read env "SUPABASE_SERVICE_ROLE_KEY" = Some key
  | Throw m =>
      exists url key,
        read env "SUPABASE_URL" = Some url
        /\ read env "SUPABASE_SERVICE_ROLE_KEY" = Some key
        /\ createSupabaseClient url key = Throw m
  end.
Proof.
  intros Hlive. unfold load, supabase_setting. rewrite Hlive.
  destruct (read env "SUPABASE_URL") as [url|] eqn:Hu;
    destruct (read env "SUPABASE_SERVICE_ROLE_KEY") as [key|] eqn:Hk; cbn [obind].
  - destruct (read_some _ _ _ Hu) as [Htu _], (read_some _ _ _ Hk) as [Htk _].
    rewrite Htu, Htk. cbn [andb].
    destruct (createSupabaseClient url key) as [[]|m] eqn:Hc; cbn [obind].
    + unfold has_db. simpl. rewrite Htu, Htk. split; [eauto|reflexivity].
    + exists url, key. auto.
  - cbn [truthy andb]. rewrite andb_false_r. cbn [obind]. unfold has_db. simpl.
    rewrite andb_false_r. split; [discriminate|]. intros (? & ? & _ & ?). discriminate.
  - cbn [truthy andb obind]. unfold has_db. simpl.
    split; [discriminate|]. intros (? & ? & ? & _). discriminate.
  - cbn [truthy andb obind]. unfold has_db. simpl.
    split; [discriminate|]. intros (? & ? & ? & _). discriminate.
Qed.

(** X25. In test mode loading fails fast: it throws, naming the first
    Supabase setting that is unset or blank, or, when both are set, with the
    error of the client constructor; a configuration that does load always
    has its database client. *)
Theorem X25_test_configuration_fails_fast (env : gmap string string) :
  isLive env = false ->
  match load env with
  | Ret c => has_db c = true
  | Throw m =>
      (read env "SUPABASE_URL" = None
       /\ m = "[config] missing required env SUPABASE_URL")
      \/ (read env "SUPABASE_URL" <> None
          /\ read env "SUPABASE_SERVICE_ROLE_KEY" = None
          /\ m = "[config] missing required env SUPABASE_SERVICE_ROLE_KEY")
      \/ (exists url key,
            read env "SUPABASE_URL" = Some url
            /\ read env "SUPABASE_SERVICE_ROLE_KEY" = Some key
            /\ createSupabaseClient url key = Throw m)
  end.
Proof.
  intros Htest. unfold load, supabase_setting, requireEnv. rewrite Htest.
  destruct (read env "SUPABASE_URL") as [url|] eqn:Hu; cbn [obind]; [|now left].
  destruct (read env "SUPABASE_SERVICE_ROLE_KEY") as [key|] eqn:Hk; cbn [obind].
  - destruct (read_some _ _ _ Hu) as [Htu _], (read_some _ _ _ Hk) as [Htk _].
    rewrite Htu, Htk. cbn [andb].
    destruct (createSupabaseClient url key) as [[]|m] eqn:Hc; cbn [obind].
    + unfold has_db. simpl. now rewrite Htu, Htk.
    + right. right. exists url, key. auto.
  - right. left. split; [discriminate|]. split; reflexivity.
Qed.

End ConfigCoverage.

Section ConfigCoverageExamples.
Import JsString JsValue Http ConfigFile Fixtures.

Lemma X23_witness :
  truthy "whsec_1" = true /\ trim "whsec_1" = "whsec_1"
  /\ exists raw,
       ({[ "STRIPE_WEBHOOK_SECRET" := "  whsec_1 " ]} : gmap string string)
         !! "STRIPE_WEBHOOK_SECRET" = Some raw
       /\ "whsec_1" = trim raw.
Proof.
  apply (X23_read_is_trimmed_and_non_empty
           {[ "STRIPE_WEBHOOK_SECRET" := "  whsec_1 " ]} "STRIPE_WEBHOOK_SECRET" "whsec_1").
  vm_compute. reflexivity.
Defined.

Lemma X24_witness :
  match load https_only {[ "SUPABASE_URL" := "   " ]} with
  | Ret c =>
      has_db c = true <->
      exists url key,
        read {[ "SUPABASE_URL" := "   " ]} "SUPABASE_URL" = Some url
        /\ read {[ "SUPABASE_URL" := "   " ]} "SUPABASE_SERVICE_ROLE_KEY" = Some key
  | Throw m =>
      exists url key,
        read {[ "SUPABASE_URL" := "   " ]} "SUPABASE_URL" = Some url
        /\ read {[ "SUPABASE_URL" := "   " ]} "SUPABASE_SERVICE_ROLE_KEY" = Some key
        /\ https_only url key = Throw m
  end.
Proof.
  apply (X24_live_configuration_always_loads https_only {[ "SUPABASE_URL" := "   " ]}).
  vm_compute. reflexivity.
Defined.

(** Both settings present and a URL the constructor cannot parse: the
    import throws in live mode as well. *)
Example live_mode_invalid_url :
  load https_only {[ "SUPABASE_URL" := "db.test"; "SUPABASE_SERVICE_ROLE_KEY" := "k" ]}
  = Throw "Invalid URL".
Proof. vm_compute. reflexivity. Qed.

Lemma X25_witness :
  match load https_only {[ "MODE" := "Test"; "SUPABASE_URL" := "https://db.test" ]} with
  | Ret c => has_db c = true
  | Throw m =>
      (read {[ "MODE" := "Test"; "SUPABASE_URL" := "https://db.test" ]} "SUPABASE_URL"
       = None
       /\ m = "[config] missing required env SUPABASE_URL")
      \/ (read {[ "MODE" := "Test"; "SUPABASE_URL" := "https://db.test" ]} "SUPABASE_URL"
          <> None
          /\ read {[ "MODE" := "Test"; "SUPABASE_URL" := "https://db.test" ]}
               "SUPABASE_SERVICE_ROLE_KEY" = None
          /\ m = "[config] missing required env SUPABASE_SERVICE_ROLE_KEY")
      \/ (exists url key,
            read {[ "MODE" := "Test"; "SUPABASE_URL" := "https://db.test" ]} "SUPABASE_URL"
            = Some url
            /\ read {[ "MODE" := "Test"; "SUPABASE_URL" := "https://db.test" ]}
                 "SUPABASE_SERVICE_ROLE_KEY" = Some key
            /\ https_only url key = Throw m)
  end.
Proof.
  apply (X25_test_configuration_fails_fast https_only
           {[ "MODE" := "Test"; "SUPABASE_URL" := "https://db.test" ]}).
  vm_compute. reflexivity.
Defined.

(** That environment makes the import throw. *)
Example test_mode_missing_key :
  load https_only {[ "MODE" := "Test"; "SUPABASE_URL" := "https://db.test" ]}
  = Throw "[config] missing required env SUPABASE_SERVICE_ROLE_KEY".
Proof. vm_compute. reflexivity. Qed.

End ConfigCoverageExamples.

(** ** The premium-status function *)

Section FunctionCoverage.
Import JsString JsValue Http World PremiumStatusFunction.

Variable JSON_parse : string -> option jsval.
Variable db : bool.
Variable query : string -> query_result.

Local Abbreviation getEmailFromRequest := (PremiumStatusFunction.getEmailFromRequest JSON_parse).
Local Abbreviation serve := (PremiumStatusFunction.serve JSON_parse db query).

Lemma normal_form s :
  truthy (trim s) = true ->
  truthy (toLowerCase (trim s)) = true
  /\ trim (toLowerCase (trim s)) = toLowerCase (trim s)
  /\ toLowerCase (toLowerCase (trim s)) = toLowerCase (trim s).
Proof.
  intros H. split; [now rewrite truthy_toLowerCase|].
  split; [now rewrite trim_toLowerCase, trim_idem|apply toLowerCase_idem].
Qed.

Lemma body_email_normal b e :
  body_email b = Some e -> truthy e = true /\ trim e = e /\ toLowerCase e = e.
Proof.
  unfold body_email. destruct (truthy_val _); [|discriminate].
  destruct (oget b "email"); try discriminate.
  destruct (truthy (trim s)) eqn:E; [|discriminate].
  intros [= <-]. now apply normal_form.
Qed.

Lemma getEmailFromRequest_normal r e :
  getEmailFromRequest r = Some e -> truthy e = true /\ trim e = e /\ toLowerCase e = e.
Proof.
  unfold PremiumStatusFunction.getEmailFromRequest.
  assert (Hbody : forall e',
    (if String.eqb (method (req r)) "POST" then
       match header (req r) "content-type" with
       | Some ct =>
           if includes "application/json" ct then
             match JSON_parse (body (req r)) with
             | Some b => body_email b
             | None => None
             end
           else None
       | None => None
       end
     else None) = Some e' ->
    truthy e' = true /\ trim e' = e' /\ toLowerCase e' = e').
  { intros e'. destruct (String.eqb (method (req r)) "POST"); [|discriminate].
    destruct (header (req r) "content-type") as [ct|]; [|discriminate].
    destruct (includes "application/json" ct); [|discriminate].
    destruct (JSON_parse (body (req r))) as [b|]; [|discriminate].
    apply body_email_normal. }
  destruct (searchParams r !! "email") as [qp|]; [|apply Hbody].
  destruct (truthy qp); cbn [andb]; [|apply Hbody].
  destruct (truthy (trim qp)) eqn:E; [|apply Hbody].
  intros [= <-]. now apply normal_form.
Qed.

(** X26. The email the function looks up is always in normal form: not
    empty, without white space at either end and in lower case, whether it
    came from the query string or from the JSON body. *)
Theorem X26_looked_up_email_is_normalised (r : url_request) (e : string) :
  getEmailFromRequest r = Some e ->
  truthy e = true /\ trim e = e /\ toLowerCase e = e.
Proof. apply getEmailFromRequest_normal. Qed.

(** X27. The function answers [isPremium: true] only with status 200, for an
    email it found in the request, and when the query returned at least one
    row; the member it reports is then the first row. *)
Theorem X27_premium_only_from_a_row (r : url_request) (v : jsval) :
  content (serve r) = Json v ->
  prop v "isPremium" = VBool true ->
  status (serve r) = 200%Z
  /\ exists e row rows,
       getEmailFromRequest r = Some e
       /\ query e = QueryData (Some (row :: rows))
       /\ prop v "member" = row.
Proof.
  unfold PremiumStatusFunction.serve.
  destruct (String.eqb (method (req r)) "OPTIONS"); [intros [= <-]; discriminate|].
  destruct db; cbn [negb]; [|intros [= <-]; discriminate].
  destruct (getEmailFromRequest r) as [e|] eqn:He; cbn [truthy_opt].
  - destruct (getEmailFromRequest_normal r e He) as [-> _]. cbn [negb andb].
    unfold lookup. destruct (query e) as [|data|m] eqn:Hq;
      [intros [= <-]; discriminate| |intros [= <-]; discriminate].
    destruct data as [[|row rows]|]; intros [= <-]; simpl; try discriminate.
    intros _. split; [reflexivity|]. now exists e, row, rows.
  - cbn [negb andb]. destruct (String.eqb (method (req r)) "GET");
      intros [= <-]; discriminate.
Qed.

(** X28. The helper and the function together: when the helper's request
    reaches a configured function and the answer comes back as sent, the
    helper reports a premium member exactly when the query for the trimmed,
    lower-cased email returns a row. *)
Theorem X28_helper_and_function_agree (fetch : jsval -> PremiumStatus.fetch_result)
    (email text : string) (v : jsval) (t : outcome string) :
  db = true ->
  truthy (trim email) = true ->
  JSON_parse text = Some (VObj [("email", VStr (toLowerCase (trim email)))]) ->
  content (serve (posted text)) = Json v ->
  fetch (VObj [("email", VStr (toLowerCase (trim email)))])
  = PremiumStatus.FetchResponse (status (serve (posted text))) t (Ret v) ->
  exists res,
    PremiumStatus.getPremiumStatus fetch email = Ret res
    /\ (PremiumStatus.isPremium res = true <->
        exists row rows,
          query (toLowerCase (trim email)) = QueryData (Some (row :: rows))
          /\ truthy_val row = true).
Proof.
  intros Hdb Hemail Hparse Hcontent Hfetch.
  destruct (normal_form email Hemail) as (Ht & Htrim & Hlow).
  assert (Hget : getEmailFromRequest (posted text) = Some (toLowerCase (trim email))).
  { unfold PremiumStatusFunction.getEmailFromRequest, posted. simpl.
    rewrite lookup_empty. unfold header. simpl. rewrite lookup_singleton. simpl.
    rewrite Hparse. unfold body_email. simpl. now rewrite Ht, Htrim, Ht, Hlow. }
  unfold PremiumStatus.getPremiumStatus. rewrite Hemail, Hfetch. cbn [negb].
  revert Hcontent. unfold PremiumStatusFunction.serve. simpl (method _).
  cbn [String.eqb Ascii.eqb Bool.eqb]. rewrite Hdb, Hget. cbn [negb truthy_opt].
  rewrite Ht. cbn [negb andb]. unfold lookup.
  destruct (query (toLowerCase (trim email))) as [|data|m]; intros [= <-]; simpl.
  - eexists; split; [reflexivity|]. simpl. split; [discriminate|].
    intros (? & ? & ? & _). discriminate.
  - destruct data as [[|row rows]|]; simpl.
    + eexists; split; [reflexivity|]. simpl. split; [discriminate|].
      intros (? & ? & ? & _). discriminate.
    + eexists; split; [reflexivity|]. simpl. split.
      * intros H. now exists row, rows.
      * now intros (? & ? & [= <- <-] & H).
    + eexists; split; [reflexivity|]. simpl. split; [discriminate|].
      intros (? & ? & ? & _). discriminate.
  - eexists; split; [reflexivity|]. simpl. split; [discriminate|].
    intros (? & ? & ? & _). discriminate.
Qed.

End FunctionCoverage.

Section FunctionCoverageExamples.
Import JsString JsValue Http World PremiumStatusFunction Fixtures Samples.

Lemma X26_witness :
  truthy "ann@example.com" = true
  /\ trim "ann@example.com" = "ann@example.com"
  /\ toLowerCase "ann@example.com" = "ann@example.com".
Proof.
  apply (X26_looked_up_email_is_normalised (parse_table []) ann_by_query "ann@example.com").
  vm_compute. reflexivity.
Defined.

Lemma X27_witness :
  status (serve (parse_table [(ann_text, ann_body)]) true members (posted ann_text))
  = 200%Z
  /\ exists e row rows,
       getEmailFromRequest (parse_table [(ann_text, ann_body)]) (posted ann_text) = Some e
       /\ members e = QueryData (Some (row :: rows))
       /\ prop ann_answer "member" = row.
Proof.
  apply (X27_premium_only_from_a_row (parse_table [(ann_text, ann_body)]) true members
           (posted ann_text) ann_answer);
    vm_compute; reflexivity.
Defined.

Lemma X28_witness :
  exists res,
    PremiumStatus.getPremiumStatus ann_fetch " Ann@Example.com" = Ret res
    /\ (PremiumStatus.isPremium res = true <->
        exists row rows,
          members (toLowerCase (trim " Ann@Example.com"))
          = QueryData (Some (row :: rows))
          /\ truthy_val row = true).
Proof.
  apply (X28_helper_and_function_agree (parse_table [(ann_text, ann_body)]) true members
           ann_fetch " Ann@Example.com" ann_text ann_answer (Ret "{isPremium:true}"));
    vm_compute; reflexivity.
Defined.

(** A member is not found under another address. *)
Example stranger_is_not_premium :
  serve (parse_table []) true members
    {| req := {| method := "GET"; headers := ∅; body := "" |};
       searchParams := {[ "email" := "bob@example.com" ]} |}
  = jsonResponse (VObj [("isPremium", VBool false); ("member", VNull)]) 200.
Proof. vm_compute. reflexivity. Qed.

End FunctionCoverageExamples.
